(** * Azure Container Apps capacity planner: the planning core, verified

    A shallow embedding of the capacity-planning functions of the page
    component ([getAvailableIPs], [getPerAppDedicatedNodes],
    [validateAppInput], [validateAllApps], [calculate], [handleSubmit]) and
    the properties the specification states about them.

    Modelling conventions.
    - A JavaScript [number] that holds a count or a resource figure is a
      [Z]; the two places where the source can produce [Infinity] (a
      division by a zero requirement, the GPU axis of an app without GPU)
      use [xnum].  The model therefore covers integer inputs in the range
      where double arithmetic is exact, and does not distinguish [-0].
    - A JavaScript string is a [string]: a sequence of code units below 256.
    - [null], [undefined] and [NaN] are explicit constructors or [None].
    - Loops that push onto a local array or add to a local counter are
      folds over the list with the accumulator written out. *)

From Stdlib Require Import ZArith List String Ascii Bool Lia DecimalString DecimalPos Permutation.
Import ListNotations.

Local Open Scope string_scope.
Local Open Scope Z_scope.

(** ** JavaScript string primitives used by the subnet parser *)

Module JsString.

(** [\d] of the regular expressions, and the digits [parseInt] reads. *)
Definition isDigit (c : ascii) : bool :=
  let n := nat_of_ascii c in (48 <=? n)%nat && (n <=? 57)%nat.

Definition digitValue (c : ascii) : Z := Z.of_nat (nat_of_ascii c) - 48.

(** White space that [parseInt] strips from the front of its argument
    (the code units below 256 among StrWhiteSpaceChar). *)
Definition isWhiteSpace (c : ascii) : bool :=
  let n := nat_of_ascii c in
  ((9 <=? n)%nat && (n <=? 13)%nat) || (n =? 32)%nat || (n =? 160)%nat.

Fixpoint trimStart (s : string) : string :=
  match s with
  | String c r => if isWhiteSpace c then trimStart r else s
  | EmptyString => EmptyString
  end.

(** Reads the longest prefix of decimal digits; [acc] is the value read
    so far and [seen] tells whether a digit was read. *)
Fixpoint readDigits (s : string) (acc : Z) (seen : bool) : option Z :=
  match s with
  | String c r =>
      if isDigit c then readDigits r (10 * acc + digitValue c) true
      else if seen then Some acc else None
  | EmptyString => if seen then Some acc else None
  end.

(** [parseInt(s, 10)]; [None] is [NaN]. *)
Definition parseInt (s : string) : option Z :=
  match trimStart s with
  | String "-" r => option_map Z.opp (readDigits r 0 false)
  | String "+" r => readDigits r 0 false
  | t => readDigits t 0 false
  end.

Definition startsWithSlash (s : string) : bool :=
  match s with
  | String "/" _ => true
  | _ => false
  end.

(** [s.slice(1)] *)
Definition slice1 (s : string) : string :=
  match s with
  | String _ r => r
  | EmptyString => EmptyString
  end.

Fixpoint allDigits (s : string) : bool :=
  match s with
  | String c r => isDigit c && allDigits r
  | EmptyString => true
  end.

(** [/^\d+$/.test(s)] *)
Definition isDigitString (s : string) : bool :=
  match s with
  | EmptyString => false
  | _ => allDigits s
  end.

(** [s.split(sep)] for a one-character separator: never the empty list. *)
Fixpoint split (sep : ascii) (s : string) : list string :=
  match s with
  | EmptyString => [EmptyString]
  | String c r =>
      if Ascii.eqb c sep then EmptyString :: split sep r
      else match split sep r with
           | p :: ps => String c p :: ps
           | [] => [String c EmptyString]
           end
  end.

(** [/^\d+\.\d+\.\d+\.\d+$/.test(s)]: four non-empty groups of digits
    separated by dots. *)
Definition isDottedQuad (s : string) : bool :=
  match split "." s with
  | [a; b; c; d] =>
      isDigitString a && isDigitString b && isDigitString c && isDigitString d
  | _ => false
  end.

(** [Number(s)] on a string of digits, as the exact integer the digits
    write.  This is the value the code has up to [2^53]; above it the
    double of the code rounds, so the properties that depend on the value of
    an octet are stated for octets below [2^53]. *)
Definition NumberOfDigits (s : string) : Z :=
  match readDigits s 0 false with
  | Some n => n
  | None => 0
  end.

Fixpoint binaryOfPositive (p : positive) : string :=
  match p with
  | xH => "1"
  | xO q => binaryOfPositive q ++ "0"
  | xI q => binaryOfPositive q ++ "1"
  end.

(** [n.toString(2)] for a natural number [n]. *)
Definition toString2 (n : Z) : string :=
  match n with
  | Zpos p => binaryOfPositive p
  | _ => "0"
  end.

Fixpoint repeatChar (c : ascii) (n : nat) : string :=
  match n with
  | O => EmptyString
  | S k => String c (repeatChar c k)
  end.

(** [s.padStart(8, "0")] *)
Definition padStart8 (s : string) : string :=
  repeatChar "0" (8 - String.length s) ++ s.

(** [parts.join("")] *)
Definition joinEmpty (l : list string) : string :=
  fold_right String.append EmptyString l.

(** [parts.join(sep)] *)
Fixpoint join (sep : string) (l : list string) : string :=
  match l with
  | [] => EmptyString
  | [x] => x
  | x :: r => x ++ sep ++ join sep r
  end.

(** [String(n)] for an integer [n]. *)
Definition ofZ (n : Z) : string := NilZero.string_of_int (Z.to_int n).

End JsString.

Import JsString.

(** ** Available addresses of a subnet *)

(** The local [bits: number | null], with [NaN] kept apart from [null]. *)
Inductive Bits : Type :=
| BitsNull
| BitsNaN
| BitsNum (n : Z).

Definition bitsOfParse (r : option Z) : Bits :=
  match r with
  | Some n => BitsNum n
  | None => BitsNaN
  end.

(** The set bits of a dotted-decimal netmask:
    [bin.split("1").length - 1] over the joined, padded binary octets. *)
Definition maskBits (subnet : string) : Z :=
  let parts := map NumberOfDigits (split "." subnet) in
  let bin := joinEmpty (map (fun n => padStart8 (toString2 n)) parts) in
  Z.of_nat (List.length (split "1" bin)) - 1.

(** The three accepted forms, in the order the source tests them. *)
Definition subnetBits (subnet : string) : Bits :=
  if startsWithSlash subnet then bitsOfParse (parseInt (slice1 subnet))
  else if isDigitString subnet then bitsOfParse (parseInt subnet)
  else if isDottedQuad subnet then BitsNum (maskBits subnet)
  else BitsNull.

(** [getAvailableIPs]: [None] is the [null] result.  The guard
    [bits && bits >= 0 && bits <= 32] fails on [null], on [NaN] and on [0],
    which are the falsy values of [bits]. *)
Definition getAvailableIPs (subnet : string) : option Z :=
  match subnetBits subnet with
  | BitsNum bits =>
      if negb (bits =? 0) && (0 <=? bits) && (bits <=? 32)
      then Some (2 ^ (32 - bits) - 14)
      else None
  | _ => None
  end.

(** The three textual forms of a prefix length, as a caller writes them. *)
Definition slashForm (n : Z) : string := "/" ++ ofZ n.
Definition bareForm (n : Z) : string := ofZ n.

Definition maskValue (n : Z) : Z := 2 ^ 32 - 2 ^ (32 - n).

Definition maskForm (n : Z) : string :=
  let m := maskValue n in
  join "." [ofZ (m / 2 ^ 24 mod 256); ofZ (m / 2 ^ 16 mod 256);
            ofZ (m / 2 ^ 8 mod 256); ofZ (m mod 256)].

(** ** Data model *)

Inductive PlanType : Type :=
| Consumption
| Dedicated.

(** [type PlanChoice = PlanType | "Mix"] *)
Inductive PlanChoice : Type :=
| Plan (p : PlanType)
| Mix.

Definition planTypeName (p : PlanType) : string :=
  match p with
  | Consumption => "Consumption"
  | Dedicated => "Dedicated"
  end.

(** [AppInput]; [plan] and [baselineTouched] are optional fields. *)
Module AppInput.
Record t : Type := mk {
  name : string;
  cpu : Z;
  gpu : Z;
  ram : Z;
  minReplicas : Z;
  baselineReplicas : Z;
  replicas : Z;
  plan : option PlanType;
  baselineTouched : option bool
}.
End AppInput.

(** An entry of [DEDICATED_NODE_TYPES]. *)
Module NodeType.
Record t : Type := mk {
  name : string;
  cpu : Z;
  ram : Z;
  gpu : Z
}.
End NodeType.

Definition DEDICATED_NODE_TYPES : list NodeType.t :=
  [ NodeType.mk "D4" 4 16 0;
    NodeType.mk "D8" 8 32 0;
    NodeType.mk "D16" 16 64 0;
    NodeType.mk "D32" 32 128 0;
    NodeType.mk "E4" 4 32 0;
    NodeType.mk "E8" 8 64 0;
    NodeType.mk "E16" 16 128 0;
    NodeType.mk "E32" 32 256 0;
    NodeType.mk "NC24-A100" 24 220 1;
    NodeType.mk "NC48-A100" 48 440 2;
    NodeType.mk "NC96-A100" 96 880 4 ].

(** ** Numbers that may be infinite *)

(** The values [perNodeCapacity] can take: a quotient of integers, or what
    a division by zero gives. *)
Inductive xnum : Type :=
| NaN
| NegInfinity
| Fin (z : Z)
| Infinity.

(** [Math.floor(n / a)] *)
Definition floorDiv (n a : Z) : xnum :=
  if a =? 0 then
    if 0 <? n then Infinity else if n <? 0 then NegInfinity else NaN
  else Fin (n / a).

(** [Math.min] of two values. *)
Definition xmin (x y : xnum) : xnum :=
  match x, y with
  | NaN, _ | _, NaN => NaN
  | NegInfinity, _ | _, NegInfinity => NegInfinity
  | Infinity, v | v, Infinity => v
  | Fin a, Fin b => Fin (Z.min a b)
  end.

(** [x > 0] *)
Definition xpositive (x : xnum) : bool :=
  match x with
  | Fin z => 0 <? z
  | Infinity => true
  | _ => false
  end.

(** [Math.ceil(r / p)] for integers [r] and [p] with [p > 0]. *)
Definition ceilDiv (r p : Z) : Z := - ((- r) / p).

(** [Math.ceil(r / x)] where [x > 0] has been tested: a finite count
    divided by [Infinity] is zero. *)
Definition xceilDiv (r : Z) (x : xnum) : Z :=
  match x with
  | Fin p => ceilDiv r p
  | _ => 0
  end.

(** [String(x)] *)
Definition xnumString (x : xnum) : string :=
  match x with
  | NaN => "NaN"
  | NegInfinity => "-Infinity"
  | Fin z => ofZ z
  | Infinity => "Infinity"
  end.

(** ** Fit resolver *)

(** The predicate handed to [DEDICATED_NODE_TYPES.find]. *)
Definition fits (app : AppInput.t) (n : NodeType.t) : bool :=
  (AppInput.cpu app <=? NodeType.cpu n)
  && (AppInput.ram app <=? NodeType.ram n)
  && (AppInput.gpu app <=? NodeType.gpu n).

Definition findNodeType (app : AppInput.t) : option NodeType.t :=
  find (fits app) DEDICATED_NODE_TYPES.

(** ** Dedicated accounting, per app *)

Module PerAppResult.
Record t : Type := mk {
  appName : string;
  nodeType : option NodeType.t;
  nodeTypeName : string;
  replicas : Z;
  nodesNeeded : Z;
  perNodeCapacity : xnum;
  plan : string;
  minReplicas : Z
}.
End PerAppResult.

(** [name || "(unnamed)"] *)
Definition orUnnamed (name : string) : string :=
  match name with
  | EmptyString => "(unnamed)"
  | _ => name
  end.

Definition NO_NODE_WARNING : string :=
  "No suitable node type found for one or more apps.".

(** The replica count of the phase: [useMinReplicas ? app.minReplicas : app.replicas]. *)
Definition phaseReplicas (useMinReplicas : bool) (app : AppInput.t) : Z :=
  if useMinReplicas then AppInput.minReplicas app else AppInput.replicas app.

Definition perNodeCapacityOf (n : NodeType.t) (app : AppInput.t) : xnum :=
  xmin (xmin (floorDiv (NodeType.cpu n) (AppInput.cpu app))
             (floorDiv (NodeType.ram n) (AppInput.ram app)))
       (if 0 <? AppInput.gpu app
        then floorDiv (NodeType.gpu n) (AppInput.gpu app)
        else Infinity).

Definition nodesNeededOf (replicas : Z) (perNodeCapacity : xnum) : Z :=
  if xpositive perNodeCapacity then xceilDiv replicas perNodeCapacity else 0.

(** The locals of [getPerAppDedicatedNodes], which are also its result. *)
Module DedicatedNodes.
Record t : Type := mk {
  perApp : list PerAppResult.t;
  totalNodes : Z;
  warning : option string
}.
End DedicatedNodes.

(** One turn of the [for (const app of apps)] loop. *)
Definition dedicatedStep (useMinReplicas : bool)
    (acc : DedicatedNodes.t) (app : AppInput.t) : DedicatedNodes.t :=
  let replicas := phaseReplicas useMinReplicas app in
  match findNodeType app with
  | None =>
      DedicatedNodes.mk
        (DedicatedNodes.perApp acc ++
           [PerAppResult.mk (orUnnamed (AppInput.name app)) None "N/A"
              replicas 0 (Fin 0) "Dedicated (N/A)" (AppInput.minReplicas app)])
        (DedicatedNodes.totalNodes acc)
        (Some NO_NODE_WARNING)
  | Some nodeType =>
      let perNodeCapacity := perNodeCapacityOf nodeType app in
      let nodesNeeded := nodesNeededOf replicas perNodeCapacity in
      DedicatedNodes.mk
        (DedicatedNodes.perApp acc ++
           [PerAppResult.mk (orUnnamed (AppInput.name app)) (Some nodeType)
              (NodeType.name nodeType) replicas nodesNeeded perNodeCapacity
              ("Dedicated (" ++ NodeType.name nodeType ++ ")")
              (AppInput.minReplicas app)])
        (DedicatedNodes.totalNodes acc + nodesNeeded)
        (DedicatedNodes.warning acc)
  end.

Definition getPerAppDedicatedNodes (apps : list AppInput.t)
    (useMinReplicas : bool) : DedicatedNodes.t :=
  fold_left (dedicatedStep useMinReplicas) apps (DedicatedNodes.mk [] 0 None).

(** ** Validation *)

(** [validateAppInput]: the first limit the app exceeds, when Consumption
    accounting applies to it; [None] is [null]. *)
Definition isConsumption (app : AppInput.t) (planChoice : PlanChoice) : bool :=
  match planChoice with
  | Plan Consumption => true
  | Mix =>
      match AppInput.plan app with
      | Some Consumption => true
      | _ => false
      end
  | Plan Dedicated => false
  end.

Definition validateAppInput (app : AppInput.t) (planChoice : PlanChoice)
    : option string :=
  if isConsumption app planChoice then
    if 4 <? AppInput.cpu app
    then Some "CPU must not exceed 4 for Consumption plan."
    else if 8 <? AppInput.ram app
    then Some "RAM must not exceed 8GB for Consumption plan."
    else if 0 <? AppInput.gpu app
    then Some "GPU is not supported for Consumption plan."
    else None
  else None.

(** [`App ${app.name || idx + 1}: `] *)
Definition appLabel (app : AppInput.t) (idx : nat) : string :=
  "App " ++
  match AppInput.name app with
  | EmptyString => ofZ (Z.of_nat idx + 1)
  | n => n
  end ++ ": ".

(** The strings one turn of the [forEach] pushes, for each of the two
    revisions of the submit handler. *)
Definition limitErrors (planChoice : PlanChoice)
    (app : AppInput.t) (idx : nat) : list string :=
  match validateAppInput app planChoice with
  | Some err => [appLabel app idx ++ err]
  | None => []
  end.

(** [if (cond) errors.push(`App ...: ${msg}`)] *)
Definition pushIf (cond : bool) (app : AppInput.t) (idx : nat) (msg : string)
    : list string :=
  if cond then [appLabel app idx ++ msg] else [].

Definition allErrors (planChoice : PlanChoice)
    (app : AppInput.t) (idx : nat) : list string :=
  List.concat
    [ limitErrors planChoice app idx;
      pushIf (AppInput.cpu app <=? 0) app idx "CPU must be greater than 0.";
      pushIf (AppInput.ram app <=? 0) app idx "RAM must be greater than 0.";
      pushIf (AppInput.replicas app <? AppInput.minReplicas app) app idx
        "Min Replicas must be less than or equal to Max Replicas.";
      pushIf ((AppInput.baselineReplicas app <? AppInput.minReplicas app)
              || (AppInput.replicas app <? AppInput.baselineReplicas app))
        app idx "Baseline Replicas must be between Min and Max Replicas." ].

(** [apps.forEach((app, idx) => ...)] pushing onto [errors]. *)
Fixpoint forEachIdx (body : AppInput.t -> nat -> list string)
    (apps : list AppInput.t) (idx : nat) (errors : list string) : list string :=
  match apps with
  | [] => errors
  | app :: rest => forEachIdx body rest (S idx) (errors ++ body app idx)%list
  end.

Definition validateAllApps (apps : list AppInput.t) (planChoice : PlanChoice)
    : list string :=
  forEachIdx (allErrors planChoice) apps 0%nat [].

(** ** The planner *)

(** [Math.ceil(replicas / 10)] *)
Definition ceil10 (replicas : Z) : Z := ceilDiv replicas 10.

(** [app.minReplicas || 1] *)
Definition minReplicasOr1 (app : AppInput.t) : Z :=
  if AppInput.minReplicas app =? 0 then 1 else AppInput.minReplicas app.

Definition SUBNET_WARNING : string :=
  "Minimum subnet size for integration is /27!".

(** The opening of [calculate]: only the [/N] and bare forms are read. *)
Definition subnetWarning (subnet : string) : string :=
  let bits :=
    if startsWithSlash subnet then bitsOfParse (parseInt (slice1 subnet))
    else if isDigitString subnet then bitsOfParse (parseInt subnet)
    else BitsNull in
  match bits with
  | BitsNum n => if 27 <? n then SUBNET_WARNING else ""
  | _ => ""
  end.

(** The [nodes] cell of an assignment row: ["-"] or a count. *)
Inductive NodesCell : Type :=
| NodesDash
| NodesCount (n : Z).

Module AppAssignment.
Record t : Type := mk {
  name : string;
  plan : string;
  replicas : Z;
  minReplicas : Z;
  ipUsed : option Z;
  nodeType : string;
  nodes : NodesCell;
  perNodeCapacity : option xnum
}.
End AppAssignment.

Module PlanResult.
Record t : Type := mk {
  plan : string;
  ips : Z;
  doubledIPs : Z;
  details : string;
  appAssignments : list AppAssignment.t;
  warning : option string;
  perAppDedicated : option (list PerAppResult.t);
  minReplicas : Z
}.
End PlanResult.

(** One turn of the Consumption [forEach]: [consIPs += ipUsed] and a row
    pushed onto [appAssignments]. *)
Definition consumptionStep (acc : Z * list AppAssignment.t)
    (app : AppInput.t) : Z * list AppAssignment.t :=
  let ipUsed := ceil10 (AppInput.replicas app) in
  (fst acc + ipUsed,
   (snd acc ++
      [AppAssignment.mk (orUnnamed (AppInput.name app)) "Consumption"
         (AppInput.replicas app) (AppInput.minReplicas app)
         (Some ipUsed) "-" NodesDash None])%list).

(** The row pushed for each entry of [dedResult.perApp]. *)
Definition dedicatedRow (appRes : PerAppResult.t) : AppAssignment.t :=
  AppAssignment.mk (PerAppResult.appName appRes) (PerAppResult.plan appRes)
    (PerAppResult.replicas appRes) (PerAppResult.minReplicas appRes)
    None (PerAppResult.nodeTypeName appRes)
    (NodesCount (PerAppResult.nodesNeeded appRes))
    (Some (PerAppResult.perNodeCapacity appRes)).

Definition consumptionDetail (a : AppInput.t) : string :=
  orUnnamed (AppInput.name a) ++ ": " ++ ofZ (ceil10 (AppInput.replicas a))
  ++ " IPs (Consumption)".

Definition dedicatedDetail (a : PerAppResult.t) : string :=
  PerAppResult.appName a ++ ": " ++ ofZ (PerAppResult.nodesNeeded a) ++ " x "
  ++ PerAppResult.nodeTypeName a ++ " (up to "
  ++ xnumString (PerAppResult.perNodeCapacity a) ++ " per node)".

(** [.filter(Boolean)] on an array of [string | null]. *)
Fixpoint filterBoolean (l : list (option string)) : list string :=
  match l with
  | [] => []
  | Some (String c r) :: t => String c r :: filterBoolean t
  | _ :: t => filterBoolean t
  end.

(** [warning || dedResult.warning] *)
Definition orWarning (warning : string) (other : option string) : option string :=
  match warning with
  | EmptyString => other
  | _ => Some warning
  end.

Definition hasPlan (p : PlanType) (a : AppInput.t) : bool :=
  match AppInput.plan a, p with
  | Some Consumption, Consumption => true
  | Some Dedicated, Dedicated => true
  | _, _ => false
  end.

Definition sumZ (f : AppInput.t -> Z) (apps : list AppInput.t) : Z :=
  fold_left (fun sum app => sum + f app) apps 0.

Definition calculate (apps : list AppInput.t) (subnet : string)
    (planChoice : PlanChoice) : PlanResult.t :=
  let warning := subnetWarning subnet in
  let totalMinReplicas := sumZ minReplicasOr1 apps in
  match planChoice with
  | Mix =>
      let consApps := filter (hasPlan Consumption) apps in
      let dedApps := filter (hasPlan Dedicated) apps in
      let '(consIPs, consRows) := fold_left consumptionStep consApps (0, []) in
      let dedResult := getPerAppDedicatedNodes dedApps false in
      let appAssignments :=
        (consRows ++ map dedicatedRow (DedicatedNodes.perApp dedResult))%list in
      let dedIPs := DedicatedNodes.totalNodes dedResult in
      let totalIPs := consIPs + dedIPs in
      let details :=
        join "; "
          (filterBoolean
             [ if (0 <? List.length consApps)%nat
               then Some (join "; " (map consumptionDetail consApps))
               else None;
               if (0 <? List.length (DedicatedNodes.perApp dedResult))%nat
               then Some (join "; "
                            (map dedicatedDetail (DedicatedNodes.perApp dedResult)))
               else None ]) in
      PlanResult.mk "Mix" totalIPs
        (sumZ (fun app => ceil10 (minReplicasOr1 app)) consApps
         + DedicatedNodes.totalNodes (getPerAppDedicatedNodes dedApps true))
        details appAssignments
        (orWarning warning (DedicatedNodes.warning dedResult))
        (Some (DedicatedNodes.perApp dedResult))
        totalMinReplicas
  | Plan Consumption =>
      let '(consIPs, appAssignments) := fold_left consumptionStep apps (0, []) in
      let doubledIPs := sumZ (fun app => ceil10 (minReplicasOr1 app)) apps in
      PlanResult.mk "Consumption" consIPs doubledIPs
        ("Consumption apps: " ++ ofZ (Z.of_nat (List.length apps)))
        appAssignments (Some warning) None totalMinReplicas
  | Plan Dedicated =>
      let dedResult := getPerAppDedicatedNodes apps false in
      let appAssignments := map dedicatedRow (DedicatedNodes.perApp dedResult) in
      PlanResult.mk "Dedicated" (DedicatedNodes.totalNodes dedResult)
        (DedicatedNodes.totalNodes (getPerAppDedicatedNodes apps true))
        match DedicatedNodes.warning dedResult with
        | Some w => w
        | None => join "; " (map dedicatedDetail (DedicatedNodes.perApp dedResult))
        end
        appAssignments
        (orWarning warning (DedicatedNodes.warning dedResult))
        (Some (DedicatedNodes.perApp dedResult))
        totalMinReplicas
  end.

(** ** The submit handler *)

(** The state cells of the page component that the handler reads or sets. *)
Module Home.
Record t : Type := mk {
  apps : list AppInput.t;
  subnetSize : string;
  planChoice : PlanChoice;
  result : option PlanResult.t;
  inputErrors : list string
}.
End Home.

(** [handleSubmit] as it reads before [validateAllApps] exists (the text of
    src/app/page.tsx, kept by the first revision that has this [calculate]):
    only the plan limits are checked. *)
Definition handleSubmitLimits (st : Home.t) : Home.t :=
  let errors :=
    forEachIdx (limitErrors (Home.planChoice st)) (Home.apps st) 0%nat [] in
  if (0 <? List.length errors)%nat then
    Home.mk (Home.apps st) (Home.subnetSize st) (Home.planChoice st)
      (Home.result st) errors
  else
    Home.mk (Home.apps st) (Home.subnetSize st) (Home.planChoice st)
      (Some (calculate (Home.apps st) (Home.subnetSize st) (Home.planChoice st)))
      errors.

(** [handleSubmit] of the latest revision: [validateAllApps] first. *)
Definition handleSubmit (st : Home.t) : Home.t :=
  let errors := validateAllApps (Home.apps st) (Home.planChoice st) in
  if (0 <? List.length errors)%nat then
    Home.mk (Home.apps st) (Home.subnetSize st) (Home.planChoice st)
      (Home.result st) errors
  else
    Home.mk (Home.apps st) (Home.subnetSize st) (Home.planChoice st)
      (Some (calculate (Home.apps st) (Home.subnetSize st) (Home.planChoice st)))
      errors.

(** ** Suggested compute allocation *)

(** A cell of type [number | string]. *)
Inductive Cell : Type :=
| CellText (s : string)
| CellNumber (x : xnum).

Module ComputeRow.
Record t : Type := mk {
  appName : string;
  plan : string;
  baselineReplicas : Z;
  computeType : string;
  nodesNeeded : Cell;
  perNodeCapacity : Cell;
  allocation : string
}.
End ComputeRow.

(** [consApps] and [dedApps] of a plan choice. *)
Definition splitByPlan (apps : list AppInput.t) (planChoice : PlanChoice)
    : list AppInput.t * list AppInput.t :=
  match planChoice with
  | Mix => (filter (hasPlan Consumption) apps, filter (hasPlan Dedicated) apps)
  | Plan Consumption => (apps, [])
  | Plan Dedicated => ([], apps)
  end.

(** [startReplica] and [endReplica] of a node. *)
Definition replicaRange (baseline perNodeCapacity node : Z) : Z * Z :=
  let startReplica := (node - 1) * perNodeCapacity + 1 in
  let endReplica := node * perNodeCapacity in
  (startReplica, if baseline <? endReplica then baseline else endReplica).

(** The string pushed onto [nodeAssignments] for a node. *)
Definition nodeAssignmentText (nodeName : string) (baseline perNodeCapacity node : Z)
    : string :=
  if baseline =? 1
  then "Node " ++ ofZ node ++ " (" ++ nodeName ++ ")"
  else "Node " ++ ofZ node ++ " (" ++ nodeName ++ "): replicas "
       ++ ofZ (fst (replicaRange baseline perNodeCapacity node)) ++ "-"
       ++ ofZ (snd (replicaRange baseline perNodeCapacity node)).

(** The values of [node] in [for (node = 1; node <= nodesNeeded; node++)]. *)
Definition nodeNumbers (nodesNeeded : Z) : list Z :=
  map Z.of_nat (seq 1 (Z.to_nat nodesNeeded)).

(** The allocation string.  The loop runs only when [nodesNeeded > 0] and
    [perNodeCapacity > 0], and [nodesNeeded] is zero unless the capacity is
    finite. *)
Definition allocationText (nodeName : string) (baseline nodesNeeded : Z)
    (perNodeCapacity : xnum) : string :=
  match perNodeCapacity with
  | Fin p =>
      if (0 <? nodesNeeded) && (0 <? p)
      then join ", " (map (nodeAssignmentText nodeName baseline p)
                        (nodeNumbers nodesNeeded))
      else "-"
  | _ => "-"
  end.

Definition consumptionComputeRow (app : AppInput.t) : ComputeRow.t :=
  ComputeRow.mk (orUnnamed (AppInput.name app)) "Consumption"
    (AppInput.baselineReplicas app) "Consumption"
    (CellText "-") (CellText "-") "-".

Definition dedicatedComputeRow (app : AppInput.t) : ComputeRow.t :=
  match findNodeType app with
  | None =>
      ComputeRow.mk (orUnnamed (AppInput.name app)) "Dedicated"
        (AppInput.baselineReplicas app) "N/A"
        (CellText "N/A") (CellText "N/A") "No suitable node type"
  | Some nodeType =>
      let perNodeCapacity := perNodeCapacityOf nodeType app in
      let nodesNeeded :=
        nodesNeededOf (AppInput.baselineReplicas app) perNodeCapacity in
      ComputeRow.mk (orUnnamed (AppInput.name app)) "Dedicated"
        (AppInput.baselineReplicas app) (NodeType.name nodeType)
        (CellNumber (Fin nodesNeeded)) (CellNumber perNodeCapacity)
        (allocationText (NodeType.name nodeType)
           (AppInput.baselineReplicas app) nodesNeeded perNodeCapacity)
  end.

(** [suggestComputeAllocation]: the Consumption rows, then the Dedicated
    rows. *)
Definition suggestComputeAllocation (apps : list AppInput.t)
    (planChoice : PlanChoice) : list ComputeRow.t :=
  let '(consApps, dedApps) := splitByPlan apps planChoice in
  (map consumptionComputeRow consApps ++ map dedicatedComputeRow dedApps)%list.

(** ** The handlers of the page *)

(** The state of the page: the cells of [Home.t] and the suggested
    allocation. *)
Module Page.
Record t : Type := mk {
  home : Home.t;
  computeAlloc : option (list ComputeRow.t)
}.
End Page.

Definition setApps (apps : list AppInput.t) (st : Page.t) : Page.t :=
  Page.mk
    (Home.mk apps (Home.subnetSize (Page.home st)) (Home.planChoice (Page.home st))
       (Home.result (Page.home st)) (Home.inputErrors (Page.home st)))
    (Page.computeAlloc st).

Definition setInputErrors (errors : list string) (st : Page.t) : Page.t :=
  Page.mk
    (Home.mk (Home.apps (Page.home st)) (Home.subnetSize (Page.home st))
       (Home.planChoice (Page.home st)) (Home.result (Page.home st)) errors)
    (Page.computeAlloc st).

Definition setPlanChoice (planChoice : PlanChoice) (st : Page.t) : Page.t :=
  Page.mk
    (Home.mk (Home.apps (Page.home st)) (Home.subnetSize (Page.home st))
       planChoice (Home.result (Page.home st)) (Home.inputErrors (Page.home st)))
    (Page.computeAlloc st).

Definition setComputeAlloc (rows : option (list ComputeRow.t)) (st : Page.t)
    : Page.t :=
  Page.mk (Page.home st) rows.

(** The pair [(field, value)] of [handleAppChange] as the form produces
    it: the text for [name], one of the two plan names for [plan], and
    [Number(value)], an integer here, for the numeric fields. *)
Inductive Change : Type :=
| ChangeName (value : string)
| ChangePlan (value : PlanType)
| ChangeBaselineReplicas (value : Z)
| ChangeCpu (value : Z)
| ChangeGpu (value : Z)
| ChangeRam (value : Z)
| ChangeMinReplicas (value : Z)
| ChangeReplicas (value : Z).

(** [!app.baselineTouched] *)
Definition untouched (app : AppInput.t) : bool :=
  match AppInput.baselineTouched app with
  | Some true => false
  | _ => true
  end.

(** [Math.round(min + (max - min) / 2)] *)
Definition midpoint (min max : Z) : Z := (min + max + 1) / 2.

Definition withReplicas (app : AppInput.t) (minReplicas baselineReplicas replicas : Z)
    (baselineTouched : option bool) : AppInput.t :=
  AppInput.mk (AppInput.name app) (AppInput.cpu app) (AppInput.gpu app)
    (AppInput.ram app) minReplicas baselineReplicas replicas
    (AppInput.plan app) baselineTouched.

Definition withResources (app : AppInput.t) (cpu gpu ram : Z) : AppInput.t :=
  AppInput.mk (AppInput.name app) cpu gpu ram (AppInput.minReplicas app)
    (AppInput.baselineReplicas app) (AppInput.replicas app)
    (AppInput.plan app) (AppInput.baselineTouched app).

(** The baseline follows the bounds while it has not been edited:
    the last [if] of the numeric branch. *)
Definition followBounds (app : AppInput.t) : AppInput.t :=
  if untouched app
  then withReplicas app (AppInput.minReplicas app)
         (midpoint (AppInput.minReplicas app) (AppInput.replicas app))
         (AppInput.replicas app) (AppInput.baselineTouched app)
  else app.

(** What [handleAppChange] does to [updated[idx]]: the new app and the
    validation message, empty when there is none. *)
Definition changeApp (app : AppInput.t) (idx : nat) (change : Change)
    : AppInput.t * string :=
  match change with
  | ChangeName value =>
      (AppInput.mk value (AppInput.cpu app) (AppInput.gpu app) (AppInput.ram app)
         (AppInput.minReplicas app) (AppInput.baselineReplicas app)
         (AppInput.replicas app) (AppInput.plan app)
         (AppInput.baselineTouched app), "")
  | ChangePlan value =>
      (AppInput.mk (AppInput.name app) (AppInput.cpu app) (AppInput.gpu app)
         (AppInput.ram app) (AppInput.minReplicas app)
         (AppInput.baselineReplicas app) (AppInput.replicas app)
         (Some value) (AppInput.baselineTouched app), "")
  | ChangeBaselineReplicas value =>
      if AppInput.replicas app <? value then
        let biggest := Z.max value (AppInput.replicas app) in
        (withReplicas app (AppInput.minReplicas app) biggest biggest (Some false),
         appLabel app idx
         ++ "Baseline Replicas cannot be greater than Max Replicas. Both set to "
         ++ ofZ biggest ++ ".")
      else
        (withReplicas app (AppInput.minReplicas app) value
           (AppInput.replicas app) (Some true), "")
  | ChangeCpu value =>
      if value <=? 0
      then (withResources app 1 (AppInput.gpu app) (AppInput.ram app),
            appLabel app idx ++ "CPU must be greater than 0. Value set to 1.")
      else (withResources app value (AppInput.gpu app) (AppInput.ram app), "")
  | ChangeGpu value =>
      (withResources app (AppInput.cpu app) value (AppInput.ram app), "")
  | ChangeRam value =>
      if value <=? 0
      then (withResources app (AppInput.cpu app) (AppInput.gpu app) 1,
            appLabel app idx ++ "RAM must be greater than 0. Value set to 1.")
      else (withResources app (AppInput.cpu app) (AppInput.gpu app) value, "")
  | ChangeMinReplicas value =>
      if (AppInput.replicas app <? value)
         || (AppInput.baselineReplicas app <? value)
      then
        let biggest :=
          Z.max (Z.max value (AppInput.replicas app))
            (AppInput.baselineReplicas app) in
        (withReplicas app biggest biggest biggest (Some false),
         appLabel app idx
         ++ "Min Replicas cannot be greater than Max or Baseline. All set to "
         ++ ofZ biggest ++ ".")
      else
        (followBounds
           (withReplicas app value (AppInput.baselineReplicas app)
              (AppInput.replicas app) (AppInput.baselineTouched app)), "")
  | ChangeReplicas value =>
      (followBounds
         (withReplicas app (AppInput.minReplicas app)
            (AppInput.baselineReplicas app) value
            (AppInput.baselineTouched app)), "")
  end.

(** [updated[idx] = app] on a copy of the list. *)
Fixpoint replaceAt (idx : nat) (app : AppInput.t) (apps : list AppInput.t)
    : list AppInput.t :=
  match apps, idx with
  | [], _ => []
  | _ :: rest, O => app :: rest
  | a :: rest, S k => a :: replaceAt k app rest
  end.

(** [handleAppChange]; [None] when [updated[idx]] is undefined and the
    assignment throws.  The timer that clears the message later is not
    part of the model. *)
Definition handleAppChange (idx : nat) (change : Change) (st : Page.t)
    : option Page.t :=
  match nth_error (Home.apps (Page.home st)) idx with
  | None => None
  | Some app =>
      let '(app', validationMessage) := changeApp app idx change in
      let st' := setApps (replaceAt idx app' (Home.apps (Page.home st))) st in
      Some match validationMessage with
           | EmptyString => st'
           | _ => setInputErrors [validationMessage] st'
           end
  end.

(** [addApp] *)
Definition addApp (st : Page.t) : Page.t :=
  setApps
    (Home.apps (Page.home st)
     ++ [AppInput.mk "" 0 0 0 1 (midpoint 1 1) 1
           match Home.planChoice (Page.home st) with
           | Mix => Some Consumption
           | _ => None
           end
           (Some false)])%list
    st.

(** [apps.filter((_, i) => i !== idx)] *)
Fixpoint removeAt (idx : nat) (apps : list AppInput.t) : list AppInput.t :=
  match apps, idx with
  | [], _ => []
  | _ :: rest, O => rest
  | a :: rest, S k => a :: removeAt k rest
  end.

Definition removeApp (idx : nat) (st : Page.t) : Page.t :=
  setApps (removeAt idx (Home.apps (Page.home st))) st.

Definition withPlan (plan : option PlanType) (app : AppInput.t) : AppInput.t :=
  AppInput.mk (AppInput.name app) (AppInput.cpu app) (AppInput.gpu app)
    (AppInput.ram app) (AppInput.minReplicas app)
    (AppInput.baselineReplicas app) (AppInput.replicas app) plan
    (AppInput.baselineTouched app).

(** [handlePlanChoiceChange] *)
Definition handlePlanChoiceChange (value : PlanChoice) (st : Page.t) : Page.t :=
  let st' := setPlanChoice value st in
  match value with
  | Mix =>
      setApps (map (withPlan (Some Consumption)) (Home.apps (Page.home st'))) st'
  | _ => setApps (map (withPlan None) (Home.apps (Page.home st'))) st'
  end.

(** The submit handler on the page state. *)
Definition pageSubmit (st : Page.t) : Page.t :=
  Page.mk (handleSubmit (Page.home st)) (Page.computeAlloc st).

(** The two checks that [handleSuggestCompute] makes itself. *)
Definition resourceErrors (app : AppInput.t) (idx : nat) : list string :=
  (pushIf (AppInput.cpu app <=? 0) app idx "CPU must be greater than 0."
   ++ pushIf (AppInput.ram app <=? 0) app idx "RAM must be greater than 0.")%list.

(** [handleSuggestCompute]; no statement of its [try] block throws. *)
Definition handleSuggestCompute (st : Page.t) : Page.t :=
  let apps := Home.apps (Page.home st) in
  let planChoice := Home.planChoice (Page.home st) in
  let errors := forEachIdx resourceErrors apps 0%nat [] in
  let otherErrors := validateAllApps apps planChoice in
  let allErrors := (errors ++ otherErrors)%list in
  if (0 <? List.length allErrors)%nat
  then setComputeAlloc None (setInputErrors allErrors st)
  else setInputErrors []
         (setComputeAlloc (Some (suggestComputeAllocation apps planChoice))
            (setInputErrors allErrors st)).

(** ** Shared-node packing of the earlier revision (src/app/page.tsx) *)

(** An entry [{ name, replicas }] of a node. *)
Module Placement.
Record t : Type := mk {
  name : string;
  replicas : Z
}.
End Placement.

(** An entry [{ node, apps }] of the assignment. *)
Module NodeAssignment.
Record t : Type := mk {
  node : Z;
  apps : list Placement.t
}.
End NodeAssignment.

Module Packed.
Record t : Type := mk {
  nodeType : option NodeType.t;
  nodes : Z;
  assignment : list NodeAssignment.t
}.
End Packed.

(** [maxCpu], [maxRam] and [maxGpu] after the first [forEach]. *)
Definition maxOf (f : AppInput.t -> Z) (apps : list AppInput.t) : Z :=
  fold_left (fun m app => Z.max m (f app)) apps 0.

(** The node type that holds the largest requirement on each axis. *)
Definition findSharedNodeType (apps : list AppInput.t) : option NodeType.t :=
  find (fun node =>
          (maxOf AppInput.cpu apps <=? NodeType.cpu node)
          && (maxOf AppInput.ram apps <=? NodeType.ram node)
          && (maxOf AppInput.gpu apps <=? NodeType.gpu node))
    DEDICATED_NODE_TYPES.

(** The locals of one turn of the [while] loop: what is left of the node,
    the entries pushed for it, and the apps of [remaining] already visited
    by the [for] loop. *)
Module Fill.
Record t : Type := mk {
  nodeCpu : Z;
  nodeRam : Z;
  nodeGpu : Z;
  nodeApps : list Placement.t;
  visited : list AppInput.t
}.
End Fill.

(** [fit]: [Math.min] of the replicas left and of what the node still
    holds on each axis. *)
Definition fitOf (nodeCpu nodeRam nodeGpu : Z) (app : AppInput.t) : xnum :=
  xmin (xmin (xmin (Fin (AppInput.replicas app))
                   (floorDiv nodeCpu (AppInput.cpu app)))
             (floorDiv nodeRam (AppInput.ram app)))
       (if 0 <? AppInput.gpu app
        then floorDiv nodeGpu (AppInput.gpu app)
        else Infinity).

(** [app.name || `(App ${i + 1})`] *)
Definition appKey (app : AppInput.t) (i : nat) : string :=
  match AppInput.name app with
  | EmptyString => "(App " ++ ofZ (Z.of_nat i + 1) ++ ")"
  | n => n
  end.

Definition withReplicaCount (app : AppInput.t) (replicas : Z) : AppInput.t :=
  AppInput.mk (AppInput.name app) (AppInput.cpu app) (AppInput.gpu app)
    (AppInput.ram app) (AppInput.minReplicas app)
    (AppInput.baselineReplicas app) replicas (AppInput.plan app)
    (AppInput.baselineTouched app).

(** One turn of the [for] loop over [remaining].  [fit] is never
    [Infinity], since one argument of [Math.min] is the replica count; the
    other values that are not a positive number fail [fit > 0]. *)
Definition fillStep (acc : Fill.t) (app : AppInput.t) (i : nat) : Fill.t :=
  let keep :=
    Fill.mk (Fill.nodeCpu acc) (Fill.nodeRam acc) (Fill.nodeGpu acc)
      (Fill.nodeApps acc) (Fill.visited acc ++ [app]) in
  match fitOf (Fill.nodeCpu acc) (Fill.nodeRam acc) (Fill.nodeGpu acc) app with
  | Fin fit =>
      if 0 <? fit then
        Fill.mk (Fill.nodeCpu acc - fit * AppInput.cpu app)
          (Fill.nodeRam acc - fit * AppInput.ram app)
          (Fill.nodeGpu acc - fit * AppInput.gpu app)
          (Fill.nodeApps acc ++ [Placement.mk (appKey app i) fit])
          (Fill.visited acc
           ++ [withReplicaCount app (AppInput.replicas app - fit)])
      else keep
  | _ => keep
  end.

Fixpoint fillNode (remaining : list AppInput.t) (i : nat) (acc : Fill.t)
    : Fill.t :=
  match remaining with
  | [] => acc
  | app :: rest => fillNode rest (S i) (fillStep acc app i)
  end.

(** The [while (remaining.some(app => app.replicas > 0))] loop, run for at
    most [fuel] turns; [None] when the turns are used up with replicas still
    left. *)
Fixpoint packLoop (fuel : nat) (nodeType : NodeType.t)
    (remaining : list AppInput.t) (nodes : Z)
    (assignment : list NodeAssignment.t)
    : option (Z * list NodeAssignment.t) :=
  if existsb (fun app => 0 <? AppInput.replicas app) remaining then
    match fuel with
    | O => None
    | S fuel' =>
        let filled :=
          fillNode remaining 0
            (Fill.mk (NodeType.cpu nodeType) (NodeType.ram nodeType)
               (NodeType.gpu nodeType) [] []) in
        packLoop fuel' nodeType (Fill.visited filled) (nodes + 1)
          (assignment ++ [NodeAssignment.mk (nodes + 1) (Fill.nodeApps filled)])
    end
  else Some (nodes, assignment).

(** [packDedicatedNodes] *)
Definition packDedicatedNodes (fuel : nat) (apps : list AppInput.t)
    : option Packed.t :=
  match findSharedNodeType apps with
  | None => Some (Packed.mk None 0 [])
  | Some nodeType =>
      match packLoop fuel nodeType apps 0 [] with
      | Some (nodes, assignment) =>
          Some (Packed.mk (Some nodeType) nodes assignment)
      | None => None
      end
  end.

(** ** Reference definitions

    Closed forms of the loops and the readings of the specification that
    the properties below are stated with. *)

(** What a prefix length is expected to yield. *)
Definition expectedIPs (n : Z) : Z := 2 ^ (32 - n) - 14.

(** The three forms of [n] are read back as [n]. *)
Definition formsParse (n : Z) : bool :=
  match subnetBits (slashForm n), subnetBits (bareForm n),
        subnetBits (maskForm n) with
  | BitsNum a, BitsNum b, BitsNum c => (a =? n) && (b =? n) && (c =? n)
  | _, _, _ => false
  end.

Definition prefixes : list Z := map Z.of_nat (seq 0 33).

(** The row that the Consumption loop pushes for an app. *)
Definition consumptionRow (app : AppInput.t) : AppAssignment.t :=
  AppAssignment.mk (orUnnamed (AppInput.name app)) "Consumption"
    (AppInput.replicas app) (AppInput.minReplicas app)
    (Some (ceil10 (AppInput.replicas app))) "-" NodesDash None.

(** The row that [getPerAppDedicatedNodes] pushes for an app. *)
Definition perAppRow (useMinReplicas : bool) (app : AppInput.t) : PerAppResult.t :=
  match findNodeType app with
  | None =>
      PerAppResult.mk (orUnnamed (AppInput.name app)) None "N/A"
        (phaseReplicas useMinReplicas app) 0 (Fin 0) "Dedicated (N/A)"
        (AppInput.minReplicas app)
  | Some nodeType =>
      PerAppResult.mk (orUnnamed (AppInput.name app)) (Some nodeType)
        (NodeType.name nodeType) (phaseReplicas useMinReplicas app)
        (nodesNeededOf (phaseReplicas useMinReplicas app)
           (perNodeCapacityOf nodeType app))
        (perNodeCapacityOf nodeType app)
        ("Dedicated (" ++ NodeType.name nodeType ++ ")")
        (AppInput.minReplicas app)
  end.

Definition appNodes (useMinReplicas : bool) (app : AppInput.t) : Z :=
  PerAppResult.nodesNeeded (perAppRow useMinReplicas app).

(** No catalog entry fits the app. *)
Definition unfit (app : AppInput.t) : bool :=
  match findNodeType app with
  | None => true
  | Some _ => false
  end.

Definition dedicatedWarning (apps : list AppInput.t) : option string :=
  if existsb unfit apps then Some NO_NODE_WARNING else None.

(** The nodes an app needs under Dedicated accounting for [count] replicas. *)
Definition nodesFor (count : Z) (app : AppInput.t) : Z :=
  match findNodeType app with
  | None => 0
  | Some n => nodesNeededOf count (perNodeCapacityOf n app)
  end.

(** The per-plan accounting of the specification, with the replica count
    of each app given by [count]: a tenth of the count, rounded up, for a
    Consumption app; the nodes needed for a Dedicated app; under Mix the sum
    over the two tagged subsets. *)
Definition planIPs (count : AppInput.t -> Z) (planChoice : PlanChoice)
    (apps : list AppInput.t) : Z :=
  match planChoice with
  | Plan Consumption => sumZ (fun a => ceil10 (count a)) apps
  | Plan Dedicated => sumZ (fun a => nodesFor (count a) a) apps
  | Mix =>
      sumZ (fun a => ceil10 (count a)) (filter (hasPlan Consumption) apps)
      + sumZ (fun a => nodesFor (count a) a) (filter (hasPlan Dedicated) apps)
  end.

Definition tagged (a : AppInput.t) : bool :=
  match AppInput.plan a with
  | Some _ => true
  | None => false
  end.

(** The strings a [forEach] over the apps pushes, from index [idx] on. *)
Fixpoint pushed (body : AppInput.t -> nat -> list string)
    (apps : list AppInput.t) (idx : nat) : list string :=
  match apps with
  | [] => []
  | app :: rest => (body app idx ++ pushed body rest (S idx))%list
  end.

(** The app is under Consumption accounting and exceeds one of its limits. *)
Definition exceedsLimits (planChoice : PlanChoice) (app : AppInput.t) : bool :=
  isConsumption app planChoice
  && ((4 <? AppInput.cpu app) || (8 <? AppInput.ram app)
      || (0 <? AppInput.gpu app)).

(** The number of ones in the binary writing of a number. *)
Fixpoint popcountPos (p : positive) : Z :=
  match p with
  | xH => 1
  | xO q => popcountPos q
  | xI q => popcountPos q + 1
  end.

Definition popcount (n : Z) : Z :=
  match n with
  | Zpos p => popcountPos p
  | _ => 0
  end.

(** A dotted quad written from four numbers. *)
Definition dottedForm (a b c d : Z) : string :=
  join "." [ofZ a; ofZ b; ofZ c; ofZ d].

(** [s.split(sep).length - 1]: how often [sep] occurs in [s]. *)
Definition occurrences (sep : ascii) (s : string) : Z :=
  Z.of_nat (List.length (split sep s)) - 1.

(** What [validateAllApps] asks of an app. *)
Definition appValid (planChoice : PlanChoice) (app : AppInput.t) : Prop :=
  0 < AppInput.cpu app
  /\ 0 < AppInput.ram app
  /\ AppInput.minReplicas app <= AppInput.baselineReplicas app
  /\ AppInput.baselineReplicas app <= AppInput.replicas app
  /\ (isConsumption app planChoice = true ->
      AppInput.cpu app <= 4 /\ AppInput.ram app <= 8 /\ AppInput.gpu app <= 0).

(** The replicas still to place: [max(0, replicas)] over the apps. *)
Definition pending (apps : list AppInput.t) : Z :=
  sumZ (fun a => Z.max 0 (AppInput.replicas a)) apps.

(** The replicas that the entries of a node hold. *)
Definition placedSum (l : list Placement.t) : Z :=
  fold_right (fun p s => Placement.replicas p + s) 0 l.

(** The replicas that an assignment holds in all. *)
Definition placedTotal (l : list NodeAssignment.t) : Z :=
  fold_right (fun n s => placedSum (NodeAssignment.apps n) + s) 0 l.

(** What the replicas taken from [before], leaving [after], use of a
    resource [f]. *)
Fixpoint usage (f : AppInput.t -> Z) (before after : list AppInput.t) : Z :=
  match before, after with
  | b :: bs, a :: rest =>
      (AppInput.replicas b - AppInput.replicas a) * f b + usage f bs rest
  | _, _ => 0
  end.

(** The apps after [ds] replicas have been taken from them, one count per
    app, the entries pushed for these counts, and the counts weighted by a
    resource. *)
Fixpoint takeAll (apps : list AppInput.t) (ds : list Z) : list AppInput.t :=
  match apps, ds with
  | a :: rest, d :: ds' =>
      (if 0 <? d then withReplicaCount a (AppInput.replicas a - d) else a)
      :: takeAll rest ds'
  | _, _ => []
  end.

Fixpoint placeAll (apps : list AppInput.t) (ds : list Z) (i : nat)
    : list Placement.t :=
  match apps, ds with
  | a :: rest, d :: ds' =>
      ((if 0 <? d then [Placement.mk (appKey a i) d] else [])
       ++ placeAll rest ds' (S i))%list
  | _, _ => []
  end.

Fixpoint weighted (f : AppInput.t -> Z) (apps : list AppInput.t) (ds : list Z)
    : Z :=
  match apps, ds with
  | a :: rest, d :: ds' => d * f a + weighted f rest ds'
  | _, _ => 0
  end.

(** A count that one turn of the [for] loop may take from an app. *)
Definition takenOk (a : AppInput.t) (d : Z) : Prop :=
  0 <= d <= Z.max 0 (AppInput.replicas a)
  /\ (AppInput.cpu a < 0 \/ AppInput.ram a < 0 -> d = 0).

(** [x] is [Infinity] or a number not below [f]. *)
Definition atLeast (f : Z) (x : xnum) : Prop :=
  x = Infinity \/ exists q, x = Fin q /\ f <= q.

(** The node type covers the requirement of every app, which is not
    negative in CPU and RAM. *)
Definition covered (nt : NodeType.t) (apps : list AppInput.t) : Prop :=
  forall a, In a apps ->
            0 <= AppInput.cpu a <= NodeType.cpu nt
            /\ 0 <= AppInput.ram a <= NodeType.ram nt
            /\ AppInput.gpu a <= NodeType.gpu nt.

(** * Properties *)

(** ** Subnet parsing *)

Lemma prefixes_complete (n : Z) : 0 <= n <= 32 -> In n prefixes.
Proof.
  intros H. unfold prefixes.
  apply in_map_iff. exists (Z.to_nat n). split; [lia|].
  apply in_seq. lia.
Qed.

Lemma formsParse_all : forallb formsParse prefixes = true.
Proof. vm_compute. reflexivity. Qed.

Lemma forms_parse (n : Z) :
  0 <= n <= 32 ->
  subnetBits (slashForm n) = BitsNum n
  /\ subnetBits (bareForm n) = BitsNum n
  /\ subnetBits (maskForm n) = BitsNum n.
Proof.
  intros H.
  pose proof (proj1 (forallb_forall _ _) formsParse_all n
                (prefixes_complete n H)) as P.
  unfold formsParse in P.
  destruct (subnetBits (slashForm n)); try discriminate.
  destruct (subnetBits (bareForm n)); try discriminate.
  destruct (subnetBits (maskForm n)); try discriminate.
  apply andb_prop in P as [P Pc]. apply andb_prop in P as [Pa Pb].
  apply Z.eqb_eq in Pa, Pb, Pc. subst. auto.
Qed.

(** Once the bit count is a number in [1, 32], the result is the formula. *)
Lemma getAvailableIPs_of_bits (subnet : string) (n : Z) :
  subnetBits subnet = BitsNum n -> 1 <= n <= 32 ->
  getAvailableIPs subnet = Some (expectedIPs n).
Proof.
  intros B H. unfold getAvailableIPs. rewrite B.
  replace (n =? 0) with false by (symmetry; apply Z.eqb_neq; lia).
  replace (0 <=? n) with true by (symmetry; apply Z.leb_le; lia).
  replace (n <=? 32) with true by (symmetry; apply Z.leb_le; lia).
  reflexivity.
Qed.

(** A bit count of zero is refused, as [null] and [NaN] are. *)
Lemma getAvailableIPs_zero_bits (subnet : string) :
  subnetBits subnet = BitsNum 0 -> getAvailableIPs subnet = None.
Proof. intros B. unfold getAvailableIPs. rewrite B. reflexivity. Qed.

(** For the prefix lengths 1 to 32 the three forms agree on the formula. *)
Lemma getAvailableIPs_forms (n : Z) :
  1 <= n <= 32 ->
  getAvailableIPs (slashForm n) = Some (expectedIPs n)
  /\ getAvailableIPs (bareForm n) = Some (expectedIPs n)
  /\ getAvailableIPs (maskForm n) = Some (expectedIPs n).
Proof.
  intros H. destruct (forms_parse n) as (A & B & C); [lia|].
  repeat split; apply getAvailableIPs_of_bits; assumption.
Qed.

Lemma expectedIPs_small (n : Z) : 29 <= n <= 32 -> expectedIPs n < 0.
Proof.
  intros H. unfold expectedIPs.
  assert (n = 29 \/ n = 30 \/ n = 31 \/ n = 32) as [E|[E|[E|E]]] by lia;
    subst n; reflexivity.
Qed.

(** C1, at its boundary: the prefix length 0, written ["/0"], ["0"] or
    ["0.0.0.0"], yields no figure at all, where the formula gives
    [2^32 - 14 = 4294967282].  The guard of [getAvailableIPs] tests the
    truthiness of [bits] before [bits >= 0], and [0] is falsy. *)
Theorem getAvailableIPs_prefix_zero :
  slashForm 0 = "/0" /\ bareForm 0 = "0" /\ maskForm 0 = "0.0.0.0"
  /\ getAvailableIPs "/0" = None
  /\ getAvailableIPs "0" = None
  /\ getAvailableIPs "0.0.0.0" = None
  /\ expectedIPs 0 = 4294967282.
Proof. repeat split; vm_compute; reflexivity. Qed.

(** C9: for a prefix length from 29 to 32, in whichever accepted form it
    is written, [getAvailableIPs] returns the negative number
    [2^(32-N) - 14] itself: -6 for /29 and -13 for /32, neither [null] nor
    zero. *)
Theorem getAvailableIPs_negative (n : Z) :
  29 <= n <= 32 ->
  (forall subnet, subnetBits subnet = BitsNum n ->
                  getAvailableIPs subnet = Some (2 ^ (32 - n) - 14))
  /\ getAvailableIPs (slashForm n) = Some (2 ^ (32 - n) - 14)
  /\ getAvailableIPs (bareForm n) = Some (2 ^ (32 - n) - 14)
  /\ getAvailableIPs (maskForm n) = Some (2 ^ (32 - n) - 14)
  /\ 2 ^ (32 - n) - 14 < 0
  /\ getAvailableIPs "/29" = Some (-6)
  /\ getAvailableIPs "/32" = Some (-13).
Proof.
  intros H.
  destruct (getAvailableIPs_forms n) as (A & B & C); [lia|].
  split; [|repeat split; try assumption].
  - intros subnet S. apply getAvailableIPs_of_bits; [assumption|lia].
  - apply (expectedIPs_small n H).
Qed.

Lemma getAvailableIPs_negative_witness :
  getAvailableIPs "255.255.255.252" = Some (-10)
  /\ getAvailableIPs (maskForm 30) = Some (-10).
Proof.
  destruct (getAvailableIPs_negative 30 ltac:(lia)) as (G & _ & _ & M & _).
  split; [apply (G "255.255.255.252"); reflexivity | exact M].
Defined.

(** ** Rounding up *)

Lemma ceilDiv_bounds (r p : Z) :
  0 < p -> (ceilDiv r p - 1) * p < r <= ceilDiv r p * p.
Proof.
  intros Hp. unfold ceilDiv.
  pose proof (Z.div_mod (- r) p ltac:(lia)) as D.
  pose proof (Z.mod_pos_bound (- r) p Hp) as M.
  nia.
Qed.

(** [ceilDiv r p] is the least number of bins of size [p] that hold [r]. *)
Lemma ceilDiv_least (r p k : Z) :
  0 < p -> r <= k * p -> ceilDiv r p <= k.
Proof.
  intros Hp Hk. pose proof (ceilDiv_bounds r p Hp). nia.
Qed.

Lemma ceilDiv_unique (r p k : Z) :
  0 < p -> (k - 1) * p < r <= k * p -> ceilDiv r p = k.
Proof.
  intros Hp Hk. pose proof (ceilDiv_bounds r p Hp). nia.
Qed.

Lemma ceilDiv_monotone (r r' p : Z) :
  0 < p -> r <= r' -> ceilDiv r p <= ceilDiv r' p.
Proof.
  intros Hp Hr. apply ceilDiv_least; [assumption|].
  pose proof (ceilDiv_bounds r' p Hp). lia.
Qed.

(** ** Folds of the planner, in closed form *)

Section Sums.

Variable f : AppInput.t -> Z.

Lemma sumZ_from (apps : list AppInput.t) (z : Z) :
  fold_left (fun sum app => sum + f app) apps z = z + sumZ f apps.
Proof.
  unfold sumZ. revert z.
  induction apps as [|a apps IH]; intros z; simpl; [lia|].
  rewrite (IH (z + f a)), (IH (f a)). lia.
Qed.

Lemma sumZ_cons (a : AppInput.t) (apps : list AppInput.t) :
  sumZ f (a :: apps) = f a + sumZ f apps.
Proof. unfold sumZ at 1. simpl. rewrite sumZ_from. lia. Qed.

Lemma sumZ_app (l1 l2 : list AppInput.t) :
  sumZ f (l1 ++ l2) = sumZ f l1 + sumZ f l2.
Proof.
  induction l1 as [|a l1 IH]; [reflexivity|].
  simpl. rewrite !sumZ_cons, IH. lia.
Qed.

Lemma sumZ_insert (l1 l2 : list AppInput.t) (a : AppInput.t) :
  sumZ f (l1 ++ a :: l2) = sumZ f (l1 ++ l2) + f a.
Proof. rewrite !sumZ_app, sumZ_cons. lia. Qed.

Lemma sumZ_ext (g : AppInput.t -> Z) (apps : list AppInput.t) :
  (forall a, f a = g a) -> sumZ f apps = sumZ g apps.
Proof.
  intros E. unfold sumZ. generalize 0.
  induction apps as [|a apps IH]; intros z; [reflexivity|].
  simpl. rewrite E. apply IH.
Qed.

End Sums.

Lemma consumption_fold (apps : list AppInput.t) (z : Z)
    (rows : list AppAssignment.t) :
  fold_left consumptionStep apps (z, rows)
  = (z + sumZ (fun a => ceil10 (AppInput.replicas a)) apps,
     (rows ++ map consumptionRow apps)%list).
Proof.
  revert z rows.
  induction apps as [|a apps IH]; intros z rows; simpl.
  - rewrite app_nil_r. f_equal. unfold sumZ. simpl. lia.
  - unfold consumptionStep at 2. simpl. rewrite IH, sumZ_cons.
    rewrite <- app_assoc. simpl. f_equal. lia.
Qed.

Lemma dedicatedStep_closed (u : bool) (acc : DedicatedNodes.t) (app : AppInput.t) :
  dedicatedStep u acc app
  = DedicatedNodes.mk
      (DedicatedNodes.perApp acc ++ [perAppRow u app])
      (DedicatedNodes.totalNodes acc + appNodes u app)
      (if unfit app then Some NO_NODE_WARNING else DedicatedNodes.warning acc).
Proof.
  unfold dedicatedStep, perAppRow, appNodes, perAppRow, unfit.
  destruct (findNodeType app); simpl; f_equal; lia.
Qed.

Lemma dedicated_fold (u : bool) (apps : list AppInput.t) (acc : DedicatedNodes.t) :
  fold_left (dedicatedStep u) apps acc
  = DedicatedNodes.mk
      (DedicatedNodes.perApp acc ++ map (perAppRow u) apps)
      (DedicatedNodes.totalNodes acc + sumZ (appNodes u) apps)
      (if existsb unfit apps then Some NO_NODE_WARNING
       else DedicatedNodes.warning acc).
Proof.
  revert acc.
  induction apps as [|a apps IH]; intros acc; simpl.
  - rewrite app_nil_r. unfold sumZ. simpl. rewrite Z.add_0_r.
    destruct acc; reflexivity.
  - rewrite IH, dedicatedStep_closed, sumZ_cons. simpl.
    rewrite <- app_assoc. simpl. f_equal; [lia|].
    destruct (unfit a), (existsb unfit apps); reflexivity.
Qed.

Lemma getPerAppDedicatedNodes_closed (apps : list AppInput.t) (u : bool) :
  getPerAppDedicatedNodes apps u
  = DedicatedNodes.mk (map (perAppRow u) apps) (sumZ (appNodes u) apps)
      (if existsb unfit apps then Some NO_NODE_WARNING else None).
Proof. unfold getPerAppDedicatedNodes. rewrite dedicated_fold. reflexivity. Qed.

(** ** The three branches of [calculate], with the loops in closed form *)

Lemma calculate_Consumption (apps : list AppInput.t) (subnet : string) :
  calculate apps subnet (Plan Consumption)
  = PlanResult.mk "Consumption"
      (sumZ (fun a => ceil10 (AppInput.replicas a)) apps)
      (sumZ (fun a => ceil10 (minReplicasOr1 a)) apps)
      ("Consumption apps: " ++ ofZ (Z.of_nat (List.length apps)))
      (map consumptionRow apps)
      (Some (subnetWarning subnet)) None (sumZ minReplicasOr1 apps).
Proof. unfold calculate. rewrite consumption_fold. reflexivity. Qed.

Lemma calculate_Dedicated (apps : list AppInput.t) (subnet : string) :
  calculate apps subnet (Plan Dedicated)
  = PlanResult.mk "Dedicated"
      (sumZ (appNodes false) apps)
      (sumZ (appNodes true) apps)
      match dedicatedWarning apps with
      | Some w => w
      | None => join "; " (map dedicatedDetail (map (perAppRow false) apps))
      end
      (map dedicatedRow (map (perAppRow false) apps))
      (orWarning (subnetWarning subnet) (dedicatedWarning apps))
      (Some (map (perAppRow false) apps)) (sumZ minReplicasOr1 apps).
Proof. unfold calculate. rewrite !getPerAppDedicatedNodes_closed. reflexivity. Qed.

Lemma calculate_Mix (apps : list AppInput.t) (subnet : string) :
  let consApps := filter (hasPlan Consumption) apps in
  let dedApps := filter (hasPlan Dedicated) apps in
  calculate apps subnet Mix
  = PlanResult.mk "Mix"
      (sumZ (fun a => ceil10 (AppInput.replicas a)) consApps
       + sumZ (appNodes false) dedApps)
      (sumZ (fun a => ceil10 (minReplicasOr1 a)) consApps
       + sumZ (appNodes true) dedApps)
      (join "; "
         (filterBoolean
            [ if (0 <? List.length consApps)%nat
              then Some (join "; " (map consumptionDetail consApps))
              else None;
              if (0 <? List.length (map (perAppRow false) dedApps))%nat
              then Some (join "; "
                           (map dedicatedDetail (map (perAppRow false) dedApps)))
              else None ]))
      (map consumptionRow consApps
       ++ map dedicatedRow (map (perAppRow false) dedApps))%list
      (orWarning (subnetWarning subnet) (dedicatedWarning dedApps))
      (Some (map (perAppRow false) dedApps)) (sumZ minReplicasOr1 apps).
Proof.
  cbv zeta. unfold calculate.
  rewrite consumption_fold, !getPerAppDedicatedNodes_closed. reflexivity.
Qed.

(** ** The fit resolver returns the first entry that fits *)

Lemma findNodeType_fits (app : AppInput.t) (n : NodeType.t) :
  findNodeType app = Some n ->
  In n DEDICATED_NODE_TYPES
  /\ AppInput.cpu app <= NodeType.cpu n
  /\ AppInput.ram app <= NodeType.ram n
  /\ AppInput.gpu app <= NodeType.gpu n.
Proof.
  intros F. apply find_some in F as [I F]. split; [exact I|].
  unfold fits in F.
  apply andb_prop in F as [F G]. apply andb_prop in F as [C R].
  apply Z.leb_le in C, R, G. auto.
Qed.

Lemma findNodeType_none (app : AppInput.t) (n : NodeType.t) :
  findNodeType app = None -> In n DEDICATED_NODE_TYPES -> fits app n = false.
Proof. intros F I. exact (find_none _ _ F n I). Qed.

Lemma find_first {A : Type} (f : A -> bool) (l : list A) (x : A) :
  find f l = Some x ->
  exists before after,
    l = (before ++ x :: after)%list /\ forallb (fun y => negb (f y)) before = true.
Proof.
  induction l as [|a l IH]; simpl; [discriminate|].
  destruct (f a) eqn:E.
  - intros [= ->]. exists [], l. auto.
  - intros F. destruct (IH F) as (b & c & -> & H).
    exists (a :: b), c. simpl. rewrite E. auto.
Qed.

(** Every catalog entry has a positive CPU and RAM capacity and no
    negative GPU capacity. *)
Lemma catalog_positive (n : NodeType.t) :
  In n DEDICATED_NODE_TYPES ->
  0 < NodeType.cpu n /\ 0 < NodeType.ram n /\ 0 <= NodeType.gpu n.
Proof.
  intros I. simpl in I.
  repeat (destruct I as [<-|I]; [simpl; lia|]). destruct I.
Qed.

(** The entries listed before the one returned do not fit. *)
Lemma findNodeType_first (app : AppInput.t) (n : NodeType.t) :
  findNodeType app = Some n ->
  exists before after,
    DEDICATED_NODE_TYPES = (before ++ n :: after)%list
    /\ forall m, In m before -> fits app m = false.
Proof.
  intros F. destruct (find_first _ _ _ F) as (b & c & E & H).
  exists b, c. split; [exact E|].
  intros m I. rewrite forallb_forall in H.
  apply negb_true_iff. exact (H m I).
Qed.

(** With a resolved node type the capacity is never [NaN] nor
    [-Infinity]: the catalog capacities are positive. *)
Lemma perNodeCapacity_resolved (app : AppInput.t) (n : NodeType.t) :
  findNodeType app = Some n ->
  perNodeCapacityOf n app = Infinity
  \/ exists p, perNodeCapacityOf n app = Fin p.
Proof.
  intros F. destruct (findNodeType_fits _ _ F) as (I & _).
  destruct (catalog_positive n I) as (C & R & _).
  unfold perNodeCapacityOf, floorDiv.
  apply Z.ltb_lt in C, R. rewrite C, R.
  destruct (0 <? AppInput.gpu app) eqn:G.
  - apply Z.ltb_lt in G.
    replace (AppInput.gpu app =? 0) with false
      by (symmetry; apply Z.eqb_neq; lia).
    destruct (AppInput.cpu app =? 0), (AppInput.ram app =? 0); simpl; eauto.
  - destruct (AppInput.cpu app =? 0), (AppInput.ram app =? 0); simpl; eauto.
Qed.

(** ** The scenarios of the specification *)

Example scenario_consumption :
  let web := AppInput.mk "web" 1 0 2 2 2 25 None None in
  let r := calculate [web] "/27" (Plan Consumption) in
  PlanResult.ips r = 3 /\ PlanResult.doubledIPs r = 1
  /\ getAvailableIPs "/27" = Some 18 /\ PlanResult.warning r = Some "".
Proof. cbv zeta. repeat split; vm_compute; reflexivity. Qed.

Example scenario_dedicated :
  let big := AppInput.mk "big" 20 0 200 1 1 5 None None in
  map (fun row => (PerAppResult.nodeTypeName row,
                   PerAppResult.perNodeCapacity row,
                   PerAppResult.nodesNeeded row))
    (DedicatedNodes.perApp (getPerAppDedicatedNodes [big] false))
  = [("E32", Fin 1, 5)].
Proof. vm_compute. reflexivity. Qed.

Example scenario_gpu8 :
  let train := AppInput.mk "train" 8 8 64 1 1 2 None None in
  let web := AppInput.mk "web" 2 0 4 1 1 12 None None in
  let r := calculate [train; web] "/24" (Plan Dedicated) in
  findNodeType train = None
  /\ PlanResult.warning r = Some NO_NODE_WARNING
  /\ PlanResult.ips r = 6.
Proof. cbv zeta. repeat split; vm_compute; reflexivity. Qed.

Example scenario_cpu5 :
  let heavy := AppInput.mk "heavy" 5 0 2 1 1 3 None None in
  validateAllApps [heavy] (Plan Consumption)
  = ["App heavy: CPU must not exceed 4 for Consumption plan."].
Proof. vm_compute. reflexivity. Qed.

(** C7: under Consumption accounting (the Consumption plan, and the
    Consumption-tagged apps of a Mix plan) an app costs
    [ceil(replicas / 10)] addresses.  The cost never decreases when the
    replica count grows, is [k + 1] from [10k + 1] up to [10k + 10], and so
    rises by exactly one when the count passes a multiple of ten. *)
Theorem consumption_ip_cost :
  (forall apps subnet,
      PlanResult.ips (calculate apps subnet (Plan Consumption))
      = sumZ (fun a => ceil10 (AppInput.replicas a)) apps
      /\ map AppAssignment.ipUsed
           (PlanResult.appAssignments (calculate apps subnet (Plan Consumption)))
         = map (fun a => Some (ceil10 (AppInput.replicas a))) apps)
  /\ (forall apps subnet,
         PlanResult.ips (calculate apps subnet Mix)
         = sumZ (fun a => ceil10 (AppInput.replicas a))
             (filter (hasPlan Consumption) apps)
           + sumZ (appNodes false) (filter (hasPlan Dedicated) apps)
         /\ exists consRows dedRows,
             PlanResult.appAssignments (calculate apps subnet Mix)
             = (consRows ++ dedRows)%list
             /\ map AppAssignment.ipUsed consRows
                = map (fun a => Some (ceil10 (AppInput.replicas a)))
                    (filter (hasPlan Consumption) apps)
             /\ map AppAssignment.ipUsed dedRows
                = map (fun _ => None) (filter (hasPlan Dedicated) apps))
  /\ (forall r, (ceil10 r - 1) * 10 < r <= ceil10 r * 10)
  /\ (forall r r', r <= r' -> ceil10 r <= ceil10 r')
  /\ (forall k, ceil10 (10 * k) = k)
  /\ (forall k, ceil10 (10 * k + 1) = ceil10 (10 * k) + 1)
  /\ (forall k r, 10 * k + 1 <= r <= 10 * k + 10 -> ceil10 r = k + 1).
Proof.
  assert (U : forall k r, 10 * k + 1 <= r <= 10 * k + 10 -> ceil10 r = k + 1).
  { intros k r H. apply ceilDiv_unique; lia. }
  assert (M : forall k, ceil10 (10 * k) = k).
  { intros k. apply ceilDiv_unique; lia. }
  split; [|split; [|split; [|split; [|split; [|split]]]]].
  - intros apps subnet. rewrite calculate_Consumption. simpl.
    rewrite map_map. auto.
  - intros apps subnet. rewrite calculate_Mix. cbv zeta. simpl.
    split; [reflexivity|].
    eexists _, _. split; [reflexivity|].
    rewrite !map_map. simpl. split; reflexivity.
  - intros r. apply (ceilDiv_bounds r 10). lia.
  - intros r r' H. apply ceilDiv_monotone; lia.
  - exact M.
  - intros k. rewrite M. apply U. lia.
  - exact U.
Qed.

Lemma consumption_ip_cost_witness :
  ceil10 25 = 3 /\ ceil10 20 <= ceil10 21.
Proof.
  destruct consumption_ip_cost as (_ & _ & _ & Mono & _ & _ & Const).
  split; [apply (Const 2 25); lia | apply (Mono 20 21); lia].
Defined.

(** C3, at an input where it fails: an app that needs 4 CPU and 32 GB is
    given D8 (8 CPU, 32 GB), the first entry that fits, although E4
    (4 CPU, 32 GB) also fits and is smaller: less CPU, the same RAM and GPU,
    and a smaller product of the capacities.  The catalog lists the whole D
    family before the E family. *)
Theorem first_fit_not_smallest :
  let app := AppInput.mk "api" 4 0 32 1 1 1 None None in
  let D8 := NodeType.mk "D8" 8 32 0 in
  let E4 := NodeType.mk "E4" 4 32 0 in
  0 <= AppInput.cpu app /\ 0 <= AppInput.ram app /\ 0 <= AppInput.gpu app
  /\ findNodeType app = Some D8
  /\ In E4 DEDICATED_NODE_TYPES
  /\ fits app E4 = true
  /\ NodeType.cpu E4 < NodeType.cpu D8
  /\ NodeType.ram E4 <= NodeType.ram D8
  /\ NodeType.gpu E4 <= NodeType.gpu D8
  /\ NodeType.cpu E4 * NodeType.ram E4 * Z.max (NodeType.gpu E4) 1
     < NodeType.cpu D8 * NodeType.ram D8 * Z.max (NodeType.gpu D8) 1.
Proof.
  cbv zeta. repeat split; try (vm_compute; reflexivity); try (vm_compute; discriminate).
  simpl. tauto.
Qed.

(** ** Nodes needed by a Dedicated app *)

Lemma floorDiv_positive (n a : Z) :
  0 < a -> a <= n -> exists q, floorDiv n a = Fin q /\ q = n / a /\ 1 <= q.
Proof.
  intros Ha Hn. unfold floorDiv.
  replace (a =? 0) with false by (symmetry; apply Z.eqb_neq; lia).
  exists (n / a). repeat split.
  pose proof (Z.div_le_mono a n a Ha Hn) as D.
  rewrite Z.div_same in D by lia. exact D.
Qed.

Lemma existsb_unfit (apps : list AppInput.t) :
  existsb unfit apps = true
  <-> exists a, In a apps /\ findNodeType a = None.
Proof.
  rewrite existsb_exists. unfold unfit.
  split; intros (a & I & H); exists a; split; try assumption;
    destruct (findNodeType a); congruence.
Qed.

(** Outside the data model, where the CPU and RAM requirements are
    positive: an app with a CPU requirement of -1 has a resolved node type
    and a capacity of -4 per node; it is counted with zero nodes and no
    warning is attached.  With requirements that are not negative this does
    not occur, see [resolved_capacity]. *)
Lemma nonpositive_capacity_no_warning :
  let app := AppInput.mk "job" (-1) 0 1 1 1 3 None None in
  let res := getPerAppDedicatedNodes [app] false in
  findNodeType app = Some (NodeType.mk "D4" 4 16 0)
  /\ map PerAppResult.perNodeCapacity (DedicatedNodes.perApp res) = [Fin (-4)]
  /\ map PerAppResult.nodesNeeded (DedicatedNodes.perApp res) = [0]
  /\ DedicatedNodes.warning res = None
  /\ PlanResult.warning (calculate [app] "/24" (Plan Dedicated)) = None.
Proof. cbv zeta. repeat split; vm_compute; reflexivity. Qed.

Lemma floorDiv_fits (n a : Z) :
  0 < n -> 0 <= a <= n ->
  floorDiv n a = Infinity \/ exists q, floorDiv n a = Fin q /\ 1 <= q.
Proof.
  intros Hn [Ha Hle]. destruct (Z.eq_dec a 0) as [->|Ne].
  - left. unfold floorDiv. simpl.
    replace (0 <? n) with true by (symmetry; apply Z.ltb_lt; exact Hn).
    reflexivity.
  - right. destruct (floorDiv_positive n a ltac:(lia) Hle) as (q & E & _ & Q).
    exists q. split; assumption.
Qed.

(** With CPU and RAM requirements that are not negative, the capacity per
    node of a resolved node type is at least 1 or unbounded. *)
Lemma resolved_capacity (app : AppInput.t) (n : NodeType.t) :
  findNodeType app = Some n ->
  0 <= AppInput.cpu app -> 0 <= AppInput.ram app ->
  perNodeCapacityOf n app = Infinity
  \/ exists p, perNodeCapacityOf n app = Fin p /\ 1 <= p.
Proof.
  intros F Hc Hr.
  destruct (findNodeType_fits _ _ F) as (I & Fc & Fr & Fg).
  destruct (catalog_positive _ I) as (Pc & Pr & _).
  unfold perNodeCapacityOf.
  destruct (floorDiv_fits _ _ Pc (conj Hc Fc)) as [-> | (qc & -> & Qc)];
    destruct (floorDiv_fits _ _ Pr (conj Hr Fr)) as [-> | (qr & -> & Qr)];
    destruct (0 <? AppInput.gpu app) eqn:G;
    try (apply Z.ltb_lt in G;
         destruct (floorDiv_positive _ _ G Fg) as (qg & -> & _ & Qg));
    simpl; try (left; reflexivity);
    right; eexists; (split; [reflexivity | lia]).
Qed.

(** C4: the row at position [i] of the result belongs to the app at
    position [i] of the list.  When a node type [n] is resolved for the
    app, the row carries [perNodeCapacity = min(floor(n.cpu/cpu),
    floor(n.ram/ram), gpu > 0 ? floor(n.gpu/gpu) : Infinity)]; with positive
    CPU and RAM requirements this is a finite [p >= 1], the least of the
    quotients.  When the capacity is a finite [p > 0], [nodesNeeded] is
    [ceil(R / p)], the least count of nodes that holds the [R] replicas of
    the phase; an unbounded capacity gives zero nodes, and so does a
    capacity [<= 0].  For an app whose CPU and RAM requirements are not
    negative, a capacity [<= 0] is met only when no node type fits the app:
    then [nodesNeeded] is 0 and a warning is present, in the result of
    [getPerAppDedicatedNodes] and in the plan that [calculate] returns under
    the Dedicated plan.  The warning of [getPerAppDedicatedNodes] is present
    exactly when some app of the list has no fitting node type. *)
Theorem dedicated_nodes_needed
    (apps : list AppInput.t) (u : bool) (i : nat) (app : AppInput.t) :
  nth_error apps i = Some app ->
  let res := getPerAppDedicatedNodes apps u in
  let R := if u then AppInput.minReplicas app else AppInput.replicas app in
  exists row,
    nth_error (DedicatedNodes.perApp res) i = Some row
    /\ PerAppResult.replicas row = R
    /\ (forall n, findNodeType app = Some n ->
          PerAppResult.nodeType row = Some n
          /\ PerAppResult.perNodeCapacity row
             = xmin (xmin (floorDiv (NodeType.cpu n) (AppInput.cpu app))
                          (floorDiv (NodeType.ram n) (AppInput.ram app)))
                    (if 0 <? AppInput.gpu app
                     then floorDiv (NodeType.gpu n) (AppInput.gpu app)
                     else Infinity)
          /\ (0 < AppInput.cpu app -> 0 < AppInput.ram app ->
              exists p,
                PerAppResult.perNodeCapacity row = Fin p /\ 1 <= p
                /\ p <= NodeType.cpu n / AppInput.cpu app
                /\ p <= NodeType.ram n / AppInput.ram app
                /\ (0 < AppInput.gpu app ->
                    p <= NodeType.gpu n / AppInput.gpu app)
                /\ (p = NodeType.cpu n / AppInput.cpu app
                    \/ p = NodeType.ram n / AppInput.ram app
                    \/ (0 < AppInput.gpu app
                        /\ p = NodeType.gpu n / AppInput.gpu app))))
    /\ (findNodeType app = None ->
          PerAppResult.nodeType row = None
          /\ PerAppResult.perNodeCapacity row = Fin 0
          /\ DedicatedNodes.warning res = Some NO_NODE_WARNING)
    /\ (forall p, PerAppResult.perNodeCapacity row = Fin p -> 0 < p ->
                  PerAppResult.nodesNeeded row = ceilDiv R p
                  /\ (PerAppResult.nodesNeeded row - 1) * p < R
                     <= PerAppResult.nodesNeeded row * p)
    /\ (PerAppResult.perNodeCapacity row = Infinity ->
        PerAppResult.nodesNeeded row = 0)
    /\ (forall p, PerAppResult.perNodeCapacity row = Fin p -> p <= 0 ->
                  PerAppResult.nodesNeeded row = 0)
    /\ (0 <= AppInput.cpu app -> 0 <= AppInput.ram app ->
        forall p, PerAppResult.perNodeCapacity row = Fin p -> p <= 0 ->
                  findNodeType app = None
                  /\ PerAppResult.nodesNeeded row = 0
                  /\ DedicatedNodes.warning res = Some NO_NODE_WARNING
                  /\ forall subnet,
                      exists w,
                        PlanResult.warning
                          (calculate apps subnet (Plan Dedicated)) = Some w
                        /\ w <> "")
    /\ (DedicatedNodes.warning res = Some NO_NODE_WARNING
        <-> exists a, In a apps /\ findNodeType a = None)
    /\ (DedicatedNodes.warning res = None
        <-> forall a, In a apps -> findNodeType a <> None).
Proof.
  intros Hi res R.
  exists (perAppRow u app).
  unfold res. rewrite getPerAppDedicatedNodes_closed.
  cbn [DedicatedNodes.perApp DedicatedNodes.warning].
  split; [apply (map_nth_error _ _ _ Hi)|].
  split; [unfold perAppRow; destruct (findNodeType app); reflexivity|].
  split.
  { intros n Hn. unfold perAppRow. rewrite Hn. simpl.
    split; [reflexivity|]. split; [reflexivity|].
    intros Hc Hr. unfold perNodeCapacityOf.
    destruct (findNodeType_fits _ _ Hn) as (_ & Fc & Fr & Fg).
    destruct (floorDiv_positive _ _ Hc Fc) as (qc & -> & -> & Qc).
    destruct (floorDiv_positive _ _ Hr Fr) as (qr & -> & -> & Qr).
    simpl.
    destruct (0 <? AppInput.gpu app) eqn:G.
    - apply Z.ltb_lt in G.
      destruct (floorDiv_positive _ _ G Fg) as (qg & -> & -> & Qg).
      simpl. eexists. split; [reflexivity|]. lia.
    - apply Z.ltb_ge in G. simpl. eexists. split; [reflexivity|]. lia. }
  split.
  { intros Hn. unfold perAppRow. rewrite Hn. simpl.
    split; [reflexivity|]. split; [reflexivity|].
    replace (existsb unfit apps) with true; [reflexivity|].
    symmetry. apply existsb_unfit. exists app. split; [|exact Hn].
    apply (nth_error_In _ _ Hi). }
  assert (Nodes : PerAppResult.nodesNeeded (perAppRow u app)
                  = if xpositive (PerAppResult.perNodeCapacity (perAppRow u app))
                    then xceilDiv R (PerAppResult.perNodeCapacity (perAppRow u app))
                    else 0).
  { unfold perAppRow. destruct (findNodeType app); reflexivity. }
  rewrite Nodes.
  split.
  { intros p -> Hp. simpl.
    replace (0 <? p) with true by (symmetry; apply Z.ltb_lt; lia).
    split; [reflexivity|]. apply ceilDiv_bounds. exact Hp. }
  split.
  { intros ->. reflexivity. }
  split.
  { intros p -> Hp. simpl.
    replace (0 <? p) with false by (symmetry; apply Z.ltb_ge; lia).
    reflexivity. }
  split.
  { intros Hc Hr p Hp Hle.
    assert (F : findNodeType app = None).
    { destruct (findNodeType app) as [n|] eqn:F; [exfalso | reflexivity].
      unfold perAppRow in Hp. rewrite F in Hp.
      cbn [PerAppResult.perNodeCapacity] in Hp.
      destruct (resolved_capacity app n F Hc Hr) as [E | (q & E & Q)];
        rewrite E in Hp; [discriminate|].
      injection Hp as <-. lia. }
    assert (U : existsb unfit apps = true).
    { apply existsb_unfit. exists app. split; [|exact F].
      apply (nth_error_In _ _ Hi). }
    split; [exact F|]. split.
    { rewrite Hp. simpl.
      replace (0 <? p) with false by (symmetry; apply Z.ltb_ge; lia).
      reflexivity. }
    split; [rewrite U; reflexivity|].
    intros subnet. rewrite calculate_Dedicated.
    cbn [PlanResult.warning]. unfold dedicatedWarning. rewrite U.
    destruct (subnetWarning subnet) as [|c w] eqn:W; simpl.
    - exists NO_NODE_WARNING. split; [reflexivity | discriminate].
    - exists (String c w). split; [reflexivity | discriminate]. }
  split.
  - rewrite <- existsb_unfit. destruct (existsb unfit apps); split; congruence.
  - destruct (existsb unfit apps) eqn:E; split; try congruence.
    + intros H. apply existsb_unfit in E as (a & I & F). elim (H a I F).
    + intros _ a I F.
      assert (existsb unfit apps = true) by (apply existsb_unfit; eauto).
      congruence.
Qed.

Lemma dedicated_nodes_needed_witness :
  let big := AppInput.mk "big" 20 0 200 1 1 5 None None in
  let train := AppInput.mk "train" 8 8 64 1 1 2 None None in
  (exists row,
      nth_error (DedicatedNodes.perApp (getPerAppDedicatedNodes [big] false)) 0
      = Some row
      /\ PerAppResult.nodeTypeName row = "E32"
      /\ PerAppResult.nodesNeeded row = 5)
  /\ DedicatedNodes.warning (getPerAppDedicatedNodes [big; train] false)
     = Some NO_NODE_WARNING.
Proof.
  cbv zeta. split.
  - destruct (dedicated_nodes_needed
                [AppInput.mk "big" 20 0 200 1 1 5 None None] false 0
                (AppInput.mk "big" 20 0 200 1 1 5 None None) eq_refl)
      as (row & Hrow & _).
    exists row. split; [exact Hrow|].
    vm_compute in Hrow. injection Hrow as <-. split; reflexivity.
  - destruct (dedicated_nodes_needed
                [AppInput.mk "big" 20 0 200 1 1 5 None None;
                 AppInput.mk "train" 8 8 64 1 1 2 None None] false 1
                (AppInput.mk "train" 8 8 64 1 1 2 None None) eq_refl)
      as (row & Hrow & _ & _ & _ & _ & _ & _ & Hle & _).
    vm_compute in Hrow. injection Hrow as <-.
    exact (proj1 (proj2 (proj2 (Hle ltac:(simpl; lia) ltac:(simpl; lia)
                                  0 eq_refl ltac:(lia))))).
Defined.

(** ** An app that no node type fits *)

Lemma appNodes_unfit (u : bool) (a : AppInput.t) :
  findNodeType a = None -> appNodes u a = 0.
Proof. intros F. unfold appNodes, perAppRow. rewrite F. reflexivity. Qed.

Lemma dedicatedWarning_unfit (l1 l2 : list AppInput.t) (a : AppInput.t) :
  findNodeType a = None -> dedicatedWarning (l1 ++ a :: l2) = Some NO_NODE_WARNING.
Proof.
  intros F. unfold dedicatedWarning.
  replace (existsb unfit (l1 ++ a :: l2)) with true; [reflexivity|].
  symmetry. apply existsb_unfit. exists a. split; [|exact F].
  apply in_or_app. right. left. reflexivity.
Qed.

Lemma subnetWarning_cases (subnet : string) :
  subnetWarning subnet = "" \/ subnetWarning subnet = SUBNET_WARNING.
Proof.
  unfold subnetWarning.
  destruct (if startsWithSlash subnet then _ else _); auto.
  destruct (27 <? n); auto.
Qed.

Lemma filter_insert_in (p : PlanType) (l1 l2 : list AppInput.t) (a : AppInput.t) :
  hasPlan p a = true ->
  filter (hasPlan p) (l1 ++ a :: l2)
  = (filter (hasPlan p) l1 ++ a :: filter (hasPlan p) l2)%list.
Proof. intros H. rewrite filter_app. simpl. rewrite H. reflexivity. Qed.

Lemma filter_insert_out (p : PlanType) (l1 l2 : list AppInput.t) (a : AppInput.t) :
  hasPlan p a = false ->
  filter (hasPlan p) (l1 ++ a :: l2) = filter (hasPlan p) (l1 ++ l2).
Proof. intros H. rewrite !filter_app. simpl. rewrite H. reflexivity. Qed.

(** The claim C5 as stated does not hold for the plan result: under Mix
    with the subnet [/28], an app that needs 8 GPUs has no node type, yet
    the warning of the result is the subnet warning and the text about the
    missing node type appears in no field. *)
Lemma unfit_warning_masked :
  let app := AppInput.mk "train" 8 8 64 1 1 2 (Some Dedicated) None in
  let r := calculate [app] "/28" Mix in
  findNodeType app = None
  /\ PlanResult.warning r = Some "Minimum subnet size for integration is /27!"
  /\ PlanResult.warning r <> Some NO_NODE_WARNING
  /\ PlanResult.details r = "train: 0 x N/A (up to 0 per node)".
Proof.
  cbv zeta. repeat split; try (vm_compute; reflexivity).
  vm_compute. discriminate.
Qed.

(** C5, amended: let [a] be an app under Dedicated accounting that no
    catalog entry fits.  [getPerAppDedicatedNodes] returns a result with
    the warning "No suitable node type found for one or more apps.", a row
    for [a] with node type N/A and zero nodes, and the same total and the
    same rows for the other apps as without [a].  The plan result has the
    same peak and upgrade totals as without [a] and a row for [a] with zero
    nodes among otherwise unchanged rows; its warning field carries the
    node-type warning when the subnet gives no warning of its own, and the
    subnet warning otherwise. *)
Theorem unfit_app_is_skipped
    (l1 l2 : list AppInput.t) (a : AppInput.t) (subnet : string)
    (planChoice : PlanChoice) (u : bool) :
  findNodeType a = None ->
  planChoice = Plan Dedicated
  \/ (planChoice = Mix /\ AppInput.plan a = Some Dedicated) ->
  let res := getPerAppDedicatedNodes (l1 ++ a :: l2) u in
  let res' := getPerAppDedicatedNodes (l1 ++ l2) u in
  let r := calculate (l1 ++ a :: l2) subnet planChoice in
  let r' := calculate (l1 ++ l2) subnet planChoice in
  DedicatedNodes.warning res = Some NO_NODE_WARNING
  /\ DedicatedNodes.totalNodes res = DedicatedNodes.totalNodes res'
  /\ (exists rows1 rows2 row,
         DedicatedNodes.perApp res = (rows1 ++ row :: rows2)%list
         /\ DedicatedNodes.perApp res' = (rows1 ++ rows2)%list
         /\ List.length rows1 = List.length l1
         /\ PerAppResult.appName row = orUnnamed (AppInput.name a)
         /\ PerAppResult.nodeType row = None
         /\ PerAppResult.nodeTypeName row = "N/A"
         /\ PerAppResult.nodesNeeded row = 0)
  /\ PlanResult.ips r = PlanResult.ips r'
  /\ PlanResult.doubledIPs r = PlanResult.doubledIPs r'
  /\ (exists rows1 rows2 row,
         PlanResult.appAssignments r = (rows1 ++ row :: rows2)%list
         /\ PlanResult.appAssignments r' = (rows1 ++ rows2)%list
         /\ AppAssignment.name row = orUnnamed (AppInput.name a)
         /\ AppAssignment.nodeType row = "N/A"
         /\ AppAssignment.nodes row = NodesCount 0)
  /\ (subnetWarning subnet = "" ->
      PlanResult.warning r = Some NO_NODE_WARNING)
  /\ (subnetWarning subnet = SUBNET_WARNING ->
      PlanResult.warning r = Some SUBNET_WARNING)
  /\ (subnetWarning subnet = "" \/ subnetWarning subnet = SUBNET_WARNING).
Proof.
  intros F Hplan res res' r r'.
  assert (Row : forall v, perAppRow v a
                = PerAppResult.mk (orUnnamed (AppInput.name a)) None "N/A"
                    (phaseReplicas v a) 0 (Fin 0) "Dedicated (N/A)"
                    (AppInput.minReplicas a)).
  { intros v. unfold perAppRow. rewrite F. reflexivity. }
  split; [|split; [|split]].
  - unfold res. rewrite getPerAppDedicatedNodes_closed. simpl.
    apply (dedicatedWarning_unfit l1 l2 a F).
  - unfold res, res'. rewrite !getPerAppDedicatedNodes_closed. simpl.
    rewrite sumZ_insert, (appNodes_unfit u a F). lia.
  - unfold res, res'. rewrite !getPerAppDedicatedNodes_closed. simpl.
    exists (map (perAppRow u) l1), (map (perAppRow u) l2), (perAppRow u a).
    rewrite !map_app, length_map. simpl. rewrite Row. repeat split.
  - destruct Hplan as [-> | [-> Tag]].
    + unfold r, r'. rewrite !calculate_Dedicated. simpl.
      rewrite !sumZ_insert, !(appNodes_unfit _ a F), !Z.add_0_r.
      rewrite (dedicatedWarning_unfit l1 l2 a F).
      split; [reflexivity|]. split; [reflexivity|]. split.
      * exists (map dedicatedRow (map (perAppRow false) l1)),
          (map dedicatedRow (map (perAppRow false) l2)),
          (dedicatedRow (perAppRow false a)).
        rewrite ?map_app. simpl. rewrite ?map_app, ?Row. repeat split.
      * split; [intros ->; reflexivity|].
        split; [intros ->; reflexivity|]. apply subnetWarning_cases.
    + assert (Hd : hasPlan Dedicated a = true) by (unfold hasPlan; rewrite Tag; reflexivity).
      assert (Hc : hasPlan Consumption a = false) by (unfold hasPlan; rewrite Tag; reflexivity).
      unfold r, r'. rewrite !calculate_Mix. simpl.
      rewrite (filter_insert_in _ _ _ _ Hd), (filter_insert_out _ _ _ _ Hc).
      rewrite !filter_app.
      rewrite !sumZ_insert, !(appNodes_unfit _ a F), !Z.add_0_r.
      rewrite (dedicatedWarning_unfit _ _ a F).
      split; [reflexivity|]. split; [reflexivity|]. split.
      * exists (map consumptionRow
                  (filter (hasPlan Consumption) l1
                   ++ filter (hasPlan Consumption) l2)
                ++ map dedicatedRow
                     (map (perAppRow false) (filter (hasPlan Dedicated) l1)))%list,
          (map dedicatedRow
             (map (perAppRow false) (filter (hasPlan Dedicated) l2))),
          (dedicatedRow (perAppRow false a)).
        rewrite ?map_app. simpl. rewrite ?map_app, ?Row, <- ?app_assoc.
        repeat split.
      * split; [intros ->; reflexivity|].
        split; [intros ->; reflexivity|]. apply subnetWarning_cases.
Qed.

Lemma unfit_app_is_skipped_witness :
  let web := AppInput.mk "web" 2 0 4 1 1 12 None None in
  let gpu8 := AppInput.mk "train" 8 8 64 1 1 2 None None in
  PlanResult.ips (calculate [web; gpu8] "/24" (Plan Dedicated))
  = PlanResult.ips (calculate [web] "/24" (Plan Dedicated))
  /\ PlanResult.warning (calculate [web; gpu8] "/24" (Plan Dedicated))
     = Some NO_NODE_WARNING.
Proof.
  cbv zeta.
  destruct (unfit_app_is_skipped
              [AppInput.mk "web" 2 0 4 1 1 12 None None] []
              (AppInput.mk "train" 8 8 64 1 1 2 None None) "/24"
              (Plan Dedicated) false eq_refl (or_introl eq_refl))
    as (_ & _ & _ & Hips & _ & _ & Hw & _).
  split; [exact Hips | exact (Hw eq_refl)].
Defined.

(** ** Peak and upgrade totals *)

Lemma appNodes_nodesFor (u : bool) (a : AppInput.t) :
  appNodes u a = nodesFor (phaseReplicas u a) a.
Proof. unfold appNodes, perAppRow, nodesFor. destruct (findNodeType a); reflexivity. Qed.

(** The peak total is the accounting at the maximum replica counts. *)
Lemma peak_total (apps : list AppInput.t) (subnet : string) (planChoice : PlanChoice) :
  PlanResult.ips (calculate apps subnet planChoice)
  = planIPs AppInput.replicas planChoice apps.
Proof.
  destruct planChoice as [[|]|].
  - rewrite calculate_Consumption. reflexivity.
  - rewrite calculate_Dedicated. simpl. apply sumZ_ext.
    intros a. apply appNodes_nodesFor.
  - rewrite calculate_Mix. simpl. f_equal. apply sumZ_ext.
    intros a. apply appNodes_nodesFor.
Qed.

(** The upgrade total is computed from the minimum replica counts as they
    are: [minReplicas || 1] for a Consumption app, [minReplicas] for a
    Dedicated app. *)
Lemma upgrade_total (apps : list AppInput.t) (subnet : string) (planChoice : PlanChoice) :
  PlanResult.doubledIPs (calculate apps subnet planChoice)
  = match planChoice with
    | Plan Consumption => planIPs minReplicasOr1 (Plan Consumption) apps
    | Plan Dedicated => planIPs AppInput.minReplicas (Plan Dedicated) apps
    | Mix =>
        planIPs minReplicasOr1 (Plan Consumption)
          (filter (hasPlan Consumption) apps)
        + planIPs AppInput.minReplicas (Plan Dedicated)
            (filter (hasPlan Dedicated) apps)
    end.
Proof.
  destruct planChoice as [[|]|].
  - rewrite calculate_Consumption. reflexivity.
  - rewrite calculate_Dedicated. simpl. apply sumZ_ext.
    intros a. apply appNodes_nodesFor.
  - rewrite calculate_Mix. simpl. f_equal. apply sumZ_ext.
    intros a. apply appNodes_nodesFor.
Qed.

(** C2, at inputs where it fails: a Consumption app with 6 minimum
    replicas is counted with 1 address in the upgrade total, where the
    accounting at the doubled minimum, 12 replicas, gives 2; a Dedicated app
    on D4 nodes (one replica per node) with 3 minimum replicas is counted
    with 3 nodes, not 6; the Mix of the two gives 4, not 8.  The peak totals
    are the accounting at the maximum replica counts. *)
Theorem upgrade_total_not_doubled :
  let web := AppInput.mk "web" 1 0 2 6 6 10 (Some Consumption) None in
  let job := AppInput.mk "job" 4 0 16 3 3 5 (Some Dedicated) None in
  let doubled := fun a => 2 * AppInput.minReplicas a in
  PlanResult.doubledIPs (calculate [web] "/24" (Plan Consumption)) = 1
  /\ planIPs doubled (Plan Consumption) [web] = 2
  /\ PlanResult.doubledIPs (calculate [job] "/24" (Plan Dedicated)) = 3
  /\ planIPs doubled (Plan Dedicated) [job] = 6
  /\ PlanResult.doubledIPs (calculate [web; job] "/24" Mix) = 4
  /\ planIPs doubled Mix [web; job] = 8
  /\ PlanResult.ips (calculate [web; job] "/24" Mix)
     = planIPs AppInput.replicas Mix [web; job].
Proof. cbv zeta. repeat split; vm_compute; reflexivity. Qed.

(** ** Untagged apps under Mix *)

Lemma filter_hasPlan_tagged (p : PlanType) (apps : list AppInput.t) :
  filter (hasPlan p) (filter tagged apps) = filter (hasPlan p) apps.
Proof.
  induction apps as [|a apps IH]; [reflexivity|].
  simpl. unfold tagged at 1, hasPlan at 2.
  destruct (AppInput.plan a) as [q|] eqn:E; simpl.
  - unfold hasPlan at 1. rewrite E, IH. reflexivity.
  - exact IH.
Qed.

Lemma tagged_split (apps : list AppInput.t) :
  (List.length (filter (hasPlan Consumption) apps)
   + List.length (filter (hasPlan Dedicated) apps))%nat
  = List.length (filter tagged apps).
Proof.
  induction apps as [|a apps IH]; [reflexivity|].
  simpl.
  assert (C : hasPlan Consumption a = match AppInput.plan a with
                                      | Some Consumption => true
                                      | _ => false
                                      end).
  { unfold hasPlan. destruct (AppInput.plan a) as [[|]|]; reflexivity. }
  assert (D : hasPlan Dedicated a = match AppInput.plan a with
                                    | Some Dedicated => true
                                    | _ => false
                                    end).
  { unfold hasPlan. destruct (AppInput.plan a) as [[|]|]; reflexivity. }
  rewrite C, D. unfold tagged at 1.
  destruct (AppInput.plan a) as [[|]|]; simpl; lia.
Qed.

Lemma hasPlan_untagged (p : PlanType) (a : AppInput.t) :
  AppInput.plan a = None -> hasPlan p a = false.
Proof. intros E. unfold hasPlan. rewrite E. reflexivity. Qed.

(** C10: under Mix an app without a plan tag takes no part in the
    accounting.  The peak total, the upgrade total, the assignment rows
    (and the Dedicated rows, the details and the warning) are those
    computed from the tagged apps alone, there are as many rows as tagged
    apps, and removing one untagged app changes none of them. *)
Theorem mix_skips_untagged (apps : list AppInput.t) (subnet : string) :
  let r := calculate apps subnet Mix in
  let r' := calculate (filter tagged apps) subnet Mix in
  PlanResult.ips r = PlanResult.ips r'
  /\ PlanResult.doubledIPs r = PlanResult.doubledIPs r'
  /\ PlanResult.appAssignments r = PlanResult.appAssignments r'
  /\ PlanResult.perAppDedicated r = PlanResult.perAppDedicated r'
  /\ PlanResult.details r = PlanResult.details r'
  /\ PlanResult.warning r = PlanResult.warning r'
  /\ List.length (PlanResult.appAssignments r)
     = List.length (filter tagged apps)
  /\ (forall l1 a l2,
         apps = (l1 ++ a :: l2)%list -> AppInput.plan a = None ->
         let q := calculate (l1 ++ l2) subnet Mix in
         PlanResult.ips r = PlanResult.ips q
         /\ PlanResult.doubledIPs r = PlanResult.doubledIPs q
         /\ PlanResult.appAssignments r = PlanResult.appAssignments q).
Proof.
  cbv zeta.
  assert (Rm : forall l1 a l2,
             apps = (l1 ++ a :: l2)%list -> AppInput.plan a = None ->
             PlanResult.ips (calculate apps subnet Mix)
             = PlanResult.ips (calculate (l1 ++ l2) subnet Mix)
             /\ PlanResult.doubledIPs (calculate apps subnet Mix)
                = PlanResult.doubledIPs (calculate (l1 ++ l2) subnet Mix)
             /\ PlanResult.appAssignments (calculate apps subnet Mix)
                = PlanResult.appAssignments (calculate (l1 ++ l2) subnet Mix)).
  { intros l1 a l2 -> U. rewrite !calculate_Mix. cbv zeta. simpl.
    rewrite !(filter_insert_out _ l1 l2 a (hasPlan_untagged _ a U)).
    repeat split. }
  revert Rm. rewrite !calculate_Mix. cbv zeta. simpl.
  rewrite !filter_hasPlan_tagged. intros Rm.
  repeat (split; [reflexivity|]).
  split; [|exact Rm].
  rewrite length_app, !length_map. apply tagged_split.
Qed.

Lemma mix_skips_untagged_witness :
  let web := AppInput.mk "web" 1 0 2 2 2 25 (Some Consumption) None in
  let stray := AppInput.mk "stray" 2 0 4 5 5 40 None None in
  PlanResult.ips (calculate [web; stray] "/27" Mix) = 3
  /\ PlanResult.ips (calculate [web; stray] "/27" Mix)
     = PlanResult.ips (calculate [web] "/27" Mix).
Proof.
  cbv zeta.
  destruct (mix_skips_untagged
              [AppInput.mk "web" 1 0 2 2 2 25 (Some Consumption) None;
               AppInput.mk "stray" 2 0 4 5 5 40 None None] "/27")
    as (Hips & _ & _ & _ & _ & _ & _ & Hrm).
  split; [rewrite Hips; reflexivity|].
  exact (proj1 (Hrm [AppInput.mk "web" 1 0 2 2 2 25 (Some Consumption) None]
                  (AppInput.mk "stray" 2 0 4 5 5 40 None None) []
                  eq_refl eq_refl)).
Defined.

(** ** Validation on submit *)

Section ForEach.

Variable body : AppInput.t -> nat -> list string.

Lemma forEachIdx_pushed (apps : list AppInput.t) (idx : nat)
    (errors : list string) :
  forEachIdx body apps idx errors = (errors ++ pushed body apps idx)%list.
Proof.
  revert idx errors.
  induction apps as [|a apps IH]; intros idx errors; simpl.
  - rewrite app_nil_r. reflexivity.
  - rewrite IH, app_assoc. reflexivity.
Qed.

Lemma pushed_In (apps : list AppInput.t) (idx k : nat)
    (app : AppInput.t) (msg : string) :
  nth_error apps k = Some app -> In msg (body app (idx + k)%nat) ->
  In msg (pushed body apps idx).
Proof.
  revert idx k.
  induction apps as [|a apps IH]; intros idx k Hk Hm.
  - destruct k; discriminate.
  - simpl. apply in_or_app. destruct k as [|k]; simpl in Hk.
    + injection Hk as ->. left. rewrite Nat.add_0_r in Hm. exact Hm.
    + right. apply (IH (S idx) k Hk).
      replace (S idx + k)%nat with (idx + S k)%nat by lia. exact Hm.
Qed.

End ForEach.

Lemma append_assoc (a b c : string) : ((a ++ b) ++ c = a ++ (b ++ c))%string.
Proof. induction a as [|x a IH]; simpl; [reflexivity | rewrite IH; reflexivity]. Qed.

Lemma limitErrors_length (planChoice : PlanChoice) (app : AppInput.t) (idx : nat) :
  List.length (limitErrors planChoice app idx)
  = if exceedsLimits planChoice app then 1%nat else 0%nat.
Proof.
  unfold limitErrors, validateAppInput, exceedsLimits.
  destruct (isConsumption app planChoice); [|reflexivity].
  destruct (4 <? AppInput.cpu app); [reflexivity|].
  destruct (8 <? AppInput.ram app); [reflexivity|].
  destruct (0 <? AppInput.gpu app); reflexivity.
Qed.

Lemma pushed_limit_length (planChoice : PlanChoice) (apps : list AppInput.t) (idx : nat) :
  List.length (pushed (limitErrors planChoice) apps idx)
  = List.length (filter (exceedsLimits planChoice) apps).
Proof.
  revert idx. induction apps as [|a apps IH]; intros idx; [reflexivity|].
  simpl. rewrite length_app, limitErrors_length, IH.
  destruct (exceedsLimits planChoice a); reflexivity.
Qed.

Lemma exceedsLimits_intro (planChoice : PlanChoice) (app : AppInput.t) :
  isConsumption app planChoice = true ->
  4 < AppInput.cpu app \/ 8 < AppInput.ram app \/ 0 < AppInput.gpu app ->
  exceedsLimits planChoice app = true.
Proof.
  intros C H. unfold exceedsLimits. rewrite C. simpl.
  apply orb_true_iff.
  destruct H as [H|[H|H]]; apply Z.ltb_lt in H; rewrite H;
    [left | left | right]; auto using orb_true_r.
Qed.

Lemma nonempty_filter {A : Type} (f : A -> bool) (l : list A) (x : A) :
  In x l -> f x = true -> (0 < List.length (filter f l))%nat.
Proof.
  intros I F.
  assert (In x (filter f l)) as J by (apply filter_In; auto).
  destruct (filter f l); [destruct J | simpl; lia].
Qed.

Lemma allErrors_limit (planChoice : PlanChoice) (app : AppInput.t) (idx : nat) :
  (List.length (limitErrors planChoice app idx)
   <= List.length (allErrors planChoice app idx))%nat.
Proof. unfold allErrors. simpl. rewrite length_app. lia. Qed.

Lemma pushed_all_length (planChoice : PlanChoice) (apps : list AppInput.t) (idx : nat) :
  (List.length (pushed (limitErrors planChoice) apps idx)
   <= List.length (pushed (allErrors planChoice) apps idx))%nat.
Proof.
  revert idx. induction apps as [|a apps IH]; intros idx; [reflexivity|].
  simpl. rewrite !length_app.
  pose proof (allErrors_limit planChoice a idx). pose proof (IH (S idx)). lia.
Qed.

(** C6: when some app under Consumption accounting (the Consumption plan,
    or a Consumption tag under Mix) has [cpu > 4], [ram > 8] or [gpu > 0],
    submitting computes no plan: the error list is not empty and the result
    cell keeps its former value.  Every app is checked: the list has one
    entry for each app that exceeds a limit, and the entry of the app at
    index [i] reads "App <name, or i + 1 when the name is empty>: " followed
    by the message of the first limit it exceeds (CPU, then RAM, then GPU).
    The later revision of the handler, which checks more, blocks as well. *)
Theorem consumption_limits_block (st : Home.t) :
  (exists app,
      In app (Home.apps st)
      /\ isConsumption app (Home.planChoice st) = true
      /\ (4 < AppInput.cpu app \/ 8 < AppInput.ram app \/ 0 < AppInput.gpu app)) ->
  let st' := handleSubmitLimits st in
  Home.inputErrors st' <> []
  /\ Home.result st' = Home.result st
  /\ List.length (Home.inputErrors st')
     = List.length (filter (exceedsLimits (Home.planChoice st)) (Home.apps st))
  /\ (forall i app,
         nth_error (Home.apps st) i = Some app ->
         exceedsLimits (Home.planChoice st) app = true ->
         exists who limit,
           In ("App " ++ who ++ ": " ++ limit) (Home.inputErrors st')
           /\ (AppInput.name app <> "" -> who = AppInput.name app)
           /\ (AppInput.name app = "" -> who = ofZ (Z.of_nat i + 1))
           /\ (4 < AppInput.cpu app ->
               limit = "CPU must not exceed 4 for Consumption plan.")
           /\ (AppInput.cpu app <= 4 -> 8 < AppInput.ram app ->
               limit = "RAM must not exceed 8GB for Consumption plan.")
           /\ (AppInput.cpu app <= 4 -> AppInput.ram app <= 8 ->
               limit = "GPU is not supported for Consumption plan."))
  /\ Home.inputErrors (handleSubmit st) <> []
  /\ Home.result (handleSubmit st) = Home.result st.
Proof.
  intros (bad & Ibad & Cbad & Lbad) st'.
  pose proof (exceedsLimits_intro _ _ Cbad Lbad) as Ebad.
  pose proof (nonempty_filter _ _ _ Ibad Ebad) as Npos.
  assert (Len : List.length
                  (forEachIdx (limitErrors (Home.planChoice st)) (Home.apps st) 0 [])
                = List.length
                    (filter (exceedsLimits (Home.planChoice st)) (Home.apps st))).
  { rewrite forEachIdx_pushed. simpl. apply pushed_limit_length. }
  assert (Err : Home.inputErrors st'
                = forEachIdx (limitErrors (Home.planChoice st)) (Home.apps st) 0 []).
  { unfold st', handleSubmitLimits. destruct (0 <? _)%nat; reflexivity. }
  assert (Pos : (0 <? List.length
                        (forEachIdx (limitErrors (Home.planChoice st))
                           (Home.apps st) 0 []))%nat = true).
  { apply Nat.ltb_lt. rewrite Len. exact Npos. }
  split; [|split; [|split; [|split]]].
  - rewrite Err. intros E. rewrite E in Len. simpl in Len. lia.
  - unfold st', handleSubmitLimits. rewrite Pos. reflexivity.
  - rewrite Err. exact Len.
  - intros i app Hi Hex. rewrite Err, forEachIdx_pushed. simpl.
    unfold exceedsLimits in Hex. apply andb_prop in Hex as [Hc Hl].
    exists (match AppInput.name app with
            | EmptyString => ofZ (Z.of_nat i + 1)
            | n => n
            end).
    destruct (validateAppInput app (Home.planChoice st)) as [limit|] eqn:V.
    + exists limit. split.
      * apply (pushed_In _ _ 0 i app); [exact Hi|].
        unfold limitErrors. simpl. rewrite V. left.
        unfold appLabel. simpl. rewrite append_assoc. reflexivity.
      * unfold validateAppInput in V. rewrite Hc in V.
        split; [destruct (AppInput.name app); congruence|].
        split; [intros ->; reflexivity|].
        destruct (4 <? AppInput.cpu app) eqn:C4;
          [apply Z.ltb_lt in C4 | apply Z.ltb_ge in C4].
        { injection V as <-. repeat split; intros; try reflexivity; lia. }
        destruct (8 <? AppInput.ram app) eqn:R8;
          [apply Z.ltb_lt in R8 | apply Z.ltb_ge in R8].
        { injection V as <-. repeat split; intros; try reflexivity; lia. }
        destruct (0 <? AppInput.gpu app) eqn:G0; [|discriminate].
        injection V as <-. repeat split; intros; try reflexivity; lia.
    + exfalso. unfold validateAppInput in V. rewrite Hc in V.
      destruct (4 <? AppInput.cpu app); [discriminate|].
      destruct (8 <? AppInput.ram app); [discriminate|].
      destruct (0 <? AppInput.gpu app); discriminate.
  - assert (Pos' : (0 < List.length
                         (validateAllApps (Home.apps st) (Home.planChoice st)))%nat).
    { unfold validateAllApps. rewrite forEachIdx_pushed. simpl.
      pose proof (pushed_all_length (Home.planChoice st) (Home.apps st) 0).
      rewrite pushed_limit_length in H. lia. }
    unfold handleSubmit.
    replace (0 <? _)%nat with true by (symmetry; apply Nat.ltb_lt; exact Pos').
    simpl. split; [|reflexivity].
    intros E. rewrite E in Pos'. simpl in Pos'. lia.
Qed.

Lemma consumption_limits_block_witness :
  let heavy := AppInput.mk "" 5 0 2 1 1 3 None None in
  let st := Home.mk [heavy] "/27" (Plan Consumption) None [] in
  Home.inputErrors (handleSubmitLimits st)
  = ["App 1: CPU must not exceed 4 for Consumption plan."]
  /\ Home.inputErrors (handleSubmitLimits st) <> []
  /\ Home.result (handleSubmitLimits st) = None.
Proof.
  cbv zeta. split; [reflexivity|].
  destruct (consumption_limits_block
              (Home.mk [AppInput.mk "" 5 0 2 1 1 3 None None] "/27"
                 (Plan Consumption) None []))
    as (Hne & Hres & _).
  - exists (AppInput.mk "" 5 0 2 1 1 3 None None).
    split; [left; reflexivity|]. split; [reflexivity|]. left. simpl. lia.
  - split; [exact Hne | exact Hres].
Defined.

(** * Further properties of the subnet functions *)

(** ** Decimal writing and [parseInt] *)

Lemma readDigits_cons (c : ascii) (r : string) (acc : Z) (seen : bool) :
  isDigit c = true ->
  readDigits (String c r) acc seen = readDigits r (10 * acc + digitValue c) true.
Proof. intros H. simpl. rewrite H. reflexivity. Qed.

Ltac digit_step IH :=
  simpl NilEmpty.string_of_uint;
  rewrite readDigits_cons by reflexivity;
  apply IH;
  match goal with
  | |- context [digitValue ?c] =>
      let v := fresh "v" in
      set (v := digitValue c); vm_compute in v; subst v
  end;
  cbn [Pos.of_uint_acc]; lia.

Lemma readDigits_acc (d : Decimal.uint) (acc : positive) (z : Z) :
  z = Zpos acc ->
  readDigits (NilEmpty.string_of_uint d) z true
  = Some (Zpos (Pos.of_uint_acc d acc)).
Proof.
  revert acc z.
  induction d; intros acc z ->; [reflexivity|..]; digit_step IHd.
Qed.

Lemma readDigits_of_uint (d : Decimal.uint) :
  readDigits (NilEmpty.string_of_uint d) 0 true
  = Some (Z.of_N (Pos.of_uint d)).
Proof.
  induction d; simpl; try reflexivity; try exact IHd;
    apply readDigits_acc; reflexivity.
Qed.

Lemma readDigits_seen (d : Decimal.uint) (z : Z) :
  d <> Decimal.Nil ->
  readDigits (NilEmpty.string_of_uint d) z false
  = readDigits (NilEmpty.string_of_uint d) z true.
Proof. destruct d; intros H; [elim H|..]; reflexivity. Qed.

Lemma parseInt_digits (d : Decimal.uint) :
  d <> Decimal.Nil ->
  parseInt (NilEmpty.string_of_uint d) = Some (Z.of_N (Pos.of_uint d)).
Proof.
  intros H. rewrite <- readDigits_of_uint, <- (readDigits_seen d 0 H).
  destruct d; [elim H; reflexivity|..]; reflexivity.
Qed.

Lemma ofZ_pos (p : positive) :
  ofZ (Zpos p) = NilEmpty.string_of_uint (Pos.to_uint p).
Proof.
  unfold ofZ. simpl. unfold NilZero.string_of_uint.
  pose proof (DecimalPos.Unsigned.to_uint_nonnil p) as H.
  destruct (Pos.to_uint p); [elim H|..]; reflexivity.
Qed.

Lemma ofZ_neg (p : positive) :
  ofZ (Zneg p) = String "-" (NilEmpty.string_of_uint (Pos.to_uint p)).
Proof.
  unfold ofZ. simpl. unfold NilZero.string_of_uint.
  pose proof (DecimalPos.Unsigned.to_uint_nonnil p) as H.
  destruct (Pos.to_uint p); [elim H|..]; reflexivity.
Qed.

(** [parseInt(String(n), 10)] is [n]. *)
Lemma parseInt_ofZ (n : Z) : parseInt (ofZ n) = Some n.
Proof.
  destruct n as [|p|p].
  - reflexivity.
  - rewrite ofZ_pos, parseInt_digits by apply DecimalPos.Unsigned.to_uint_nonnil.
    rewrite DecimalPos.Unsigned.of_to. reflexivity.
  - rewrite ofZ_neg. unfold parseInt. simpl.
    rewrite readDigits_seen by apply DecimalPos.Unsigned.to_uint_nonnil.
    rewrite readDigits_of_uint, DecimalPos.Unsigned.of_to. reflexivity.
Qed.

Lemma allDigits_uint (d : Decimal.uint) :
  allDigits (NilEmpty.string_of_uint d) = true.
Proof. induction d; simpl; auto. Qed.

Lemma isDigitString_uint (d : Decimal.uint) :
  d <> Decimal.Nil -> isDigitString (NilEmpty.string_of_uint d) = true.
Proof.
  intros H. pose proof (allDigits_uint d) as A.
  destruct d; [elim H; reflexivity|..]; exact A.
Qed.

Lemma isDigitString_ofZ (n : Z) : 0 <= n -> isDigitString (ofZ n) = true.
Proof.
  destruct n as [|p|p]; intros H; [reflexivity| |lia].
  rewrite ofZ_pos. apply isDigitString_uint.
  apply DecimalPos.Unsigned.to_uint_nonnil.
Qed.

Lemma startsWithSlash_uint (d : Decimal.uint) :
  startsWithSlash (NilEmpty.string_of_uint d) = false.
Proof. destruct d; reflexivity. Qed.

Lemma startsWithSlash_ofZ (n : Z) : startsWithSlash (ofZ n) = false.
Proof.
  destruct n as [|p|p]; [reflexivity| |].
  - rewrite ofZ_pos. apply startsWithSlash_uint.
  - rewrite ofZ_neg. reflexivity.
Qed.

(** A string of digits holds no dot, so [split] leaves it whole. *)
Lemma split_dot_digits (s : string) :
  allDigits s = true -> split "." s = [s].
Proof.
  induction s as [|c s IH]; simpl; [reflexivity|].
  intros H. apply andb_prop in H as [Hc Hs].
  rewrite (IH Hs).
  destruct (Ascii.eqb c ".") eqn:E; [|reflexivity].
  apply Ascii.eqb_eq in E. subst c. discriminate.
Qed.

Lemma subnetBits_slashForm (n : Z) : subnetBits (slashForm n) = BitsNum n.
Proof.
  unfold subnetBits, slashForm. simpl. rewrite parseInt_ofZ. reflexivity.
Qed.

Lemma subnetBits_bareForm (n : Z) :
  subnetBits (bareForm n) = if 0 <=? n then BitsNum n else BitsNull.
Proof.
  unfold subnetBits, bareForm. rewrite startsWithSlash_ofZ.
  destruct (0 <=? n) eqn:E.
  - apply Z.leb_le in E. rewrite (isDigitString_ofZ n E), parseInt_ofZ.
    reflexivity.
  - apply Z.leb_gt in E. destruct n as [|p|p]; try lia.
    rewrite ofZ_neg. simpl.
    unfold isDottedQuad. simpl.
    rewrite (split_dot_digits _ (allDigits_uint _)). reflexivity.
Qed.

Lemma getAvailableIPs_bits_in (subnet : string) (n : Z) :
  subnetBits subnet = BitsNum n -> 1 <= n <= 32 ->
  getAvailableIPs subnet = Some (2 ^ (32 - n) - 14).
Proof.
  intros B H. unfold getAvailableIPs. rewrite B.
  replace (n =? 0) with false by (symmetry; apply Z.eqb_neq; lia).
  replace (0 <=? n) with true by (symmetry; apply Z.leb_le; lia).
  replace (n <=? 32) with true by (symmetry; apply Z.leb_le; lia).
  reflexivity.
Qed.

Lemma getAvailableIPs_bits_out (subnet : string) (n : Z) :
  subnetBits subnet = BitsNum n -> n < 1 \/ 32 < n ->
  getAvailableIPs subnet = None.
Proof.
  intros B H. unfold getAvailableIPs. rewrite B.
  destruct (n =? 0) eqn:Ez; [reflexivity|]. apply Z.eqb_neq in Ez.
  destruct (0 <=? n) eqn:E0; [|reflexivity]. apply Z.leb_le in E0.
  replace (n <=? 32) with false by (symmetry; apply Z.leb_gt; lia).
  reflexivity.
Qed.

(** X1: for every integer [n], ["/n"] and ["n"] give [2^(32-n) - 14] when
    [1 <= n <= 32] and [null] otherwise: a prefix length above 32, zero or
    a negative one is refused. *)
Theorem getAvailableIPs_prefix_text (n : Z) :
  (1 <= n <= 32 ->
   getAvailableIPs (slashForm n) = Some (2 ^ (32 - n) - 14)
   /\ getAvailableIPs (bareForm n) = Some (2 ^ (32 - n) - 14))
  /\ (n < 1 \/ 32 < n ->
      getAvailableIPs (slashForm n) = None
      /\ getAvailableIPs (bareForm n) = None).
Proof.
  pose proof (subnetBits_slashForm n) as S.
  pose proof (subnetBits_bareForm n) as B.
  split; intros H.
  - replace (0 <=? n) with true in B by (symmetry; apply Z.leb_le; lia).
    split; apply (getAvailableIPs_bits_in _ n); assumption.
  - split; [apply (getAvailableIPs_bits_out _ n); assumption|].
    destruct (0 <=? n).
    + apply (getAvailableIPs_bits_out _ n); assumption.
    + unfold getAvailableIPs. rewrite B. reflexivity.
Qed.

Lemma getAvailableIPs_prefix_text_witness :
  getAvailableIPs (slashForm 24) = Some 242
  /\ getAvailableIPs (bareForm 33) = None.
Proof.
  split.
  - exact (proj1 (proj1 (getAvailableIPs_prefix_text 24) ltac:(lia))).
  - exact (proj2 (proj2 (getAvailableIPs_prefix_text 33) ltac:(lia))).
Defined.

(** X2: whatever the text, a figure that is not [null] is [2^k - 14] for
    some [k] from 0 to 31: never below -13 and never above [2^31 - 14]. *)
Theorem getAvailableIPs_range (subnet : string) (v : Z) :
  getAvailableIPs subnet = Some v ->
  (exists bits, 1 <= bits <= 32 /\ v = 2 ^ (32 - bits) - 14)
  /\ -13 <= v <= 2147483634.
Proof.
  unfold getAvailableIPs.
  destruct (subnetBits subnet) as [| |bits]; try discriminate.
  destruct (negb (bits =? 0) && (0 <=? bits) && (bits <=? 32)) eqn:G;
    [|discriminate].
  intros H. assert (v = 2 ^ (32 - bits) - 14) as -> by congruence. clear H.
  apply andb_prop in G as [G E32]. apply andb_prop in G as [Ez E0].
  apply negb_true_iff, Z.eqb_neq in Ez. apply Z.leb_le in E0, E32.
  split; [exists bits; split; [lia | reflexivity]|].
  pose proof (Z.pow_le_mono_r 2 0 (32 - bits) ltac:(lia) ltac:(lia)) as Lo.
  pose proof (Z.pow_le_mono_r 2 (32 - bits) 31 ltac:(lia) ltac:(lia)) as Hi.
  change (2 ^ 0) with 1 in Lo. change (2 ^ 31) with 2147483648 in Hi. lia.
Qed.

Lemma getAvailableIPs_range_witness :
  -13 <= 18 <= 2147483634.
Proof.
  exact (proj2 (getAvailableIPs_range "/27" 18 eq_refl)).
Defined.

(** ** Netmasks *)

Lemma split_cons (sep c : ascii) (r : string) :
  split sep (String c r)
  = if Ascii.eqb c sep then EmptyString :: split sep r
    else match split sep r with
         | p :: ps => String c p :: ps
         | [] => [String c EmptyString]
         end.
Proof. reflexivity. Qed.

Lemma split_length (sep : ascii) (s : string) :
  (1 <= List.length (split sep s))%nat.
Proof.
  induction s as [|c r IH]; [simpl; lia|].
  rewrite split_cons. destruct (Ascii.eqb c sep); [simpl; lia|].
  destruct (split sep r); simpl in *; lia.
Qed.

Lemma occurrences_cons (sep c : ascii) (r : string) :
  occurrences sep (String c r)
  = (if Ascii.eqb c sep then 1 else 0) + occurrences sep r.
Proof.
  unfold occurrences. rewrite split_cons.
  pose proof (split_length sep r) as L.
  destruct (Ascii.eqb c sep); [simpl List.length; lia|].
  destruct (split sep r); simpl in *; lia.
Qed.

Lemma occurrences_app (sep : ascii) (x y : string) :
  occurrences sep (x ++ y) = occurrences sep x + occurrences sep y.
Proof.
  induction x as [|c x IH]; [reflexivity|].
  simpl append. rewrite !occurrences_cons, IH. lia.
Qed.

Lemma occurrences_zeros (n : nat) : occurrences "1" (repeatChar "0" n) = 0.
Proof.
  induction n as [|n IH]; [reflexivity|].
  simpl repeatChar. rewrite occurrences_cons, IH. reflexivity.
Qed.

Lemma occurrences_binary (p : positive) :
  occurrences "1" (binaryOfPositive p) = popcountPos p.
Proof.
  induction p as [q IH|q IH|]; simpl; [| |reflexivity];
    rewrite occurrences_app, IH.
  - change (occurrences "1" "1") with 1. reflexivity.
  - change (occurrences "1" "0") with 0. lia.
Qed.

(** The ones of a padded binary octet are the ones of the number. *)
Lemma occurrences_octet (n : Z) :
  occurrences "1" (padStart8 (toString2 n)) = popcount n.
Proof.
  unfold padStart8. rewrite occurrences_app, occurrences_zeros.
  destruct n as [|p|p]; simpl; try reflexivity. apply occurrences_binary.
Qed.

Lemma NumberOfDigits_ofZ (n : Z) : 0 <= n -> NumberOfDigits (ofZ n) = n.
Proof.
  intros H. unfold NumberOfDigits.
  destruct n as [|p|p]; [reflexivity| |lia].
  rewrite ofZ_pos, readDigits_seen, readDigits_of_uint, DecimalPos.Unsigned.of_to
    by apply DecimalPos.Unsigned.to_uint_nonnil.
  reflexivity.
Qed.

Lemma allDigits_ofZ (n : Z) : 0 <= n -> allDigits (ofZ n) = true.
Proof.
  destruct n as [|p|p]; intros H; [reflexivity| |lia].
  rewrite ofZ_pos. apply allDigits_uint.
Qed.

Lemma split_dot_app (x rest : string) :
  allDigits x = true ->
  split "." (x ++ String "." rest) = x :: split "." rest.
Proof.
  induction x as [|c x IH]; intros H; [reflexivity|].
  simpl in H. apply andb_prop in H as [Hc Hx].
  simpl append. rewrite split_cons, (IH Hx).
  destruct (Ascii.eqb c ".") eqn:E; [|reflexivity].
  apply Ascii.eqb_eq in E. subst c. discriminate.
Qed.

Lemma allDigits_dot (x rest : string) :
  allDigits (x ++ String "." rest) = false.
Proof.
  induction x as [|c x IH]; [reflexivity|].
  simpl. rewrite IH. apply andb_false_r.
Qed.

Lemma head_ofZ (n : Z) (rest : string) :
  0 <= n -> exists c r, (ofZ n ++ rest)%string = String c r /\ isDigit c = true.
Proof.
  intros H. pose proof (isDigitString_ofZ n H) as D.
  destruct (ofZ n) as [|c r]; [discriminate|].
  exists c, (r ++ rest)%string. split; [reflexivity|].
  simpl in D. apply andb_prop in D as [D _]. exact D.
Qed.

Lemma split_dottedForm (a b c d : Z) :
  0 <= a -> 0 <= b -> 0 <= c -> 0 <= d ->
  split "." (dottedForm a b c d) = [ofZ a; ofZ b; ofZ c; ofZ d].
Proof.
  intros Ha Hb Hc Hd. unfold dottedForm. simpl join.
  rewrite !split_dot_app by (apply allDigits_ofZ; assumption).
  rewrite split_dot_digits by (apply allDigits_ofZ; assumption).
  reflexivity.
Qed.

Lemma subnetBits_dottedForm (a b c d : Z) :
  0 <= a -> 0 <= b -> 0 <= c -> 0 <= d ->
  subnetBits (dottedForm a b c d)
  = BitsNum (popcount a + popcount b + popcount c + popcount d).
Proof.
  intros Ha Hb Hc Hd. unfold subnetBits.
  assert (S : startsWithSlash (dottedForm a b c d) = false).
  { unfold dottedForm. simpl join.
    match goal with
    | |- context [(ofZ a ++ ?rest)%string] =>
        destruct (head_ofZ a rest Ha) as (h & r & -> & Hh)
    end.
    unfold startsWithSlash.
    destruct (Ascii.eqb h "/") eqn:E.
    - apply Ascii.eqb_eq in E. subst h. discriminate.
    - destruct h as [[|] [|] [|] [|] [|] [|] [|] [|]];
        try reflexivity; discriminate. }
  assert (D : isDigitString (dottedForm a b c d) = false).
  { unfold dottedForm. simpl join.
    match goal with
    | |- context [(ofZ a ++ String "." ?rest)%string] =>
        pose proof (allDigits_dot (ofZ a) rest) as A
    end.
    unfold isDigitString. destruct (ofZ a ++ _)%string; [reflexivity | exact A]. }
  assert (Q : isDottedQuad (dottedForm a b c d) = true).
  { unfold isDottedQuad. rewrite split_dottedForm by assumption.
    rewrite !isDigitString_ofZ by assumption. reflexivity. }
  rewrite S, D, Q. f_equal.
  unfold maskBits. rewrite split_dottedForm by assumption.
  simpl map. rewrite !NumberOfDigits_ofZ by assumption.
  fold (occurrences "1"
          (joinEmpty [padStart8 (toString2 a); padStart8 (toString2 b);
                      padStart8 (toString2 c); padStart8 (toString2 d)])).
  unfold joinEmpty. simpl fold_right.
  rewrite !occurrences_app, !occurrences_octet.
  change (occurrences "1" "") with 0. lia.
Qed.

(** X3: a dotted quad is read by counting the ones of its four numbers:
    for numbers below [2^53] (which [Number] reads exactly) with [k] ones in
    all, the figure is [2^(32-k) - 14] when [1 <= k <= 32] and [null]
    otherwise.  Neither the bound 255 of an octet nor the contiguity of the
    mask is checked. *)
Theorem getAvailableIPs_netmask (a b c d : Z) :
  0 <= a < 2 ^ 53 -> 0 <= b < 2 ^ 53 -> 0 <= c < 2 ^ 53 -> 0 <= d < 2 ^ 53 ->
  let k := popcount a + popcount b + popcount c + popcount d in
  (1 <= k <= 32 ->
   getAvailableIPs (dottedForm a b c d) = Some (2 ^ (32 - k) - 14))
  /\ (k < 1 \/ 32 < k -> getAvailableIPs (dottedForm a b c d) = None).
Proof.
  intros [Ha _] [Hb _] [Hc _] [Hd _] k.
  pose proof (subnetBits_dottedForm a b c d Ha Hb Hc Hd) as B. fold k in B.
  split; intros H.
  - apply (getAvailableIPs_bits_in _ k); assumption.
  - apply (getAvailableIPs_bits_out _ k); assumption.
Qed.

Lemma getAvailableIPs_netmask_witness :
  getAvailableIPs "255.0.255.0" = Some 65522
  /\ getAvailableIPs "0.0.0.0" = None
  /\ getAvailableIPs "1023.511.0.7" = Some 1010.
Proof.
  split; [|split].
  - exact (proj1 (getAvailableIPs_netmask 255 0 255 0
                    ltac:(split; [lia | reflexivity])
                    ltac:(split; [lia | reflexivity])
                    ltac:(split; [lia | reflexivity])
                    ltac:(split; [lia | reflexivity]))
             ltac:(vm_compute; split; discriminate)).
  - exact (proj2 (getAvailableIPs_netmask 0 0 0 0
                    ltac:(split; [lia | reflexivity])
                    ltac:(split; [lia | reflexivity])
                    ltac:(split; [lia | reflexivity])
                    ltac:(split; [lia | reflexivity]))
             ltac:(left; vm_compute; reflexivity)).
  - exact (proj1 (getAvailableIPs_netmask 1023 511 0 7
                    ltac:(split; [lia | reflexivity])
                    ltac:(split; [lia | reflexivity])
                    ltac:(split; [lia | reflexivity])
                    ltac:(split; [lia | reflexivity]))
             ltac:(vm_compute; split; discriminate)).
Defined.

(** ** The subnet warning of [calculate] *)

Lemma subnetWarning_slashForm (n : Z) :
  subnetWarning (slashForm n) = if 27 <? n then SUBNET_WARNING else "".
Proof.
  unfold subnetWarning, slashForm. simpl. rewrite parseInt_ofZ. reflexivity.
Qed.

Lemma subnetWarning_bareForm (n : Z) :
  subnetWarning (bareForm n) = if 27 <? n then SUBNET_WARNING else "".
Proof.
  unfold subnetWarning, bareForm. rewrite startsWithSlash_ofZ.
  destruct (0 <=? n) eqn:E.
  - apply Z.leb_le in E. rewrite (isDigitString_ofZ n E), parseInt_ofZ.
    reflexivity.
  - apply Z.leb_gt in E.
    replace (27 <? n) with false by (symmetry; apply Z.ltb_ge; lia).
    destruct n as [|p|p]; try lia. rewrite ofZ_neg. reflexivity.
Qed.

(** X4: [calculate] warns about the subnet exactly when the prefix length,
    written ["/n"] or ["n"], is above 27; this includes lengths above 32,
    for which [getAvailableIPs] has no figure. *)
Theorem subnet_warning_prefix (apps : list AppInput.t) (n : Z) :
  (27 < n ->
   PlanResult.warning (calculate apps (slashForm n) (Plan Consumption))
   = Some "Minimum subnet size for integration is /27!"
   /\ PlanResult.warning (calculate apps (bareForm n) (Plan Consumption))
      = Some "Minimum subnet size for integration is /27!"
   /\ PlanResult.warning (calculate apps (slashForm n) (Plan Dedicated))
      = Some "Minimum subnet size for integration is /27!"
   /\ PlanResult.warning (calculate apps (slashForm n) Mix)
      = Some "Minimum subnet size for integration is /27!")
  /\ (n <= 27 ->
      PlanResult.warning (calculate apps (slashForm n) (Plan Consumption))
      = Some ""
      /\ PlanResult.warning (calculate apps (bareForm n) (Plan Consumption))
         = Some ""
      /\ PlanResult.warning (calculate apps (slashForm n) (Plan Dedicated))
         = dedicatedWarning apps
      /\ PlanResult.warning (calculate apps (slashForm n) Mix)
         = dedicatedWarning (filter (hasPlan Dedicated) apps)).
Proof.
  rewrite !calculate_Consumption, calculate_Dedicated, calculate_Mix.
  cbv zeta. simpl PlanResult.warning.
  rewrite subnetWarning_slashForm, subnetWarning_bareForm.
  split; intros H.
  - replace (27 <? n) with true by (symmetry; apply Z.ltb_lt; lia).
    repeat split.
  - replace (27 <? n) with false by (symmetry; apply Z.ltb_ge; lia).
    repeat split.
Qed.

Lemma subnet_warning_prefix_witness :
  PlanResult.warning (calculate [] (slashForm 40) (Plan Consumption))
  = Some "Minimum subnet size for integration is /27!"
  /\ PlanResult.warning (calculate [] (bareForm 27) (Plan Consumption))
     = Some "".
Proof.
  split.
  - exact (proj1 (proj1 (subnet_warning_prefix [] 40) ltac:(lia))).
  - exact (proj1 (proj2 (proj2 (subnet_warning_prefix [] 27) ltac:(lia)))).
Defined.

Lemma split_head_slash (r : string) :
  exists p ps, split "." (String "/" r) = String "/" p :: ps.
Proof.
  rewrite split_cons. simpl Ascii.eqb.
  destruct (split "." r) as [|p ps]; eauto.
Qed.

Lemma dotted_not_slash (subnet : string) :
  isDottedQuad subnet = true -> startsWithSlash subnet = false.
Proof.
  intros Q. destruct (startsWithSlash subnet) eqn:S; [|reflexivity].
  exfalso. unfold startsWithSlash in S.
  destruct subnet as [|c r]; [discriminate|].
  assert (c = "/"%char) as ->.
  { destruct c as [[|] [|] [|] [|] [|] [|] [|] [|]]; try discriminate; reflexivity. }
  unfold isDottedQuad in Q.
  destruct (split_head_slash r) as (p & ps & E). rewrite E in Q.
  destruct ps as [|b [|c [|d [|e ps]]]]; discriminate.
Qed.

Lemma dotted_not_digits (subnet : string) :
  isDottedQuad subnet = true -> isDigitString subnet = false.
Proof.
  intros Q. destruct (isDigitString subnet) eqn:D; [|reflexivity].
  exfalso. unfold isDottedQuad in Q.
  assert (allDigits subnet = true) as A.
  { destruct subnet; [discriminate | exact D]. }
  rewrite (split_dot_digits subnet A) in Q. discriminate.
Qed.

(** X5: a subnet given as a dotted quad never raises the subnet warning,
    however long the mask: the opening of [calculate] reads only the ["/n"]
    and ["n"] forms, while [getAvailableIPs] reads all three. *)
Theorem subnet_warning_ignores_netmask (apps : list AppInput.t) (subnet : string) :
  isDottedQuad subnet = true ->
  subnetWarning subnet = ""
  /\ PlanResult.warning (calculate apps subnet (Plan Consumption)) = Some ""
  /\ PlanResult.warning (calculate apps subnet (Plan Dedicated))
     = dedicatedWarning apps
  /\ PlanResult.warning (calculate apps subnet Mix)
     = dedicatedWarning (filter (hasPlan Dedicated) apps)
  /\ getAvailableIPs subnet
     = (if negb (maskBits subnet =? 0) && (0 <=? maskBits subnet)
           && (maskBits subnet <=? 32)
        then Some (2 ^ (32 - maskBits subnet) - 14) else None).
Proof.
  intros Q.
  assert (W : subnetWarning subnet = "").
  { unfold subnetWarning.
    rewrite (dotted_not_slash _ Q), (dotted_not_digits _ Q). reflexivity. }
  rewrite calculate_Consumption, calculate_Dedicated, calculate_Mix.
  cbv zeta. simpl PlanResult.warning. rewrite W.
  repeat split.
  unfold getAvailableIPs, subnetBits.
  rewrite (dotted_not_slash _ Q), (dotted_not_digits _ Q), Q. reflexivity.
Qed.

Lemma subnet_warning_ignores_netmask_witness :
  subnetWarning "255.255.255.240" = ""
  /\ getAvailableIPs "255.255.255.240" = Some 2
  /\ subnetWarning "/28" = SUBNET_WARNING.
Proof.
  split; [|split; reflexivity].
  exact (proj1 (subnet_warning_ignores_netmask [] "255.255.255.240" eq_refl)).
Defined.

(** * Further properties of validation *)

Lemma limitErrors_nil (planChoice : PlanChoice) (app : AppInput.t) (idx : nat) :
  limitErrors planChoice app idx = []
  <-> (isConsumption app planChoice = true ->
       AppInput.cpu app <= 4 /\ AppInput.ram app <= 8 /\ AppInput.gpu app <= 0).
Proof.
  unfold limitErrors, validateAppInput.
  destruct (isConsumption app planChoice).
  - destruct (4 <? AppInput.cpu app) eqn:C;
      [apply Z.ltb_lt in C | apply Z.ltb_ge in C].
    { split; [discriminate | intros H; specialize (H eq_refl); lia]. }
    destruct (8 <? AppInput.ram app) eqn:R;
      [apply Z.ltb_lt in R | apply Z.ltb_ge in R].
    { split; [discriminate | intros H; specialize (H eq_refl); lia]. }
    destruct (0 <? AppInput.gpu app) eqn:G;
      [apply Z.ltb_lt in G | apply Z.ltb_ge in G].
    { split; [discriminate | intros H; specialize (H eq_refl); lia]. }
    split; [intros _ _; lia | reflexivity].
  - split; [intros _ H; discriminate | reflexivity].
Qed.

Lemma pushIf_nil (cond : bool) (app : AppInput.t) (idx : nat) (msg : string) :
  pushIf cond app idx msg = [] <-> cond = false.
Proof. unfold pushIf. destruct cond; split; congruence. Qed.

Lemma app_nil_iff {A : Type} (l l' : list A) :
  (l ++ l')%list = [] <-> l = [] /\ l' = [].
Proof.
  split; [apply app_eq_nil | intros [-> ->]; reflexivity].
Qed.

Lemma allErrors_nil (planChoice : PlanChoice) (app : AppInput.t) (idx : nat) :
  allErrors planChoice app idx = [] <-> appValid planChoice app.
Proof.
  unfold allErrors, appValid. simpl List.concat. rewrite app_nil_r.
  rewrite !app_nil_iff.
  rewrite limitErrors_nil, !pushIf_nil, orb_false_iff.
  rewrite Z.leb_gt, Z.leb_gt, !Z.ltb_ge. intuition lia.
Qed.

Lemma pushed_nil (body : AppInput.t -> nat -> list string)
    (ok : AppInput.t -> Prop) (apps : list AppInput.t) (idx : nat) :
  (forall app i, body app i = [] <-> ok app) ->
  (pushed body apps idx = [] <-> forall app, In app apps -> ok app).
Proof.
  intros B. revert idx.
  induction apps as [|a apps IH]; intros idx; simpl.
  - split; [intros _ app []| reflexivity].
  - rewrite app_nil_iff, B, IH. split.
    + intros [Ha Hr] app [<-|I]; auto.
    + intros H. split; [apply H; left; reflexivity|].
      intros app I. apply H. right. exact I.
Qed.

Lemma validateAllApps_valid (apps : list AppInput.t) (planChoice : PlanChoice) :
  validateAllApps apps planChoice = []
  <-> forall app, In app apps -> appValid planChoice app.
Proof.
  unfold validateAllApps. rewrite forEachIdx_pushed. simpl.
  apply pushed_nil. intros app i. apply allErrors_nil.
Qed.

Lemma handleSubmit_accepts (st : Home.t) :
  (forall app, In app (Home.apps st) -> appValid (Home.planChoice st) app) ->
  Home.result (handleSubmit st)
  = Some (calculate (Home.apps st) (Home.subnetSize st) (Home.planChoice st))
  /\ Home.inputErrors (handleSubmit st) = [].
Proof.
  intros H. apply validateAllApps_valid in H.
  unfold handleSubmit. rewrite H. simpl. split; reflexivity.
Qed.

Lemma handleSubmit_refuses (st : Home.t) :
  (exists app, In app (Home.apps st) /\ ~ appValid (Home.planChoice st) app) ->
  Home.result (handleSubmit st) = Home.result st
  /\ Home.inputErrors (handleSubmit st) <> [].
Proof.
  intros (app & I & N). unfold handleSubmit.
  destruct (validateAllApps (Home.apps st) (Home.planChoice st)) as [|e errs] eqn:E.
  - elim N. apply (proj1 (validateAllApps_valid _ _) E app I).
  - simpl. split; [reflexivity | discriminate].
Qed.

(** X6: [validateAllApps] returns no error exactly when every app has
    [cpu > 0], [ram > 0] and [minReplicas <= baselineReplicas <= replicas],
    and, where Consumption accounting applies to it, [cpu <= 4],
    [ram <= 8] and no GPU. *)
Theorem validateAllApps_passes (apps : list AppInput.t) (planChoice : PlanChoice) :
  validateAllApps apps planChoice = []
  <-> forall app, In app apps ->
        0 < AppInput.cpu app
        /\ 0 < AppInput.ram app
        /\ AppInput.minReplicas app <= AppInput.baselineReplicas app
        /\ AppInput.baselineReplicas app <= AppInput.replicas app
        /\ (isConsumption app planChoice = true ->
            AppInput.cpu app <= 4 /\ AppInput.ram app <= 8
            /\ AppInput.gpu app <= 0).
Proof.
  unfold validateAllApps. rewrite forEachIdx_pushed. simpl.
  apply (pushed_nil _ (appValid planChoice)).
  intros app i. apply allErrors_nil.
Qed.

Lemma validateAllApps_passes_witness :
  validateAllApps [AppInput.mk "web" 1 0 2 2 3 25 (Some Consumption) None;
                   AppInput.mk "gpu" 8 1 56 1 1 2 (Some Dedicated) None] Mix
  = [].
Proof.
  apply (proj2 (validateAllApps_passes
                  [AppInput.mk "web" 1 0 2 2 3 25 (Some Consumption) None;
                   AppInput.mk "gpu" 8 1 56 1 1 2 (Some Dedicated) None] Mix)).
  intros app [<-|[<-|[]]]; simpl; repeat split; try lia; discriminate.
Defined.

(** X7: the later submit handler stores the plan of the current inputs and
    clears the errors when every app is valid; otherwise it keeps the former
    result and shows a non-empty error list. *)
Theorem handleSubmit_outcome (st : Home.t) :
  ((forall app, In app (Home.apps st) -> appValid (Home.planChoice st) app) ->
   Home.result (handleSubmit st)
   = Some (calculate (Home.apps st) (Home.subnetSize st) (Home.planChoice st))
   /\ Home.inputErrors (handleSubmit st) = [])
  /\ ((exists app, In app (Home.apps st)
                   /\ ~ appValid (Home.planChoice st) app) ->
      Home.result (handleSubmit st) = Home.result st
      /\ Home.inputErrors (handleSubmit st) <> []).
Proof.
  pose proof (validateAllApps_valid (Home.apps st) (Home.planChoice st)) as V.
  unfold handleSubmit.
  destruct (validateAllApps (Home.apps st) (Home.planChoice st)) as [|e errs] eqn:E.
  - simpl. split; [auto|].
    intros (app & I & N). elim N. apply (proj1 V eq_refl app I).
  - simpl. split.
    + intros H. apply (proj2 V) in H. discriminate.
    + intros _. split; [reflexivity | discriminate].
Qed.

Lemma handleSubmit_outcome_witness :
  let web := AppInput.mk "web" 1 0 2 2 2 25 None None in
  let st := Home.mk [web] "/27" (Plan Consumption) None ["stale"] in
  Home.result (handleSubmit st) = Some (calculate [web] "/27" (Plan Consumption))
  /\ Home.inputErrors (handleSubmit st) = [].
Proof.
  cbv zeta.
  apply (proj1 (handleSubmit_outcome
                  (Home.mk [AppInput.mk "web" 1 0 2 2 2 25 None None] "/27"
                     (Plan Consumption) None ["stale"]))).
  intros app [<-|[]]. unfold appValid. simpl.
  repeat split; try lia.
Defined.

(** * Further properties of the totals *)

Section SumFacts.

Variable f : AppInput.t -> Z.

Lemma sumZ_permutation (l l' : list AppInput.t) :
  Permutation l l' -> sumZ f l = sumZ f l'.
Proof.
  induction 1 as [|a l l' _ IH|a b l|l l' l'' _ IH1 _ IH2].
  - reflexivity.
  - rewrite !sumZ_cons, IH. reflexivity.
  - rewrite !sumZ_cons. lia.
  - rewrite IH1. exact IH2.
Qed.

Lemma sumZ_le (g : AppInput.t -> Z) (l : list AppInput.t) :
  (forall a, In a l -> f a <= g a) -> sumZ f l <= sumZ g l.
Proof.
  induction l as [|a l IH]; intros H; [reflexivity|].
  rewrite !sumZ_cons.
  pose proof (H a (or_introl eq_refl)).
  assert (sumZ f l <= sumZ g l) by (apply IH; intros b I; apply H; right; exact I).
  lia.
Qed.

End SumFacts.


Lemma filter_permutation {A : Type} (p : A -> bool) (l l' : list A) :
  Permutation l l' -> Permutation (filter p l) (filter p l').
Proof.
  induction 1 as [|a l l' _ IH|a b l|l l' l'' _ IH1 _ IH2]; simpl.
  - constructor.
  - destruct (p a); [constructor|]; exact IH.
  - destruct (p a), (p b); try apply Permutation_refl. constructor.
  - exact (Permutation_trans IH1 IH2).
Qed.

(** X8: the totals do not depend on the order of the apps: any
    rearrangement of the list gives the same peak total, upgrade total and
    minimum-replica sum, under each plan choice. *)
Theorem totals_order_independent
    (apps apps' : list AppInput.t) (subnet : string) (planChoice : PlanChoice) :
  Permutation apps apps' ->
  PlanResult.ips (calculate apps subnet planChoice)
  = PlanResult.ips (calculate apps' subnet planChoice)
  /\ PlanResult.doubledIPs (calculate apps subnet planChoice)
     = PlanResult.doubledIPs (calculate apps' subnet planChoice)
  /\ PlanResult.minReplicas (calculate apps subnet planChoice)
     = PlanResult.minReplicas (calculate apps' subnet planChoice).
Proof.
  intros P.
  pose proof (filter_permutation (hasPlan Consumption) _ _ P) as Pc.
  pose proof (filter_permutation (hasPlan Dedicated) _ _ P) as Pd.
  destruct planChoice as [[|]|].
  - rewrite !calculate_Consumption. simpl.
    rewrite !(sumZ_permutation _ _ _ P). auto.
  - rewrite !calculate_Dedicated. simpl.
    rewrite !(sumZ_permutation _ _ _ P). auto.
  - rewrite !calculate_Mix. cbv zeta. simpl.
    rewrite !(sumZ_permutation _ _ _ Pc), !(sumZ_permutation _ _ _ Pd),
      (sumZ_permutation _ _ _ P). auto.
Qed.

Lemma totals_order_independent_witness :
  let web := AppInput.mk "web" 1 0 2 2 2 25 (Some Consumption) None in
  let job := AppInput.mk "job" 4 0 16 3 3 5 (Some Dedicated) None in
  PlanResult.ips (calculate [web; job] "/24" Mix)
  = PlanResult.ips (calculate [job; web] "/24" Mix).
Proof.
  cbv zeta.
  exact (proj1 (totals_order_independent _ _ "/24" Mix (perm_swap _ _ []))).
Defined.

(** X9: under the Consumption plan ten times the peak total covers the
    replicas of all apps, with at most nine places left over per app. *)
Theorem consumption_total_bounds (apps : list AppInput.t) (subnet : string) :
  let ips := PlanResult.ips (calculate apps subnet (Plan Consumption)) in
  let total := sumZ AppInput.replicas apps in
  total <= 10 * ips <= total + 9 * Z.of_nat (List.length apps).
Proof.
  cbv zeta. rewrite calculate_Consumption. simpl PlanResult.ips.
  induction apps as [|a apps IH]; [unfold sumZ; simpl; lia|].
  rewrite !sumZ_cons.
  pose proof (ceilDiv_bounds (AppInput.replicas a) 10 ltac:(lia)) as B.
  fold (ceil10 (AppInput.replicas a)) in B.
  change (List.length (a :: apps)) with (S (List.length apps)). lia.
Qed.

Lemma nodesNeededOf_monotone (r r' : Z) (x : xnum) :
  r <= r' -> nodesNeededOf r x <= nodesNeededOf r' x.
Proof.
  intros H. unfold nodesNeededOf.
  destruct x as [| |p|]; simpl; try lia.
  destruct (0 <? p) eqn:E; [|lia].
  apply Z.ltb_lt in E. apply ceilDiv_monotone; assumption.
Qed.

Lemma appNodes_phase_le (a : AppInput.t) :
  AppInput.minReplicas a <= AppInput.replicas a ->
  appNodes true a <= appNodes false a.
Proof.
  intros H. rewrite !appNodes_nodesFor. unfold nodesFor, phaseReplicas.
  destruct (findNodeType a); [|lia].
  apply nodesNeededOf_monotone. exact H.
Qed.

Lemma consumption_phase_le (a : AppInput.t) :
  AppInput.minReplicas a <= AppInput.replicas a -> 1 <= AppInput.replicas a ->
  ceil10 (minReplicasOr1 a) <= ceil10 (AppInput.replicas a).
Proof.
  intros H1 H2. apply ceilDiv_monotone; [lia|].
  unfold minReplicasOr1. destruct (AppInput.minReplicas a =? 0); lia.
Qed.

(** X10: when every app has [minReplicas <= replicas] and at least one
    replica, the upgrade total never exceeds the peak total, under each plan
    choice.  (An app with zero replicas and zero minimum replicas costs one
    address in the Consumption upgrade total and none at peak: the minimum is
    read as [minReplicas || 1].) *)
Theorem upgrade_within_peak
    (apps : list AppInput.t) (subnet : string) (planChoice : PlanChoice) :
  (forall a, In a apps ->
             AppInput.minReplicas a <= AppInput.replicas a
             /\ 1 <= AppInput.replicas a) ->
  PlanResult.doubledIPs (calculate apps subnet planChoice)
  <= PlanResult.ips (calculate apps subnet planChoice).
Proof.
  intros H.
  assert (Hf : forall p a, In a (filter (hasPlan p) apps) ->
                           AppInput.minReplicas a <= AppInput.replicas a
                           /\ 1 <= AppInput.replicas a).
  { intros p a I. apply filter_In in I as [I _]. exact (H a I). }
  destruct planChoice as [[|]|].
  - rewrite calculate_Consumption. simpl. apply sumZ_le.
    intros a I. destruct (H a I). apply consumption_phase_le; assumption.
  - rewrite calculate_Dedicated. simpl. apply sumZ_le.
    intros a I. destruct (H a I). apply appNodes_phase_le; assumption.
  - rewrite calculate_Mix. cbv zeta. simpl.
    apply Z.add_le_mono; apply sumZ_le; intros a I; destruct (Hf _ a I).
    + apply consumption_phase_le; assumption.
    + apply appNodes_phase_le; assumption.
Qed.

Lemma upgrade_within_peak_witness :
  let web := AppInput.mk "web" 1 0 2 2 2 25 None None in
  PlanResult.doubledIPs (calculate [web] "/27" (Plan Consumption))
  <= PlanResult.ips (calculate [web] "/27" (Plan Consumption)).
Proof.
  cbv zeta. apply upgrade_within_peak.
  intros a [<-|[]]. simpl. lia.
Defined.

Lemma perNodeCapacity_valid (app : AppInput.t) (n : NodeType.t) :
  findNodeType app = Some n ->
  0 < AppInput.cpu app -> 0 < AppInput.ram app ->
  exists p, perNodeCapacityOf n app = Fin p /\ 1 <= p.
Proof.
  intros Hn Hc Hr. unfold perNodeCapacityOf.
  destruct (findNodeType_fits _ _ Hn) as (_ & Fc & Fr & Fg).
  destruct (floorDiv_positive _ _ Hc Fc) as (qc & -> & _ & Qc).
  destruct (floorDiv_positive _ _ Hr Fr) as (qr & -> & _ & Qr).
  simpl.
  destruct (0 <? AppInput.gpu app) eqn:G.
  - apply Z.ltb_lt in G.
    destruct (floorDiv_positive _ _ G Fg) as (qg & -> & _ & Qg).
    simpl. eexists. split; [reflexivity|]. lia.
  - simpl. eexists. split; [reflexivity|]. lia.
Qed.

(** X11: under the Dedicated plan an app with positive CPU and RAM
    requirements, a fitting node type and [R >= 1] replicas is given at
    least one node and at most [R]; so when all apps are such, the peak
    total lies between the number of apps and the number of replicas. *)
Theorem dedicated_total_bounds (apps : list AppInput.t) (subnet : string) :
  (forall a, In a apps ->
             0 < AppInput.cpu a /\ 0 < AppInput.ram a
             /\ 1 <= AppInput.replicas a /\ findNodeType a <> None) ->
  (forall a, In a apps ->
             1 <= appNodes false a <= AppInput.replicas a)
  /\ Z.of_nat (List.length apps)
     <= PlanResult.ips (calculate apps subnet (Plan Dedicated))
     <= sumZ AppInput.replicas apps.
Proof.
  intros H.
  assert (B : forall a, In a apps ->
                        1 <= appNodes false a <= AppInput.replicas a).
  { intros a I. destruct (H a I) as (Hc & Hr & HR & Hn).
    rewrite appNodes_nodesFor. unfold nodesFor, phaseReplicas.
    destruct (findNodeType a) as [n|] eqn:F; [|congruence].
    destruct (perNodeCapacity_valid a n F Hc Hr) as (p & -> & Hp).
    unfold nodesNeededOf. simpl.
    replace (0 <? p) with true by (symmetry; apply Z.ltb_lt; lia).
    pose proof (ceilDiv_bounds (AppInput.replicas a) p ltac:(lia)).
    pose proof (ceilDiv_least (AppInput.replicas a) p (AppInput.replicas a)
                  ltac:(lia) ltac:(nia)).
    nia. }
  split; [exact B|].
  rewrite calculate_Dedicated. simpl PlanResult.ips.
  split.
  - replace (Z.of_nat (List.length apps)) with (sumZ (fun _ => 1) apps).
    + apply sumZ_le. intros a I. apply (B a I).
    + clear. induction apps as [|a apps IH]; [reflexivity|].
      rewrite sumZ_cons, IH. simpl List.length. lia.
  - apply sumZ_le. intros a I. apply (B a I).
Qed.

Lemma dedicated_total_bounds_witness :
  let big := AppInput.mk "big" 20 0 200 1 1 5 None None in
  1 <= PlanResult.ips (calculate [big] "/24" (Plan Dedicated)) <= 5.
Proof.
  cbv zeta.
  apply (proj2 (dedicated_total_bounds
                  [AppInput.mk "big" 20 0 200 1 1 5 None None] "/24"
                  ltac:(intros a [<-|[]]; simpl;
                        repeat split; try lia; discriminate))).
Defined.

(** * Properties of the suggested allocation *)

Lemma nodeNumbers_In (n k : Z) : In k (nodeNumbers n) <-> 1 <= k <= n.
Proof.
  unfold nodeNumbers. rewrite in_map_iff. split.
  - intros (i & <- & I). apply in_seq in I. lia.
  - intros H. exists (Z.to_nat k). split; [lia|]. apply in_seq. lia.
Qed.






Lemma suggest_Dedicated (apps : list AppInput.t) :
  suggestComputeAllocation apps (Plan Dedicated) = map dedicatedComputeRow apps.
Proof. reflexivity. Qed.

(** X13: under the Dedicated plan the suggestion and the plan agree app
    by app: the row at position [i] of either belongs to the app at
    position [i], both name the same node type (or N/A) and the same
    capacity per node, and when [minReplicas <= baselineReplicas <=
    replicas] the suggested node count lies between the node counts of the
    upgrade phase and of the peak. *)
Theorem suggestion_agrees_with_plan
    (apps : list AppInput.t) (i : nat) (app : AppInput.t) :
  nth_error apps i = Some app ->
  exists srow peak upgrade,
    nth_error (suggestComputeAllocation apps (Plan Dedicated)) i = Some srow
    /\ nth_error (DedicatedNodes.perApp (getPerAppDedicatedNodes apps false)) i
       = Some peak
    /\ nth_error (DedicatedNodes.perApp (getPerAppDedicatedNodes apps true)) i
       = Some upgrade
    /\ ComputeRow.appName srow = PerAppResult.appName peak
    /\ ComputeRow.computeType srow = PerAppResult.nodeTypeName peak
    /\ (findNodeType app = None ->
        ComputeRow.nodesNeeded srow = CellText "N/A"
        /\ ComputeRow.perNodeCapacity srow = CellText "N/A"
        /\ ComputeRow.allocation srow = "No suitable node type"
        /\ PerAppResult.nodesNeeded peak = 0)
    /\ (findNodeType app <> None ->
        ComputeRow.perNodeCapacity srow
        = CellNumber (PerAppResult.perNodeCapacity peak)
        /\ exists n,
            ComputeRow.nodesNeeded srow = CellNumber (Fin n)
            /\ (AppInput.minReplicas app <= AppInput.baselineReplicas app ->
                PerAppResult.nodesNeeded upgrade <= n)
            /\ (AppInput.baselineReplicas app <= AppInput.replicas app ->
                n <= PerAppResult.nodesNeeded peak)).
Proof.
  intros Hi.
  exists (dedicatedComputeRow app), (perAppRow false app), (perAppRow true app).
  rewrite suggest_Dedicated, !getPerAppDedicatedNodes_closed. simpl.
  rewrite !(map_nth_error _ _ _ Hi).
  split; [reflexivity|]. split; [reflexivity|]. split; [reflexivity|].
  unfold dedicatedComputeRow, perAppRow.
  destruct (findNodeType app) as [nt|]; simpl.
  - split; [reflexivity|]. split; [reflexivity|].
    split; [intros [=]|]. intros _. split; [reflexivity|].
    eexists. split; [reflexivity|].
    split; intros H; apply nodesNeededOf_monotone; exact H.
  - split; [reflexivity|]. split; [reflexivity|].
    split; [auto|]. intros H. elim H. reflexivity.
Qed.

Lemma suggestion_agrees_with_plan_witness :
  let app := AppInput.mk "api" 2 0 4 1 5 9 None None in
  exists srow,
    nth_error (suggestComputeAllocation [app] (Plan Dedicated)) 0 = Some srow
    /\ ComputeRow.computeType srow = "D4".
Proof.
  cbv zeta.
  destruct (suggestion_agrees_with_plan
              [AppInput.mk "api" 2 0 4 1 5 9 None None] 0
              (AppInput.mk "api" 2 0 4 1 5 9 None None) eq_refl)
    as (srow & peak & upgrade & Hs & Hp & _ & _ & Ht & _).
  exists srow. split; [exact Hs|].
  rewrite Ht. vm_compute in Hp. injection Hp as <-. reflexivity.
Defined.

Lemma resourceErrors_nil (app : AppInput.t) (idx : nat) :
  resourceErrors app idx = []
  <-> 0 < AppInput.cpu app /\ 0 < AppInput.ram app.
Proof.
  unfold resourceErrors. rewrite app_nil_iff, !pushIf_nil, !Z.leb_gt. tauto.
Qed.

Lemma suggest_errors_nil (apps : list AppInput.t) (planChoice : PlanChoice) :
  (forEachIdx resourceErrors apps 0 [] ++ validateAllApps apps planChoice)%list = []
  <-> forall app, In app apps -> appValid planChoice app.
Proof.
  rewrite app_nil_iff, forEachIdx_pushed. simpl.
  rewrite (pushed_nil resourceErrors
             (fun app => 0 < AppInput.cpu app /\ 0 < AppInput.ram app))
    by (intros; apply resourceErrors_nil).
  rewrite validateAllApps_valid.
  split; [tauto|].
  intros H. split; [|exact H].
  intros app I. destruct (H app I) as (C & R & _). auto.
Qed.

(** X14: the suggestion handler shows an allocation under the very
    condition under which the submit handler computes a plan, every app
    valid in the sense of [validateAllApps]; on any invalid app it shows a
    non-empty error list and clears the allocation, where the submit handler
    keeps its former result.  Neither handler touches the other's cell. *)
Theorem handleSuggestCompute_outcome (st : Page.t) :
  let apps := Home.apps (Page.home st) in
  let planChoice := Home.planChoice (Page.home st) in
  Home.result (Page.home (handleSuggestCompute st)) = Home.result (Page.home st)
  /\ Page.computeAlloc (pageSubmit st) = Page.computeAlloc st
  /\ ((forall app, In app apps -> appValid planChoice app) ->
      Page.computeAlloc (handleSuggestCompute st)
      = Some (suggestComputeAllocation apps planChoice)
      /\ Home.inputErrors (Page.home (handleSuggestCompute st)) = []
      /\ Home.result (Page.home (pageSubmit st))
         = Some (calculate apps (Home.subnetSize (Page.home st)) planChoice))
  /\ ((exists app, In app apps /\ ~ appValid planChoice app) ->
      Page.computeAlloc (handleSuggestCompute st) = None
      /\ Home.inputErrors (Page.home (handleSuggestCompute st)) <> []
      /\ Home.result (Page.home (pageSubmit st)) = Home.result (Page.home st)).
Proof.
  cbv zeta.
  pose proof (suggest_errors_nil (Home.apps (Page.home st))
                (Home.planChoice (Page.home st))) as E.
  pose proof (handleSubmit_accepts (Page.home st)) as Sok.
  pose proof (handleSubmit_refuses (Page.home st)) as Sbad.
  unfold handleSuggestCompute.
  destruct (forEachIdx resourceErrors (Home.apps (Page.home st)) 0 []
            ++ validateAllApps (Home.apps (Page.home st))
                 (Home.planChoice (Page.home st)))%list as [|e errs] eqn:A.
  - simpl. split; [reflexivity|]. split; [reflexivity|]. split.
    + intros H. split; [reflexivity|]. split; [reflexivity|].
      apply (proj1 (Sok H)).
    + intros (app & I & N). elim N. apply (proj1 E eq_refl app I).
  - simpl. split; [reflexivity|]. split; [reflexivity|]. split.
    + intros H. apply (proj2 E) in H. discriminate.
    + intros H. split; [reflexivity|]. split; [discriminate|].
      apply (proj1 (Sbad H)).
Qed.

Lemma handleSuggestCompute_outcome_witness :
  let fresh := AppInput.mk "" 0 0 0 1 1 1 None (Some false) in
  let st := Page.mk (Home.mk [fresh] "" (Plan Dedicated) None [])
              (Some []) in
  Page.computeAlloc (handleSuggestCompute st) = None.
Proof.
  cbv zeta.
  apply (proj2 (proj2 (proj2 (handleSuggestCompute_outcome
           (Page.mk (Home.mk [AppInput.mk "" 0 0 0 1 1 1 None (Some false)]
                       "" (Plan Dedicated) None []) (Some []))))));
  exists (AppInput.mk "" 0 0 0 1 1 1 None (Some false)).
  split; [left; reflexivity|].
  unfold appValid. simpl. lia.
Defined.

(** * Properties of the form handlers *)

Lemma replaceAt_length (idx : nat) (app : AppInput.t) (apps : list AppInput.t) :
  List.length (replaceAt idx app apps) = List.length apps.
Proof.
  revert idx. induction apps as [|a apps IH]; intros [|k]; simpl; auto.
Qed.

Lemma replaceAt_same (idx : nat) (app : AppInput.t) (apps : list AppInput.t) :
  (idx < List.length apps)%nat ->
  nth_error (replaceAt idx app apps) idx = Some app.
Proof.
  revert idx. induction apps as [|a apps IH]; intros [|k] H; simpl in *;
    try lia; [reflexivity|]. apply IH. lia.
Qed.

Lemma replaceAt_other (idx j : nat) (app : AppInput.t) (apps : list AppInput.t) :
  j <> idx -> nth_error (replaceAt idx app apps) j = nth_error apps j.
Proof.
  revert idx j. induction apps as [|a apps IH]; intros [|k] [|j] H; simpl;
    try reflexivity; try congruence.
  apply IH. congruence.
Qed.

Lemma handleAppChange_some (idx : nat) (change : Change) (st st' : Page.t) :
  handleAppChange idx change st = Some st' ->
  exists app,
    nth_error (Home.apps (Page.home st)) idx = Some app
    /\ Home.apps (Page.home st')
       = replaceAt idx (fst (changeApp app idx change)) (Home.apps (Page.home st))
    /\ Home.inputErrors (Page.home st')
       = match snd (changeApp app idx change) with
         | EmptyString => Home.inputErrors (Page.home st)
         | msg => [msg]
         end
    /\ Home.subnetSize (Page.home st') = Home.subnetSize (Page.home st)
    /\ Home.planChoice (Page.home st') = Home.planChoice (Page.home st)
    /\ Home.result (Page.home st') = Home.result (Page.home st)
    /\ Page.computeAlloc st' = Page.computeAlloc st.
Proof.
  unfold handleAppChange.
  destruct (nth_error (Home.apps (Page.home st)) idx) as [app|]; [|discriminate].
  destruct (changeApp app idx change) as [app' msg] eqn:C.
  intros [= <-]. exists app. rewrite C. simpl.
  split; [reflexivity|]. destruct msg; simpl; repeat split.
Qed.

(** X15: an edit throws exactly when the index is past the end of the
    list; otherwise it changes the app at that index only: the list keeps
    its length and its other apps, the subnet, the plan choice, the result
    and the suggested allocation stay as they were, and the error list is
    either left alone or replaced by a single message. *)
Theorem handleAppChange_frame (idx : nat) (change : Change) (st : Page.t) :
  (handleAppChange idx change st = None
   <-> (List.length (Home.apps (Page.home st)) <= idx)%nat)
  /\ forall st',
      handleAppChange idx change st = Some st' ->
      List.length (Home.apps (Page.home st'))
      = List.length (Home.apps (Page.home st))
      /\ (forall j, j <> idx ->
                    nth_error (Home.apps (Page.home st')) j
                    = nth_error (Home.apps (Page.home st)) j)
      /\ Home.subnetSize (Page.home st') = Home.subnetSize (Page.home st)
      /\ Home.planChoice (Page.home st') = Home.planChoice (Page.home st)
      /\ Home.result (Page.home st') = Home.result (Page.home st)
      /\ Page.computeAlloc st' = Page.computeAlloc st
      /\ (Home.inputErrors (Page.home st') = Home.inputErrors (Page.home st)
          \/ exists msg, Home.inputErrors (Page.home st') = [msg]).
Proof.
  split.
  - unfold handleAppChange.
    destruct (nth_error (Home.apps (Page.home st)) idx) as [app|] eqn:E.
    + destruct (changeApp app idx change). split; [discriminate|].
      intros H. apply nth_error_None in H. congruence.
    + split; [intros _; apply nth_error_None; exact E | reflexivity].
  - intros st' H.
    destruct (handleAppChange_some _ _ _ _ H)
      as (app & Hi & Ha & He & Hs & Hp & Hr & Hc).
    rewrite Ha, replaceAt_length.
    split; [reflexivity|].
    split; [intros j Hj; apply replaceAt_other; exact Hj|].
    repeat (split; [assumption|]).
    rewrite He. destruct (snd (changeApp app idx change)); eauto.
Qed.

Lemma handleAppChange_frame_witness :
  let fresh := AppInput.mk "" 0 0 0 1 1 1 None (Some false) in
  let st := Page.mk (Home.mk [fresh] "" (Plan Dedicated) None []) None in
  handleAppChange 1 (ChangeCpu 2) st = None.
Proof.
  cbv zeta.
  apply (proj2 (proj1 (handleAppChange_frame 1 (ChangeCpu 2)
           (Page.mk (Home.mk [AppInput.mk "" 0 0 0 1 1 1 None (Some false)]
                       "" (Plan Dedicated) None []) None)))).
  simpl. lia.
Defined.

Lemma handleAppChange_at (idx : nat) (change : Change) (st st' : Page.t) :
  handleAppChange idx change st = Some st' ->
  exists app,
    nth_error (Home.apps (Page.home st)) idx = Some app
    /\ nth_error (Home.apps (Page.home st')) idx
       = Some (fst (changeApp app idx change))
    /\ Home.inputErrors (Page.home st')
       = match snd (changeApp app idx change) with
         | EmptyString => Home.inputErrors (Page.home st)
         | msg => [msg]
         end.
Proof.
  intros H.
  destruct (handleAppChange_some _ _ _ _ H) as (app & Hi & Ha & He & _).
  exists app. split; [exact Hi|]. split; [|exact He].
  rewrite Ha. apply replaceAt_same.
  apply nth_error_Some. congruence.
Qed.

(** X16: after an edit of the CPU or RAM field the stored value is
    positive: a value above zero is stored as it is and the error list is
    left alone; zero or a negative value is replaced by 1 and reported in a
    single message.  The other fields of the app are unchanged. *)
Theorem handleAppChange_resources
    (idx : nat) (value : Z) (st st' : Page.t) (isCpu : bool) :
  handleAppChange idx (if isCpu then ChangeCpu value else ChangeRam value) st
  = Some st' ->
  exists app app',
    nth_error (Home.apps (Page.home st)) idx = Some app
    /\ nth_error (Home.apps (Page.home st')) idx = Some app'
    /\ (if isCpu then AppInput.cpu app' else AppInput.ram app')
       = (if 0 <? value then value else 1)
    /\ 0 < (if isCpu then AppInput.cpu app' else AppInput.ram app')
    /\ (if isCpu then AppInput.ram app' = AppInput.ram app
        else AppInput.cpu app' = AppInput.cpu app)
    /\ AppInput.gpu app' = AppInput.gpu app
    /\ AppInput.name app' = AppInput.name app
    /\ AppInput.plan app' = AppInput.plan app
    /\ AppInput.minReplicas app' = AppInput.minReplicas app
    /\ AppInput.baselineReplicas app' = AppInput.baselineReplicas app
    /\ AppInput.replicas app' = AppInput.replicas app
    /\ (0 < value ->
        Home.inputErrors (Page.home st') = Home.inputErrors (Page.home st))
    /\ (value <= 0 ->
        Home.inputErrors (Page.home st')
        = [appLabel app idx
           ++ (if isCpu then "CPU" else "RAM")
           ++ " must be greater than 0. Value set to 1."]).
Proof.
  intros H. destruct (handleAppChange_at _ _ _ _ H) as (app & Hi & Ha & He).
  exists app, (fst (changeApp app idx
                      (if isCpu then ChangeCpu value else ChangeRam value))).
  split; [exact Hi|]. split; [exact Ha|]. rewrite He. clear H Hi Ha He.
  destruct isCpu; simpl.
  - destruct (value <=? 0) eqn:E; [apply Z.leb_le in E | apply Z.leb_gt in E].
    + replace (0 <? value) with false by (symmetry; apply Z.ltb_ge; lia).
      simpl. repeat split; try lia.
    + replace (0 <? value) with true by (symmetry; apply Z.ltb_lt; lia).
      simpl. repeat split; try lia.
  - destruct (value <=? 0) eqn:E; [apply Z.leb_le in E | apply Z.leb_gt in E].
    + replace (0 <? value) with false by (symmetry; apply Z.ltb_ge; lia).
      simpl. repeat split; try lia.
    + replace (0 <? value) with true by (symmetry; apply Z.ltb_lt; lia).
      simpl. repeat split; try lia.
Qed.

Lemma handleAppChange_resources_witness :
  let fresh := AppInput.mk "" 0 0 0 1 1 1 None (Some false) in
  let st := Page.mk (Home.mk [fresh] "" (Plan Dedicated) None []) None in
  exists st',
    handleAppChange 0 (ChangeCpu (-2)) st = Some st'
    /\ Home.inputErrors (Page.home st')
       = ["App 1: CPU must be greater than 0. Value set to 1."].
Proof.
  cbv zeta. eexists. split; [reflexivity|].
  destruct (handleAppChange_resources 0 (-2)
              (Page.mk (Home.mk [AppInput.mk "" 0 0 0 1 1 1 None (Some false)]
                          "" (Plan Dedicated) None []) None)
              _ true eq_refl)
    as (app & app' & Hi & _ & _ & _ & _ & _ & _ & _ & _ & _ & _ & _ & He).
  injection Hi as <-. exact (He ltac:(lia)).
Defined.


Lemma untouched_cases (app : AppInput.t) :
  untouched app = false <-> AppInput.baselineTouched app = Some true.
Proof.
  unfold untouched. destruct (AppInput.baselineTouched app) as [[|]|];
    split; congruence.
Qed.



(** X18: an edit of the baseline replicas to [v] stores [v], never above
    the maximum: when [v] exceeds the maximum, the maximum is raised to [v],
    one message is shown and the baseline counts as unedited; otherwise the
    baseline counts as edited by hand.  The minimum is not consulted: with
    [v] below it the app no longer passes [validateAllApps]. *)
Theorem handleAppChange_baseline
    (idx : nat) (value : Z) (st st' : Page.t) :
  handleAppChange idx (ChangeBaselineReplicas value) st = Some st' ->
  exists app app',
    nth_error (Home.apps (Page.home st)) idx = Some app
    /\ nth_error (Home.apps (Page.home st')) idx = Some app'
    /\ AppInput.baselineReplicas app' = value
    /\ AppInput.replicas app' = Z.max (AppInput.replicas app) value
    /\ AppInput.baselineReplicas app' <= AppInput.replicas app'
    /\ AppInput.minReplicas app' = AppInput.minReplicas app
    /\ (AppInput.replicas app < value ->
        AppInput.baselineTouched app' = Some false
        /\ exists msg, Home.inputErrors (Page.home st') = [msg])
    /\ (value <= AppInput.replicas app ->
        AppInput.baselineTouched app' = Some true
        /\ Home.inputErrors (Page.home st') = Home.inputErrors (Page.home st))
    /\ (value < AppInput.minReplicas app ->
        forall planChoice, ~ appValid planChoice app').
Proof.
  intros H. destruct (handleAppChange_at _ _ _ _ H) as (app & Hi & Ha & He).
  exists app, (fst (changeApp app idx (ChangeBaselineReplicas value))).
  split; [exact Hi|]. split; [exact Ha|]. rewrite He. clear H Hi Ha He.
  simpl.
  destruct (AppInput.replicas app <? value) eqn:E;
    [apply Z.ltb_lt in E | apply Z.ltb_ge in E]; simpl;
    repeat split; try lia; eauto;
    intros L planChoice V; unfold appValid in V; simpl in V; lia.
Qed.

Lemma handleAppChange_baseline_witness :
  let app := AppInput.mk "api" 1 0 2 3 4 6 None (Some false) in
  let st := Page.mk (Home.mk [app] "" (Plan Dedicated) None []) None in
  exists st' app',
    handleAppChange 0 (ChangeBaselineReplicas 9) st = Some st'
    /\ nth_error (Home.apps (Page.home st')) 0 = Some app'
    /\ AppInput.replicas app' = 9.
Proof.
  cbv zeta. eexists.
  destruct (handleAppChange_baseline 0 9
              (Page.mk (Home.mk [AppInput.mk "api" 1 0 2 3 4 6 None (Some false)]
                          "" (Plan Dedicated) None []) None)
              _ eq_refl)
    as (app & app' & Hi & Ha & _ & Hr & _).
  exists app'. split; [reflexivity|]. split; [exact Ha|].
  injection Hi as <-. exact Hr.
Defined.



Lemma removeAt_last (apps : list AppInput.t) (app : AppInput.t) :
  removeAt (List.length apps) (apps ++ [app]) = apps.
Proof.
  induction apps as [|a apps IH]; [reflexivity|].
  simpl. rewrite IH. reflexivity.
Qed.

(** X20: [addApp] appends one app with no name, no resources and one
    replica in each count, tagged Consumption under Mix and untagged
    otherwise, and leaves the apps before it alone.  The new app has no CPU
    and no RAM, so submitting right after adding is refused with errors and
    the result cell stays; removing the app at the last index undoes the
    addition. *)
Theorem addApp_appends (st : Page.t) :
  let apps := Home.apps (Page.home st) in
  exists fresh,
    Home.apps (Page.home (addApp st)) = (apps ++ [fresh])%list
    /\ AppInput.name fresh = "" /\ AppInput.cpu fresh = 0
    /\ AppInput.ram fresh = 0 /\ AppInput.gpu fresh = 0
    /\ AppInput.minReplicas fresh = 1 /\ AppInput.baselineReplicas fresh = 1
    /\ AppInput.replicas fresh = 1
    /\ (Home.planChoice (Page.home st) = Mix ->
        AppInput.plan fresh = Some Consumption)
    /\ (Home.planChoice (Page.home st) <> Mix -> AppInput.plan fresh = None)
    /\ Home.inputErrors (Page.home (pageSubmit (addApp st))) <> []
    /\ Home.result (Page.home (pageSubmit (addApp st)))
       = Home.result (Page.home st)
    /\ removeApp (List.length apps) (addApp st) = st.
Proof.
  cbv zeta. eexists. split; [reflexivity|]. simpl.
  repeat (split; [reflexivity|]).
  split; [intros ->; reflexivity|].
  split; [destruct (Home.planChoice (Page.home st)); congruence|].
  match goal with
  | |- context [(Home.apps (Page.home st) ++ [?a])%list] => set (fresh := a)
  end.
  assert (Bad : exists app,
             In app (Home.apps (Page.home (addApp st)))
             /\ ~ appValid (Home.planChoice (Page.home (addApp st))) app).
  { exists fresh. split; [apply in_or_app; right; left; reflexivity|].
    unfold appValid. simpl. lia. }
  destruct (handleSubmit_refuses (Page.home (addApp st)) Bad) as [R E].
  split; [exact E|]. split; [exact R|].
  unfold removeApp, addApp, setApps. simpl. rewrite removeAt_last.
  destruct st as [[a s p r e] c]. reflexivity.
Qed.

Lemma removeAt_length (idx : nat) (apps : list AppInput.t) :
  List.length (removeAt idx apps)
  = if (idx <? List.length apps)%nat
    then pred (List.length apps) else List.length apps.
Proof.
  revert idx. induction apps as [|a apps IH]; intros [|k]; simpl; auto.
  rewrite IH. change (S k <? S (List.length apps))%nat
    with (k <? List.length apps)%nat.
  destruct (k <? List.length apps)%nat eqn:E; [|reflexivity].
  apply Nat.ltb_lt in E. lia.
Qed.

Lemma removeAt_nth (idx j : nat) (apps : list AppInput.t) :
  nth_error (removeAt idx apps) j
  = if (j <? idx)%nat then nth_error apps j else nth_error apps (S j).
Proof.
  revert idx j. induction apps as [|a apps IH]; intros idx j.
  - destruct idx, j; simpl; try reflexivity;
      destruct (_ <? _)%nat; reflexivity.
  - destruct idx as [|k]; [reflexivity|].
    destruct j as [|j]; [reflexivity|].
    simpl. rewrite IH. reflexivity.
Qed.

(** X21: [removeApp] drops the app at the index and nothing else: the
    apps before it keep their positions, the apps after it move up by one,
    and the other cells of the state are untouched.  An index past the end
    leaves the list as it is. *)
Theorem removeApp_drops_one (idx : nat) (st : Page.t) :
  let apps := Home.apps (Page.home st) in
  let apps' := Home.apps (Page.home (removeApp idx st)) in
  (forall j, (j < idx)%nat -> nth_error apps' j = nth_error apps j)
  /\ (forall j, (idx <= j)%nat -> nth_error apps' j = nth_error apps (S j))
  /\ ((idx < List.length apps)%nat ->
      S (List.length apps') = List.length apps)
  /\ ((List.length apps <= idx)%nat -> removeApp idx st = st)
  /\ Home.planChoice (Page.home (removeApp idx st))
     = Home.planChoice (Page.home st)
  /\ Home.result (Page.home (removeApp idx st)) = Home.result (Page.home st)
  /\ Page.computeAlloc (removeApp idx st) = Page.computeAlloc st.
Proof.
  cbv zeta. unfold removeApp, setApps. simpl.
  split; [|split; [|split; [|split]]].
  - intros j H. rewrite removeAt_nth.
    replace (j <? idx)%nat with true by (symmetry; apply Nat.ltb_lt; lia).
    reflexivity.
  - intros j H. rewrite removeAt_nth.
    replace (j <? idx)%nat with false by (symmetry; apply Nat.ltb_ge; lia).
    reflexivity.
  - intros H. rewrite removeAt_length.
    replace (idx <? _)%nat with true by (symmetry; apply Nat.ltb_lt; lia).
    lia.
  - intros H.
    assert (E : removeAt idx (Home.apps (Page.home st)) = Home.apps (Page.home st)).
    { revert idx H. induction (Home.apps (Page.home st)) as [|a l IH];
        intros [|k] H; simpl in *; try reflexivity; try lia.
      rewrite IH by lia. reflexivity. }
    rewrite E. destruct st as [[a s p r e] c]. reflexivity.
  - repeat split.
Qed.

Lemma removeApp_drops_one_witness :
  let a := AppInput.mk "a" 1 0 1 1 1 1 None None in
  let b := AppInput.mk "b" 1 0 1 1 1 1 None None in
  let st := Page.mk (Home.mk [a; b] "" (Plan Dedicated) None []) None in
  nth_error (Home.apps (Page.home (removeApp 0 st))) 0 = Some b
  /\ removeApp 5 st = st.
Proof.
  cbv zeta.
  destruct (removeApp_drops_one 0
              (Page.mk (Home.mk [AppInput.mk "a" 1 0 1 1 1 1 None None;
                                 AppInput.mk "b" 1 0 1 1 1 1 None None]
                          "" (Plan Dedicated) None []) None))
    as (_ & Hshift & _).
  split; [exact (Hshift 0%nat ltac:(lia))|].
  apply (proj1 (proj2 (proj2 (proj2 (removeApp_drops_one 5 _))))).
  simpl. lia.
Defined.

Lemma sumZ_map (f : AppInput.t -> Z) (g : AppInput.t -> AppInput.t)
    (l : list AppInput.t) :
  sumZ f (map g l) = sumZ (fun a => f (g a)) l.
Proof.
  induction l as [|a l IH]; [reflexivity|].
  simpl. rewrite !sumZ_cons, IH. reflexivity.
Qed.

Lemma withPlan_withPlan (p q : option PlanType) (app : AppInput.t) :
  withPlan q (withPlan p app) = withPlan q app.
Proof. reflexivity. Qed.

Lemma filter_all {A : Type} (f : A -> bool) (l : list A) :
  (forall x, In x l -> f x = true) -> filter f l = l.
Proof.
  induction l as [|a l IH]; intros H; [reflexivity|].
  simpl. rewrite (H a (or_introl eq_refl)), IH; [reflexivity|].
  intros x I. apply H. right. exact I.
Qed.

Lemma filter_none {A : Type} (f : A -> bool) (l : list A) :
  (forall x, In x l -> f x = false) -> filter f l = [].
Proof.
  induction l as [|a l IH]; intros H; [reflexivity|].
  simpl. rewrite (H a (or_introl eq_refl)), IH; [reflexivity|].
  intros x I. apply H. right. exact I.
Qed.

(** X22: a change of the plan choice rewrites every plan tag and nothing
    else in the apps: Consumption on every app when the choice is Mix, no
    tag otherwise.  The last change wins, so a tag set by hand under Mix is
    lost once the choice leaves Mix.  Right after a change to Mix the plan
    counts what the Consumption plan counts: the same peak total, upgrade
    total and assignment rows. *)
Theorem handlePlanChoiceChange_tags (value : PlanChoice) (st : Page.t) :
  let st' := handlePlanChoiceChange value st in
  let apps := Home.apps (Page.home st) in
  let apps' := Home.apps (Page.home st') in
  Home.planChoice (Page.home st') = value
  /\ apps' = map (withPlan match value with
                           | Mix => Some Consumption
                           | _ => None
                           end) apps
  /\ (forall w, handlePlanChoiceChange w st'
                = handlePlanChoiceChange w st)
  /\ Home.subnetSize (Page.home st') = Home.subnetSize (Page.home st)
  /\ Home.result (Page.home st') = Home.result (Page.home st)
  /\ Home.inputErrors (Page.home st') = Home.inputErrors (Page.home st)
  /\ (value = Mix ->
      forall subnet,
        PlanResult.ips (calculate apps' subnet Mix)
        = PlanResult.ips (calculate apps subnet (Plan Consumption))
        /\ PlanResult.doubledIPs (calculate apps' subnet Mix)
           = PlanResult.doubledIPs (calculate apps subnet (Plan Consumption))
        /\ PlanResult.appAssignments (calculate apps' subnet Mix)
           = PlanResult.appAssignments (calculate apps subnet (Plan Consumption))).
Proof.
  cbv zeta.
  split; [destruct value as [[|]|]; reflexivity|].
  split; [destruct value as [[|]|]; reflexivity|].
  split.
  { intros w. unfold handlePlanChoiceChange, setApps, setPlanChoice.
    destruct value as [[|]|], w as [[|]|]; simpl;
      rewrite map_map; reflexivity. }
  split; [destruct value as [[|]|]; reflexivity|].
  split; [destruct value as [[|]|]; reflexivity|].
  split; [destruct value as [[|]|]; reflexivity|].
  intros -> subnet.
  rewrite calculate_Mix, calculate_Consumption. cbv zeta.
  unfold handlePlanChoiceChange, setApps, setPlanChoice. simpl.
  set (apps := Home.apps (Page.home st)).
  rewrite (filter_all (hasPlan Consumption)
             (map (withPlan (Some Consumption)) apps)),
    (filter_none (hasPlan Dedicated)
       (map (withPlan (Some Consumption)) apps)).
  - change (sumZ (appNodes false) []) with 0.
    change (sumZ (appNodes true) []) with 0.
    simpl map. rewrite !Z.add_0_r, app_nil_r, map_map, !sumZ_map.
    split; [|split]; reflexivity.
  - intros x I. apply in_map_iff in I as (a & <- & _). reflexivity.
  - intros x I. apply in_map_iff in I as (a & <- & _). reflexivity.
Qed.

Lemma handlePlanChoiceChange_tags_witness :
  let job := AppInput.mk "job" 4 0 16 3 3 25 (Some Dedicated) None in
  let st := Page.mk (Home.mk [job] "/24" (Plan Dedicated) None []) None in
  PlanResult.ips
    (calculate (Home.apps (Page.home (handlePlanChoiceChange Mix st))) "/24" Mix)
  = 3.
Proof.
  cbv zeta.
  rewrite (proj1 (proj2 (proj2 (proj2 (proj2 (proj2 (proj2
             (handlePlanChoiceChange_tags Mix
                (Page.mk (Home.mk [AppInput.mk "job" 4 0 16 3 3 25
                                     (Some Dedicated) None]
                            "/24" (Plan Dedicated) None []) None)))))))
             eq_refl "/24")).
  reflexivity.
Defined.

(** * Properties of the shared-node packing *)

Lemma xmin_atLeast (x y : xnum) (f : Z) :
  xmin x y = Fin f -> atLeast f x /\ atLeast f y.
Proof.
  unfold atLeast.
  destruct x as [| |a|], y as [| |b|]; simpl; try discriminate;
    intros [= <-]; split; try (left; reflexivity);
    right; eexists; (split; [reflexivity|lia]).
Qed.

Lemma xmin_Infinity (x y : xnum) :
  xmin x y = Infinity -> x = Infinity /\ y = Infinity.
Proof. destruct x, y; simpl; try discriminate; auto. Qed.

Lemma atLeast_le (f f' : Z) (x : xnum) :
  f <= f' -> atLeast f' x -> atLeast f x.
Proof.
  intros H [->|(q & -> & Hq)]; [left; reflexivity|].
  right. exists q. split; [reflexivity|lia].
Qed.

Lemma atLeast_Fin (f y : Z) (x : xnum) :
  atLeast f (xmin (Fin y) x) -> exists q, xmin (Fin y) x = Fin q /\ f <= q.
Proof.
  intros [H|H]; [|exact H].
  apply xmin_Infinity in H as [H _]. discriminate.
Qed.

(** What a positive [fit] says of one axis of the node. *)
Lemma floorDiv_holds (n a f : Z) :
  0 <= n -> 0 < f -> atLeast f (floorDiv n a) -> 0 <= a /\ f * a <= n.
Proof.
  intros Hn Hf H. unfold atLeast, floorDiv in H.
  destruct (a =? 0) eqn:E; [apply Z.eqb_eq in E; subst a; lia|].
  apply Z.eqb_neq in E.
  destruct H as [H|(q & [= <-] & Hq)]; [discriminate|].
  destruct (Z.lt_ge_cases 0 a) as [Pa|Na].
  - pose proof (Z.div_mod n a ltac:(lia)).
    pose proof (Z.mod_pos_bound n a Pa). split; [lia|nia].
  - exfalso. assert (a < 0) as Neg by lia.
    pose proof (Z.div_mod n a ltac:(lia)).
    pose proof (Z.mod_neg_bound n a Neg). nia.
Qed.

Lemma fitOf_Fin (c m g : Z) (a : AppInput.t) (f : Z) :
  fitOf c m g a = Fin f ->
  f <= AppInput.replicas a
  /\ atLeast f (floorDiv c (AppInput.cpu a))
  /\ atLeast f (floorDiv m (AppInput.ram a))
  /\ (0 < AppInput.gpu a -> atLeast f (floorDiv g (AppInput.gpu a))).
Proof.
  unfold fitOf. intros H.
  apply xmin_atLeast in H as [H3 HG].
  assert (exists q3, xmin (xmin (Fin (AppInput.replicas a))
                                (floorDiv c (AppInput.cpu a)))
                          (floorDiv m (AppInput.ram a)) = Fin q3 /\ f <= q3)
    as (q3 & E3 & L3).
  { destruct H3 as [H3|H3]; [|exact H3].
    apply xmin_Infinity in H3 as [H3 _].
    apply xmin_Infinity in H3 as [H3 _]. discriminate. }
  apply xmin_atLeast in E3 as [H2 HB].
  apply atLeast_Fin in H2 as (q2 & E2 & L2).
  apply xmin_atLeast in E2 as [HR HA].
  destruct HR as [HR|(q & [= <-] & HR)]; [discriminate|].
  split; [lia|]. split; [apply (atLeast_le f q2); [lia | exact HA]|].
  split; [apply (atLeast_le f q3); [lia | exact HB]|].
  intros Hg. apply Z.ltb_lt in Hg. rewrite Hg in HG. exact HG.
Qed.

Lemma atLeast_xmin (f : Z) (x y : xnum) :
  atLeast f x -> atLeast f y -> atLeast f (xmin x y).
Proof.
  unfold atLeast.
  intros [->|(a & -> & Ha)] [->|(b & -> & Hb)]; simpl; eauto.
  right. eexists. split; [reflexivity|lia].
Qed.

Lemma floorDiv_atLeast1 (n a : Z) :
  0 < n -> 0 <= a <= n -> atLeast 1 (floorDiv n a).
Proof.
  intros Hn Ha. unfold atLeast, floorDiv.
  destruct (a =? 0) eqn:E.
  - replace (0 <? n) with true by (symmetry; apply Z.ltb_lt; lia). auto.
  - apply Z.eqb_neq in E. right. exists (n / a). split; [reflexivity|].
    pose proof (Z.div_le_mono a n a ltac:(lia) ltac:(lia)) as D.
    rewrite Z.div_same in D by lia. exact D.
Qed.

(** On a node with room left, an app that still has replicas and whose
    requirement the node covers is given at least one place. *)
Lemma fitOf_progress (c m g : Z) (a : AppInput.t) :
  0 < AppInput.replicas a -> 0 < c -> 0 < m ->
  0 <= AppInput.cpu a <= c -> 0 <= AppInput.ram a <= m ->
  AppInput.gpu a <= g ->
  exists f, fitOf c m g a = Fin f /\ 1 <= f.
Proof.
  intros Hr Hc Hm Ac Am Ag.
  assert (atLeast 1 (fitOf c m g a)) as H.
  { unfold fitOf. repeat apply atLeast_xmin.
    - right. eexists. split; [reflexivity|lia].
    - apply floorDiv_atLeast1; assumption.
    - apply floorDiv_atLeast1; assumption.
    - destruct (0 <? AppInput.gpu a) eqn:G; [|left; reflexivity].
      apply Z.ltb_lt in G. apply floorDiv_atLeast1; lia. }
  destruct H as [H|H]; [|exact H].
  unfold fitOf in H.
  apply xmin_Infinity in H as [H _].
  apply xmin_Infinity in H as [H _].
  apply xmin_Infinity in H as [H _]. discriminate.
Qed.

Lemma fillStep_spec (acc : Fill.t) (a : AppInput.t) (i : nat) :
  0 <= Fill.nodeCpu acc -> 0 <= Fill.nodeRam acc -> 0 <= Fill.nodeGpu acc ->
  exists d,
    takenOk a d
    /\ fillStep acc a i
       = Fill.mk (Fill.nodeCpu acc - d * AppInput.cpu a)
           (Fill.nodeRam acc - d * AppInput.ram a)
           (Fill.nodeGpu acc - d * AppInput.gpu a)
           (Fill.nodeApps acc
            ++ (if 0 <? d then [Placement.mk (appKey a i) d] else []))
           (Fill.visited acc
            ++ [if 0 <? d
                then withReplicaCount a (AppInput.replicas a - d) else a])
    /\ 0 <= Fill.nodeCpu acc - d * AppInput.cpu a
    /\ 0 <= Fill.nodeRam acc - d * AppInput.ram a
    /\ 0 <= Fill.nodeGpu acc - d * AppInput.gpu a
    /\ (0 < AppInput.replicas a ->
        0 < Fill.nodeCpu acc -> 0 < Fill.nodeRam acc ->
        0 <= AppInput.cpu a <= Fill.nodeCpu acc ->
        0 <= AppInput.ram a <= Fill.nodeRam acc ->
        AppInput.gpu a <= Fill.nodeGpu acc -> 1 <= d).
Proof.
  intros Hc Hm Hg.
  assert (Keep : forall x,
             fitOf (Fill.nodeCpu acc) (Fill.nodeRam acc) (Fill.nodeGpu acc) a = x ->
             (forall f, x = Fin f -> f <= 0) ->
             takenOk a 0
             /\ 0 <= Fill.nodeCpu acc - 0 * AppInput.cpu a
             /\ 0 <= Fill.nodeRam acc - 0 * AppInput.ram a
             /\ 0 <= Fill.nodeGpu acc - 0 * AppInput.gpu a
             /\ (0 < AppInput.replicas a ->
                 0 < Fill.nodeCpu acc -> 0 < Fill.nodeRam acc ->
                 0 <= AppInput.cpu a <= Fill.nodeCpu acc ->
                 0 <= AppInput.ram a <= Fill.nodeRam acc ->
                 AppInput.gpu a <= Fill.nodeGpu acc -> 1 <= 0)).
  { intros x F N. unfold takenOk. repeat split; try lia.
    intros P1 P2 P3 P4 P5 P6.
    destruct (fitOf_progress _ _ _ a P1 P2 P3 P4 P5 P6) as (f & F' & Hf).
    rewrite F in F'. specialize (N f F'). lia. }
  unfold fillStep.
  destruct (fitOf (Fill.nodeCpu acc) (Fill.nodeRam acc) (Fill.nodeGpu acc) a)
    as [| |f|] eqn:F.
  1,2,4: exists 0; destruct (Keep _ eq_refl ltac:(discriminate))
           as (K1 & K2 & K3 & K4 & K5);
         split; [exact K1|]; split;
         [simpl; rewrite !Z.sub_0_r, app_nil_r; reflexivity|];
         repeat split; assumption.
  destruct (0 <? f) eqn:Pf; [apply Z.ltb_lt in Pf | apply Z.ltb_ge in Pf].
  - exists f. apply fitOf_Fin in F as (Fr & Fc & Fm & Fg).
    destruct (floorDiv_holds _ _ _ Hc Pf Fc) as [Nc Cc].
    destruct (floorDiv_holds _ _ _ Hm Pf Fm) as [Nm Cm].
    assert (Cg : 0 <= Fill.nodeGpu acc - f * AppInput.gpu a).
    { destruct (Z.lt_ge_cases 0 (AppInput.gpu a)) as [G|G].
      - destruct (floorDiv_holds _ _ _ Hg Pf (Fg G)). lia.
      - nia. }
    replace (0 <? f) with true by (symmetry; apply Z.ltb_lt; lia).
    unfold takenOk. repeat split; try lia.
  - exists 0.
    destruct (Keep (Fin f) eq_refl) as (K1 & K2 & K3 & K4 & K5).
    { intros f' [= <-]. exact Pf. }
    split; [exact K1|]. split;
      [simpl; rewrite !Z.sub_0_r, app_nil_r; reflexivity|].
    repeat split; assumption.
Qed.

(** One pass of the [for] loop: a count is taken from each app in turn. *)
Lemma fillNode_spec (apps : list AppInput.t) (i : nat) (acc : Fill.t) :
  0 <= Fill.nodeCpu acc -> 0 <= Fill.nodeRam acc -> 0 <= Fill.nodeGpu acc ->
  exists ds,
    Forall2 takenOk apps ds
    /\ fillNode apps i acc
       = Fill.mk (Fill.nodeCpu acc - weighted AppInput.cpu apps ds)
           (Fill.nodeRam acc - weighted AppInput.ram apps ds)
           (Fill.nodeGpu acc - weighted AppInput.gpu apps ds)
           (Fill.nodeApps acc ++ placeAll apps ds i)
           (Fill.visited acc ++ takeAll apps ds)
    /\ 0 <= Fill.nodeCpu acc - weighted AppInput.cpu apps ds
    /\ 0 <= Fill.nodeRam acc - weighted AppInput.ram apps ds
    /\ 0 <= Fill.nodeGpu acc - weighted AppInput.gpu apps ds
    /\ (0 < Fill.nodeCpu acc -> 0 < Fill.nodeRam acc ->
        (forall a, In a apps ->
                   0 <= AppInput.cpu a <= Fill.nodeCpu acc
                   /\ 0 <= AppInput.ram a <= Fill.nodeRam acc
                   /\ AppInput.gpu a <= Fill.nodeGpu acc) ->
        (exists a, In a apps /\ 0 < AppInput.replicas a) ->
        1 <= weighted (fun _ => 1) apps ds).
Proof.
  revert i acc.
  induction apps as [|a apps IH]; intros i acc Hc Hm Hg.
  - exists []. split; [constructor|]. simpl.
    rewrite !Z.sub_0_r, !app_nil_r.
    split; [destruct acc; reflexivity|].
    repeat split; try assumption.
    intros _ _ _ (a & [] & _).
  - destruct (fillStep_spec acc a i Hc Hm Hg)
      as (d & Ok & Step & Sc & Sm & Sg & Prog).
    simpl fillNode. rewrite Step.
    match goal with
    | |- context [fillNode apps (S i) ?acc'] =>
        destruct (IH (S i) acc' Sc Sm Sg)
          as (ds & Oks & Rest & Rc & Rm & Rg & RProg)
    end.
    simpl in Rest, Rc, Rm, Rg, RProg.
    exists (d :: ds). split; [constructor; assumption|].
    split.
    { rewrite Rest. simpl. rewrite <- !app_assoc. simpl.
      f_equal; lia. }
    simpl weighted.
    split; [lia|]. split; [lia|]. split; [lia|].
    intros Pc Pm Hall (b & Ib & Pb).
    assert (Nonneg : forall l es, Forall2 takenOk l es ->
                                  0 <= weighted (fun _ => 1) l es).
    { clear. induction 1 as [|x e l es [E _] _ IHf]; simpl; lia. }
    pose proof (Nonneg _ _ Oks) as N.
    destruct (Z.lt_ge_cases 0 (AppInput.replicas a)) as [Pa|Na].
    + destruct (Hall a (or_introl eq_refl)) as (A1 & A2 & A3).
      specialize (Prog Pa Pc Pm A1 A2 A3). lia.
    + assert (d = 0) as -> by (destruct Ok as [Ok _]; lia).
      rewrite !Z.mul_0_l, !Z.sub_0_r in RProg.
      destruct Ib as [<-|Ib]; [lia|].
      assert (1 <= weighted (fun _ => 1) apps ds).
      { apply RProg; try assumption.
        - intros x Ix. apply Hall. right. exact Ix.
        - exists b. auto. }
      lia.
Qed.

Lemma takeAll_length (apps : list AppInput.t) (ds : list Z) :
  Forall2 takenOk apps ds ->
  List.length (takeAll apps ds) = List.length apps.
Proof. intros Oks. induction Oks; simpl; auto. Qed.

Lemma takeAll_pending (apps : list AppInput.t) (ds : list Z) :
  Forall2 takenOk apps ds ->
  pending (takeAll apps ds) = pending apps - weighted (fun _ => 1) apps ds.
Proof.
  intros Oks. unfold pending.
  induction Oks as [|a d l es [Ok _] _ IH]; [reflexivity|].
  simpl takeAll. simpl weighted. rewrite !sumZ_cons, IH.
  destruct (0 <? d) eqn:E; [apply Z.ltb_lt in E | apply Z.ltb_ge in E];
    unfold withReplicaCount; cbn [AppInput.replicas]; lia.
Qed.

Lemma placeAll_sum (apps : list AppInput.t) (ds : list Z) (i : nat) :
  Forall2 takenOk apps ds ->
  placedSum (placeAll apps ds i) = weighted (fun _ => 1) apps ds.
Proof.
  intros Oks. revert i.
  induction Oks as [|a d l es [Ok _] _ IH]; intros i; [reflexivity|].
  simpl. destruct (0 <? d) eqn:E; [apply Z.ltb_lt in E | apply Z.ltb_ge in E];
    simpl; rewrite IH; lia.
Qed.

Lemma placeAll_positive (apps : list AppInput.t) (ds : list Z) (i : nat) :
  Forall2 takenOk apps ds ->
  Forall (fun p => 0 < Placement.replicas p) (placeAll apps ds i).
Proof.
  intros Oks. revert i.
  induction Oks as [|a d l es _ _ IH]; intros i; [constructor|].
  simpl. destruct (0 <? d) eqn:E; [apply Z.ltb_lt in E|]; simpl; auto.
Qed.

Lemma takeAll_usage (apps : list AppInput.t) (ds : list Z) (f : AppInput.t -> Z) :
  Forall2 takenOk apps ds ->
  usage f apps (takeAll apps ds) = weighted f apps ds.
Proof.
  intros Oks. induction Oks as [|a d l es [Ok _] _ IH]; [reflexivity|].
  cbn [takeAll weighted usage]. rewrite IH.
  destruct (0 <? d) eqn:E; [apply Z.ltb_lt in E | apply Z.ltb_ge in E];
    unfold withReplicaCount; cbn [AppInput.replicas].
  - ring.
  - assert (d = 0) as -> by lia. ring.
Qed.

(** Only the replica counts change, they never grow, a count that is not
    positive is left alone, and so is an app with a negative CPU or RAM
    requirement. *)
Lemma takeAll_pointwise (apps : list AppInput.t) (ds : list Z) :
  Forall2 takenOk apps ds ->
  Forall2 (fun a a' =>
             AppInput.name a' = AppInput.name a
             /\ AppInput.cpu a' = AppInput.cpu a
             /\ AppInput.ram a' = AppInput.ram a
             /\ AppInput.gpu a' = AppInput.gpu a
             /\ AppInput.replicas a' <= AppInput.replicas a
             /\ (0 <= AppInput.replicas a -> 0 <= AppInput.replicas a')
             /\ (AppInput.replicas a <= 0 -> a' = a)
             /\ (AppInput.cpu a < 0 \/ AppInput.ram a < 0 -> a' = a))
    apps (takeAll apps ds).
Proof.
  intros Oks. induction Oks as [|a d l es [Ok Neg] _ IH]; [constructor|].
  simpl. constructor; [|exact IH].
  destruct (0 <? d) eqn:E; [apply Z.ltb_lt in E | apply Z.ltb_ge in E];
    simpl; repeat split; try lia; try reflexivity;
    intros H; try specialize (Neg H); lia.
Qed.


Lemma Forall2_In_l {A B : Type} (R : A -> B -> Prop) (l : list A) (l' : list B)
    (x : A) :
  Forall2 R l l' -> In x l -> exists y, In y l' /\ R x y.
Proof.
  induction 1 as [|a b l l' Hab _ IH]; intros I; [destruct I|].
  destruct I as [<-|I]; [exists b; simpl; auto|].
  destruct (IH I) as (y & Iy & Ry). exists y. simpl. auto.
Qed.



Lemma some_left (apps : list AppInput.t) :
  existsb (fun app => 0 <? AppInput.replicas app) apps = true
  <-> exists a, In a apps /\ 0 < AppInput.replicas a.
Proof.
  rewrite existsb_exists. split; intros (a & I & H); exists a;
    (split; [exact I|]); apply Z.ltb_lt; exact H.
Qed.




Lemma placedTotal_app (l l' : list NodeAssignment.t) :
  placedTotal (l ++ l') = placedTotal l + placedTotal l'.
Proof.
  induction l as [|n l IH]; simpl; [reflexivity|]. rewrite IH. lia.
Qed.

Section Loop.

Variable nt : NodeType.t.
Hypothesis Pc : 0 < NodeType.cpu nt.
Hypothesis Pm : 0 < NodeType.ram nt.
Hypothesis Pg : 0 <= NodeType.gpu nt.

Lemma fresh_pass (remaining : list AppInput.t) :
  exists ds,
    Forall2 takenOk remaining ds
    /\ fillNode remaining 0
         (Fill.mk (NodeType.cpu nt) (NodeType.ram nt) (NodeType.gpu nt) [] [])
       = Fill.mk (NodeType.cpu nt - weighted AppInput.cpu remaining ds)
           (NodeType.ram nt - weighted AppInput.ram remaining ds)
           (NodeType.gpu nt - weighted AppInput.gpu remaining ds)
           (placeAll remaining ds 0) (takeAll remaining ds)
    /\ 0 <= NodeType.cpu nt - weighted AppInput.cpu remaining ds
    /\ 0 <= NodeType.ram nt - weighted AppInput.ram remaining ds
    /\ 0 <= NodeType.gpu nt - weighted AppInput.gpu remaining ds
    /\ (covered nt remaining ->
        (exists a, In a remaining /\ 0 < AppInput.replicas a) ->
        1 <= weighted (fun _ => 1) remaining ds).
Proof.
  destruct (fillNode_spec remaining 0
              (Fill.mk (NodeType.cpu nt) (NodeType.ram nt) (NodeType.gpu nt) [] [])
              ltac:(simpl; lia) ltac:(simpl; lia) ltac:(simpl; lia))
    as (ds & Oks & E & Hc & Hm & Hg & Prog).
  exists ds. simpl in *. repeat (split; [assumption|]).
  intros Cov Left. apply Prog; assumption.
Qed.



(** An app with replicas left and a negative CPU or RAM requirement is
    never placed, so the loop does not end. *)
Lemma packLoop_diverges (fuel : nat) :
  forall remaining nodes assignment,
    (exists a, In a remaining /\ 0 < AppInput.replicas a
               /\ (AppInput.cpu a < 0 \/ AppInput.ram a < 0)) ->
    packLoop fuel nt remaining nodes assignment = None.
Proof.
  induction fuel as [|fuel IH]; intros remaining nodes assignment (a & I & R & N).
  - simpl. replace (existsb _ remaining) with true; [reflexivity|].
    symmetry. apply some_left. eauto.
  - simpl packLoop. replace (existsb _ remaining) with true
      by (symmetry; apply some_left; eauto).
    destruct (fresh_pass remaining) as (ds & Oks & Pass & _).
    rewrite Pass. simpl. apply IH.
    destruct (Forall2_In_l _ _ _ _ (takeAll_pointwise _ _ Oks) I)
      as (a' & I' & _ & _ & _ & _ & _ & _ & _ & Same).
    rewrite (Same N) in I'. exists a. auto.
Qed.

End Loop.



Lemma maxOf_from (f : AppInput.t -> Z) (apps : list AppInput.t) (m : Z) :
  m <= fold_left (fun m app => Z.max m (f app)) apps m
  /\ forall a, In a apps ->
               f a <= fold_left (fun m app => Z.max m (f app)) apps m.
Proof.
  revert m. induction apps as [|b apps IH]; intros m; simpl.
  - split; [lia | intros a []].
  - destruct (IH (Z.max m (f b))) as [Lo Hi].
    split; [lia|]. intros a [<-|I]; [lia|]. apply Hi. exact I.
Qed.

Lemma maxOf_ge (f : AppInput.t -> Z) (apps : list AppInput.t) (a : AppInput.t) :
  In a apps -> f a <= maxOf f apps.
Proof. intros I. apply (proj2 (maxOf_from f apps 0)). exact I. Qed.

Lemma findSharedNodeType_covers (apps : list AppInput.t) (nt : NodeType.t) :
  findSharedNodeType apps = Some nt ->
  In nt DEDICATED_NODE_TYPES
  /\ forall a, In a apps ->
               AppInput.cpu a <= NodeType.cpu nt
               /\ AppInput.ram a <= NodeType.ram nt
               /\ AppInput.gpu a <= NodeType.gpu nt.
Proof.
  intros F. apply find_some in F as [I F]. split; [exact I|].
  apply andb_prop in F as [F G]. apply andb_prop in F as [C R].
  apply Z.leb_le in C, R, G.
  intros a Ia.
  pose proof (maxOf_ge AppInput.cpu apps a Ia).
  pose proof (maxOf_ge AppInput.ram apps a Ia).
  pose proof (maxOf_ge AppInput.gpu apps a Ia). lia.
Qed.



(** X24: one pass over the apps never takes more than the node holds.
    Whatever the apps are, the replicas taken in the pass use no more CPU,
    RAM and GPU than the node type has; only replica counts change, none
    grows or turns negative, and the entries pushed for the node hold
    exactly the replicas taken. *)
Theorem fillNode_within_capacity
    (nt : NodeType.t) (remaining : list AppInput.t) :
  0 <= NodeType.cpu nt -> 0 <= NodeType.ram nt -> 0 <= NodeType.gpu nt ->
  let filled :=
    fillNode remaining 0
      (Fill.mk (NodeType.cpu nt) (NodeType.ram nt) (NodeType.gpu nt) [] []) in
  usage AppInput.cpu remaining (Fill.visited filled) <= NodeType.cpu nt
  /\ usage AppInput.ram remaining (Fill.visited filled) <= NodeType.ram nt
  /\ usage AppInput.gpu remaining (Fill.visited filled) <= NodeType.gpu nt
  /\ Fill.nodeCpu filled
     = NodeType.cpu nt - usage AppInput.cpu remaining (Fill.visited filled)
  /\ Fill.nodeRam filled
     = NodeType.ram nt - usage AppInput.ram remaining (Fill.visited filled)
  /\ Fill.nodeGpu filled
     = NodeType.gpu nt - usage AppInput.gpu remaining (Fill.visited filled)
  /\ placedSum (Fill.nodeApps filled)
     = pending remaining - pending (Fill.visited filled)
  /\ Forall (fun p => 0 < Placement.replicas p) (Fill.nodeApps filled)
  /\ Forall2 (fun a a' =>
                AppInput.name a' = AppInput.name a
                /\ AppInput.cpu a' = AppInput.cpu a
                /\ AppInput.ram a' = AppInput.ram a
                /\ AppInput.gpu a' = AppInput.gpu a
                /\ AppInput.replicas a' <= AppInput.replicas a
                /\ (0 <= AppInput.replicas a -> 0 <= AppInput.replicas a')
                /\ (AppInput.replicas a <= 0 -> a' = a)
                /\ (AppInput.cpu a < 0 \/ AppInput.ram a < 0 -> a' = a))
       remaining (Fill.visited filled).
Proof.
  intros Hc Hm Hg filled.
  destruct (fillNode_spec remaining 0
              (Fill.mk (NodeType.cpu nt) (NodeType.ram nt) (NodeType.gpu nt) [] [])
              Hc Hm Hg)
    as (ds & Oks & E & Uc & Um & Ug & _).
  unfold filled. rewrite E. simpl in *.
  rewrite !(takeAll_usage _ _ _ Oks), (takeAll_pending _ _ Oks),
    (placeAll_sum _ _ 0 Oks).
  split; [lia|]. split; [lia|]. split; [lia|].
  split; [reflexivity|]. split; [reflexivity|]. split; [reflexivity|].
  split; [lia|]. split; [apply placeAll_positive; exact Oks|].
  apply takeAll_pointwise. exact Oks.
Qed.

Lemma fillNode_within_capacity_witness :
  let a := AppInput.mk "a" 2 0 4 1 1 3 None None in
  let filled := fillNode [a] 0 (Fill.mk 4 16 0 [] []) in
  usage AppInput.cpu [a] (Fill.visited filled) <= 4.
Proof.
  cbv zeta.
  exact (proj1 (fillNode_within_capacity (NodeType.mk "D4" 4 16 0)
                  [AppInput.mk "a" 2 0 4 1 1 3 None None]
                  ltac:(simpl; lia) ltac:(simpl; lia) ltac:(simpl; lia))).
Defined.

(** X25: with a node type found, an app that has replicas to place and a
    negative CPU or RAM requirement is never placed: the [while] loop does
    not end, whatever the number of turns allowed. *)
Theorem packDedicatedNodes_never_ends
    (apps : list AppInput.t) (nt : NodeType.t) :
  findSharedNodeType apps = Some nt ->
  (exists a, In a apps /\ 0 < AppInput.replicas a
             /\ (AppInput.cpu a < 0 \/ AppInput.ram a < 0)) ->
  forall fuel, packDedicatedNodes fuel apps = None.
Proof.
  intros F Bad fuel.
  destruct (findSharedNodeType_covers _ _ F) as [I _].
  destruct (catalog_positive nt I) as (Pc & Pm & Pg).
  unfold packDedicatedNodes. rewrite F.
  rewrite (packLoop_diverges nt Pc Pm Pg fuel apps 0 [] Bad). reflexivity.
Qed.

Lemma packDedicatedNodes_never_ends_witness :
  packDedicatedNodes 1000 [AppInput.mk "neg" (-1) 0 1 1 1 1 None None] = None.
Proof.
  apply (packDedicatedNodes_never_ends
           [AppInput.mk "neg" (-1) 0 1 1 1 1 None None]
           (NodeType.mk "D4" 4 16 0) eq_refl).
  eexists. split; [left; reflexivity|]. simpl. split; [lia|]. left. lia.
Defined.

(** X26: the packing sizes one node type for all apps.  An app that no
    catalog entry fits therefore leaves every app without nodes: the result
    has no node type, zero nodes and an empty assignment, at once. *)
Theorem packDedicatedNodes_unfit_app
    (apps : list AppInput.t) (a : AppInput.t) (fuel : nat) :
  In a apps -> findNodeType a = None ->
  findSharedNodeType apps = None
  /\ packDedicatedNodes fuel apps = Some (Packed.mk None 0 []).
Proof.
  intros I U.
  assert (N : findSharedNodeType apps = None).
  { destruct (findSharedNodeType apps) as [nt|] eqn:F; [|reflexivity].
    exfalso. destruct (findSharedNodeType_covers _ _ F) as [In' Cov].
    destruct (Cov a I) as (C & R & G).
    pose proof (findNodeType_none a nt U In') as Not.
    unfold fits in Not.
    apply Z.leb_le in C, R, G. rewrite C, R, G in Not. discriminate. }
  split; [exact N|]. unfold packDedicatedNodes. rewrite N. reflexivity.
Qed.

Lemma packDedicatedNodes_unfit_app_witness :
  let web := AppInput.mk "web" 2 0 4 1 1 12 None None in
  let gpu8 := AppInput.mk "train" 8 8 64 1 1 2 None None in
  packDedicatedNodes 0 [web; gpu8] = Some (Packed.mk None 0 []).
Proof.
  cbv zeta.
  exact (proj2 (packDedicatedNodes_unfit_app
                  [AppInput.mk "web" 2 0 4 1 1 12 None None;
                   AppInput.mk "train" 8 8 64 1 1 2 None None]
                  (AppInput.mk "train" 8 8 64 1 1 2 None None) 0
                  (or_intror (or_introl eq_refl)) eq_refl)).
Defined.
